(** * Shein Voucher Hub bot: session state machine, orders and inventory

    A shallow embedding of the two source files of the bot
    ([src/index.js] and the second, unnamed listing [src/unnamed/part_000])
    and the properties of the order / inventory workflow stated about them.

    Layout:
    - [JS]: the JavaScript built-ins the handlers rely on (trim, split, join,
      parseInt, parseFloat, Number conversion, doubles and how they print,
      relational comparison, truthiness).
    - [Bot]: the world the handlers run in (the four sheets, the session map,
      the messages sent, the faults of the sheet service) and the small
      state-and-exception monad the handlers are written in.
    - [Part000]: the handlers of [src/unnamed/part_000].
    - [IndexJs]: the handlers of [src/index.js].
    - Part II: lemmas and theorems. *)

From Stdlib Require Import ZArith QArith Qabs Ascii String.
From Stdlib Require Import Decimal DecimalString DecimalPos DecimalZ.
From stdpp Require Import base decidable option list strings gmap.

Local Open Scope Z_scope.

(* ===================================================================== *)
(** * Part I. Definitions *)
(* ===================================================================== *)

(** ** JavaScript built-ins *)

Module JS.

(** JavaScript strings are sequences of code units; the model keeps the code
    units below 256 (one [ascii] each).

    A Number is NaN, a whole number, a finite number that is not whole, or
    an infinity.  What [parseInt] gives, an id, a count or a quantity, is
    NaN or a whole number ([num]).  A number that is not whole is held as
    the exact value of its double: decimal literals and the results of
    [-] and [*] are rounded to the nearest double.  Whole numbers are kept
    exact, as doubles keep them up to 2^53; the rounding of larger whole
    numbers that are read from a text of digits or computed from whole
    numbers is not modelled. *)
Inductive num := NaN | Int (z : Z).

#[global] Instance num_eq_dec : EqDecision num.
Proof. solve_decision. Defined.

Inductive number := Num (n : num) | Frac (q : Q) | Inf (neg : bool).

Coercion Num : num >-> number.

Definition isNaN (a : num) : bool :=
  match a with NaN => true | Int _ => false end.

(** White space and line terminators below U+0100: TAB, LF, VT, FF, CR, SP, NBSP. *)
Definition is_ws (a : ascii) : bool :=
  match N_of_ascii a with
  | 9 | 10 | 11 | 12 | 13 | 32 | 160 => true
  | _ => false
  end%N.

Fixpoint trimStart (s : string) : string :=
  match s with
  | EmptyString => EmptyString
  | String a r => if is_ws a then trimStart r else s
  end.

Fixpoint trimEnd (s : string) : string :=
  match s with
  | EmptyString => EmptyString
  | String a r =>
      match trimEnd r with
      | EmptyString => if is_ws a then EmptyString else String a EmptyString
      | r' => String a r'
      end
  end.

(** [String.prototype.trim]. *)
Definition trim (s : string) : string := trimEnd (trimStart s).

(** [s.split(sep)] for a one-character separator: never an empty array. *)
Fixpoint split_on (sep : ascii) (s : string) : list string :=
  match s with
  | EmptyString => [EmptyString]
  | String a r =>
      if Ascii.eqb a sep then EmptyString :: split_on sep r
      else match split_on sep r with
           | x :: xs => String a x :: xs
           | [] => [String a EmptyString]
           end
  end.

(** [s.split(/[...]+/)]: a maximal run of separator characters is one
    separator; [prev] tells that the previous character was one. *)
Fixpoint split_runs (is_sep : ascii → bool) (prev : bool) (s : string) : list string :=
  match s with
  | EmptyString => [EmptyString]
  | String a r =>
      if is_sep a then
        if prev then split_runs is_sep true r
        else EmptyString :: split_runs is_sep true r
      else match split_runs is_sep false r with
           | x :: xs => String a x :: xs
           | [] => [String a EmptyString]
           end
  end.

(** [l.join(sep)]. *)
Fixpoint join (sep : string) (l : list string) : string :=
  match l with
  | [] => EmptyString
  | [x] => x
  | x :: xs => x +:+ sep +:+ join sep xs
  end.

Definition LF : ascii := ascii_of_N 10.
Definition COMMA : ascii := ascii_of_N 44.
Definition newline : string := String LF EmptyString.

(** [s.startsWith(p)] together with [s.replace(p, '')]: when [s] starts with
    [p] the first occurrence of [p] is that prefix. *)
Fixpoint strip_prefix (p s : string) : option string :=
  match p, s with
  | EmptyString, _ => Some s
  | String a p', String b s' => if Ascii.eqb a b then strip_prefix p' s' else None
  | String _ _, EmptyString => None
  end.

Definition startsWith (s p : string) : bool := bool_decide (is_Some (strip_prefix p s)).

(** The value of a digit in the given radix (letters count from ten). *)
Definition digit_of (radix : Z) (a : ascii) : option Z :=
  let c := Z.of_N (N_of_ascii a) in
  let v := if (48 <=? c) && (c <=? 57) then Some (c - 48)
           else if (97 <=? c) && (c <=? 122) then Some (c - 87)
           else if (65 <=? c) && (c <=? 90) then Some (c - 55)
           else None in
  match v with
  | Some d => if d <? radix then Some d else None
  | None => None
  end.

(** The longest prefix of digits: its value ([None] when it is empty) and
    what follows it. *)
Fixpoint digits_prefix (radix : Z) (acc : option Z) (s : string) : option Z * string :=
  match s with
  | String a r =>
      match digit_of radix a with
      | Some d => digits_prefix radix (Some (default 0 acc * radix + d)) r
      | None => (acc, s)
      end
  | EmptyString => (acc, s)
  end.

Definition strip_sign (s : string) : bool * string :=
  match s with
  | String a r =>
      if Ascii.eqb a "-" then (true, r)
      else if Ascii.eqb a "+" then (false, r)
      else (false, s)
  | EmptyString => (false, s)
  end.

(** A radix prefix [0x], [0o] or [0b] (either case), and what follows it. *)
Definition radix_prefix (s : string) : option (Z * string) :=
  match s with
  | String a (String b r) =>
      if Ascii.eqb a "0" then
        if Ascii.eqb b "x" || Ascii.eqb b "X" then Some (16, r)
        else if Ascii.eqb b "o" || Ascii.eqb b "O" then Some (8, r)
        else if Ascii.eqb b "b" || Ascii.eqb b "B" then Some (2, r)
        else None
      else None
  | _ => None
  end.

Definition apply_sign (neg : bool) (v : Z) : Z := if neg then - v else v.

(** [parseInt(s)] with no radix: leading white space, a sign, an optional
    [0x] prefix, then the longest run of digits; anything after it is
    ignored, and no digit at all gives NaN. *)
Definition parseInt (s : string) : num :=
  let '(neg, s1) := strip_sign (trimStart s) in
  let '(radix, s2) :=
    match radix_prefix s1 with
    | Some (16, r) => (16, r)
    | _ => (10, s1)
    end in
  match fst (digits_prefix radix None s2) with
  | Some v => Int (apply_sign neg v)
  | None => NaN
  end.

Definition all_digits (radix : Z) (s : string) : num :=
  match digits_prefix radix None s with
  | (Some v, EmptyString) => Int v
  | _ => NaN
  end.

(** The texts [Number(s)] reads as a whole number without a point or an
    exponent: the empty text (0), a run of digits with an optional sign,
    and the literals with a radix prefix. *)
Definition integer_literal (s : string) : num :=
  let t := trim s in
  if String.eqb t EmptyString then Int 0
  else
    match radix_prefix t with
    | Some (radix, r) => all_digits radix r
    | None =>
        let '(neg, d) := strip_sign t in
        match all_digits 10 d with
        | Int v => Int (apply_sign neg v)
        | NaN => NaN
        end
    end.

(** [Number.prototype.toString] of NaN and of a whole number (below 10^21,
    where JavaScript changes to the exponent form). *)
Definition num_to_string (n : num) : string :=
  match n with
  | NaN => "NaN"
  | Int z => NilZero.string_of_int (Z.to_int z)
  end.

(** *** Doubles *)

(** [N / D] rounded to the nearest integer, a tie to the even one. *)
Definition round_half_even (N D : Z) : Z :=
  let q := N / D in
  match 2 * (N mod D) ?= D with
  | Lt => q
  | Gt => q + 1
  | Eq => if Z.even q then q else q + 1
  end.

(** The integer [e] with [2^e ≤ n/d < 2^(e+1)]. *)
Definition floor_log2 (n d : positive) : Z :=
  let e := Z.log2 (Zpos n) - Z.log2 (Zpos d) in
  let below := if 0 <=? e then Zpos n <? Zpos d * 2 ^ e else Zpos n * 2 ^ (- e) <? Zpos d in
  if below then e - 1 else e.

(** The double nearest to the positive rational [n/d] (53 bits, a tie to
    the even mantissa, the least exponent -1074): its exact value, or
    nothing beyond the largest double. *)
Definition nearest_double (n d : positive) : option Q :=
  let p := Z.max (floor_log2 n d - 52) (-1074) in
  if 0 <=? p then
    let m := round_half_even (Zpos n) (Zpos d * 2 ^ p) in
    if 2 ^ 1024 <=? m * 2 ^ p then None else Some (m * 2 ^ p # 1)
  else
    let m := round_half_even (Zpos n * 2 ^ (- p)) (Zpos d) in
    Some (Qred (m # Z.to_pos (2 ^ (- p)))).

(** A finite value as a Number: whole, or not. *)
Definition number_of_value (v : Q) : number :=
  if (Zpos (Qden v) =? 1) then Int (Qnum v) else Frac v.

(** The Number a real computation gives: its exact result, rounded. *)
Definition number_of_Q (q : Q) : number :=
  match Qnum q with
  | 0 => Int 0
  | Zpos n =>
      match nearest_double n (Qden q) with
      | Some v => number_of_value v
      | None => Inf false
      end
  | Zneg n =>
      match nearest_double n (Qden q) with
      | Some v => number_of_value (- v)
      | None => Inf true
      end
  end.

Definition pow10 (e : Z) : Q := Qpower (10 # 1) e.

Definition Qfloor' (q : Q) : Z := Qnum q / Zpos (Qden q).

(** The integer [n] with [10^(n-1) ≤ v < 10^n], for a positive [v]. *)
Fixpoint decimal_point_from (fuel : nat) (n : Z) (v : Q) : Z :=
  match fuel with
  | O => n
  | S fuel' => if Qle_bool (pow10 n) v then decimal_point_from fuel' (n + 1) v else n
  end.

Definition decimal_point (v : Q) : Z :=
  match Qnum v with
  | Zpos n => decimal_point_from 8 (floor_log2 n (Qden v) * 30103 / 100000 - 1) v
  | _ => 0
  end.

(** Whether the decimal [c × 10^e] reads back as the double [v]. *)
Definition reads_back (v : Q) (c e : Z) : bool :=
  match c with
  | Zpos n =>
      let q := Qred (Qmult (c # 1) (pow10 e)) in
      match Qnum q with
      | Zpos n' =>
          match nearest_double n' (Qden q) with
          | Some v' => Qeq_bool v' v
          | None => false
          end
      | _ => false
      end
  | _ => false
  end.

(** The shortest decimal that reads back as the positive double [v]: its
    digits [c] and exponent [e] (the value is [c × 10^e]), trying [k],
    [k+1], ... digits. *)
Fixpoint shortest_from (fuel : nat) (k : Z) (n : Z) (v : Q) : Z * Z :=
  let e := n - k in
  let t := Qred (Qmult v (pow10 (- e))) in
  let lo := Qfloor' t in
  let hi := lo + 1 in
  let ok_lo := reads_back v lo e in
  let ok_hi := reads_back v hi e in
  let nearer_hi :=
    (* t - lo compared with hi - t *)
    match Qcompare (Qminus t (lo # 1)) (Qminus (hi # 1) t) with
    | Lt => false
    | Gt => true
    | Eq => Z.odd lo
    end in
  match fuel with
  | O => (if nearer_hi then hi else lo, e)
  | S fuel' =>
      if ok_lo && ok_hi then (if nearer_hi then hi else lo, e)
      else if ok_lo then (lo, e)
      else if ok_hi then (hi, e)
      else shortest_from fuel' (k + 1) n v
  end.

Fixpoint strip_zeros (fuel : nat) (c e : Z) : Z * Z :=
  match fuel with
  | O => (c, e)
  | S fuel' => if (c mod 10 =? 0) && negb (c =? 0) then strip_zeros fuel' (c / 10) (e + 1) else (c, e)
  end.

Definition zeros (n : Z) : string := String.concat "" (repeat "0"%string (Z.to_nat n)).

Definition substring_from (n : nat) (s : string) : string :=
  String.substring n (String.length s - n) s.

(** [Number::toString] of a positive finite value. *)
Definition positive_to_string (v : Q) : string :=
  let '(c, e) := shortest_from 17 1 (decimal_point v) v in
  let '(c, e) := strip_zeros 400 c e in
  let ds := num_to_string (Int c) in
  let k := Z.of_nat (String.length ds) in
  let n := e + k in
  if (k <=? n) && (n <=? 21) then ds +:+ zeros (n - k)
  else if (0 <? n) && (n <=? 21) then
    String.substring 0 (Z.to_nat n) ds +:+ "." +:+ substring_from (Z.to_nat n) ds
  else if (-6 <? n) && (n <=? 0) then "0." +:+ zeros (- n) +:+ ds
  else
    let x := n - 1 in
    let sign := if x <? 0 then "-" else "+" in
    let mant := if k =? 1 then ds
                else String.substring 0 1 ds +:+ "." +:+ substring_from 1 ds in
    mant +:+ "e" +:+ sign +:+ num_to_string (Int (Z.abs x)).

Definition number_to_string (x : number) : string :=
  match x with
  | Num NaN => "NaN"
  | Num (Int z) =>
      if Z.abs z <=? 2 ^ 53 then num_to_string (Int z)
      else
        match nearest_double (Z.to_pos (Z.abs z)) 1 with
        | Some v => (if z <? 0 then "-" else "") +:+ positive_to_string v
        | None => if z <? 0 then "-Infinity" else "Infinity"
        end
  | Inf false => "Infinity"
  | Inf true => "-Infinity"
  | Frac q => if Qle_bool q 0 then "-" +:+ positive_to_string (- q) else positive_to_string q
  end.


(** Decimal digits for [parseFloat]: value, number of digits, rest. *)
Fixpoint dec_digits (acc : Z) (n : nat) (s : string) : Z * nat * string :=
  match s with
  | String a r =>
      match digit_of 10 a with
      | Some d => dec_digits (acc * 10 + d) (S n) r
      | None => (acc, n, s)
      end
  | EmptyString => (acc, n, s)
  end.

(** A decimal literal after its sign: the digits before and after the
    point as one integer, the number of digits after the point, and what
    follows the literal's digits. *)
Definition mantissa (s : string) : option (Z * nat * string) :=
  let '(ip, ni, s2) := dec_digits 0 0 s in
  let '(fp, nf, s3) :=
    match s2 with
    | String a r => if Ascii.eqb a "." then dec_digits 0 0 r else (0, 0%nat, s2)
    | EmptyString => (0, 0%nat, s2)
    end in
  if (ni + nf =? 0)%nat then None else Some (ip * 10 ^ Z.of_nat nf + fp, nf, s3).

(** An exponent part [e], [e+] or [e-] with its digits, and what follows. *)
Definition exponent_part (s : string) : option (Z * string) :=
  match s with
  | String a r =>
      if Ascii.eqb a "e" || Ascii.eqb a "E" then
        let '(neg, d) := strip_sign r in
        match digits_prefix 10 None d with
        | (Some e, rest) => Some (apply_sign neg e, rest)
        | (None, _) => None
        end
      else None
  | EmptyString => None
  end.

(** The Number a decimal literal denotes. *)
Definition decimal_value (neg : bool) (m : Z) (nf : nat) (e : Z) : number :=
  number_of_Q (Qred (Qmult (apply_sign neg m # Z.to_pos (10 ^ Z.of_nat nf)) (pow10 e))).

(** [parseFloat(s)]: the longest prefix that is a decimal literal. *)
Definition parseFloat (s : string) : number :=
  let '(neg, s1) := strip_sign (trimStart s) in
  if startsWith s1 "Infinity" then Inf neg
  else
    match mantissa s1 with
    | None => NaN
    | Some (m, nf, s3) =>
        decimal_value neg m nf (match exponent_part s3 with Some (e, _) => e | None => 0 end)
    end.

(** A text that is a decimal literal as a whole. *)
Definition decimal_literal (t : string) : number :=
  let '(neg, s1) := strip_sign t in
  if String.eqb s1 "Infinity" then Inf neg
  else
    match mantissa s1 with
    | None => NaN
    | Some (m, nf, s3) =>
        match exponent_part s3 with
        | Some (e, EmptyString) => decimal_value neg m nf e
        | Some (_, String _ _) => NaN
        | None => if String.eqb s3 EmptyString then decimal_value neg m nf 0 else NaN
        end
    end.

(** [Number(s)]. *)
Definition ToNumber (s : string) : number :=
  match integer_literal s with
  | Int z => Int z
  | NaN => decimal_literal (trim s)
  end.

(** [parseFloat(c)] on a cell ([undefined] reads as the text "undefined"). *)
Definition parseFloat_cell (c : option string) : number :=
  match c with
  | Some s => parseFloat s
  | None => NaN
  end.

(** *** Operators on Numbers *)

Definition number_value (x : number) : option Q :=
  match x with
  | Num (Int z) => Some (z # 1)
  | Frac q => Some q
  | _ => None
  end.

Definition number_isNaN (x : number) : bool :=
  match x with Num NaN => true | _ => false end.

(** [a < b]. *)
Definition number_lt (a b : number) : bool :=
  match number_value a, number_value b with
  | Some x, Some y => negb (Qle_bool y x)
  | _, _ =>
      match a, b with
      | Num NaN, _ | _, Num NaN => false
      | Inf na, Inf nb => na && negb nb
      | Inf na, _ => na
      | _, Inf nb => negb nb
      | _, _ => false
      end
  end.

(** [a == b] on two Numbers. *)
Definition number_eqb (a b : number) : bool :=
  match number_value a, number_value b with
  | Some x, Some y => Qeq_bool x y
  | _, _ =>
      match a, b with
      | Inf na, Inf nb => Bool.eqb na nb
      | _, _ => false
      end
  end.

(** [a <= b]. *)
Definition number_le (a b : number) : bool := number_lt a b || number_eqb a b.

(** [a - b]: the exact difference, rounded to a double. *)
Definition number_sub (a b : number) : number :=
  match a, b with
  | Num NaN, _ | _, Num NaN => NaN
  | Inf na, Inf nb => if Bool.eqb na nb then NaN else Inf na
  | Inf na, _ => Inf na
  | _, Inf nb => Inf (negb nb)
  | _, _ =>
      match number_value a, number_value b with
      | Some x, Some y => number_of_Q (Qred (Qminus x y))
      | _, _ => NaN
      end
  end.

(** [a * b]: the exact product, rounded to a double. *)
Definition number_mul (a b : number) : number :=
  match a, b with
  | Num NaN, _ | _, Num NaN => NaN
  | _, _ =>
      match number_value a, number_value b with
      | Some x, Some y => number_of_Q (Qred (Qmult x y))
      | _, _ =>
          let sign (x : number) : Z :=
            match x with
            | Inf neg => if neg then -1 else 1
            | _ => match number_value x with
                   | Some q => Z.sgn (Qnum q)
                   | None => 0
                   end
            end in
          match sign a * sign b with
          | 0 => Num NaN
          | Zpos _ => Inf false
          | Zneg _ => Inf true
          end
      end
  end.

(** [x.toFixed(2)]. *)
Definition toFixed2 (x : number) : string :=
  match number_value x with
  | None => number_to_string x
  | Some v =>
      let a := Qabs v in
      if Qle_bool (pow10 21) a then number_to_string x
      else
        let neg := negb (Qle_bool 0 v) in
        let n := (2 * Qnum a * 100 + Zpos (Qden a)) / (2 * Zpos (Qden a)) in
        let frac := n mod 100 in
        (if neg then "-" else "") +:+ num_to_string (Int (n / 100)) +:+ "." +:+
        (if frac <? 10 then "0" else "") +:+ num_to_string (Int frac)
  end.

(** *** Cells *)

(** A sheet cell as the handlers see it: a string, or [undefined]. *)
Definition truthy (c : option string) : bool :=
  match c with
  | Some s => negb (String.eqb s EmptyString)
  | None => false
  end.

(** [a || b] on cells. *)
Definition or_else (a b : option string) : option string :=
  if truthy a then a else b.

(** [Number(c)], the conversion that [<], [>], [-] and [==] apply to a cell. *)
Definition cell_to_number (c : option string) : number :=
  match c with
  | Some s => ToNumber s
  | None => NaN
  end.

(** [parseInt(c)]: [undefined] is first turned into the text "undefined". *)
Definition parseInt_cell (c : option string) : num :=
  match c with
  | Some s => parseInt s
  | None => NaN
  end.

(** [x < y] on two cells: two strings compare by code units; otherwise both
    sides are converted to numbers, and a NaN makes the comparison false. *)
Definition lt_cells (x y : option string) : bool :=
  match x, y with
  | Some a, Some b => String.ltb a b
  | _, _ => number_lt (cell_to_number x) (cell_to_number y)
  end.

(** [c == n] for a cell and a number. *)
Definition loose_eq_num (c : option string) (n : num) : bool :=
  match c with
  | Some s => number_eqb (ToNumber s) n
  | None => false
  end.

(** [arr.splice(0, n)]: the removed head and what is left of the array. *)
Definition splice0 {A} (n : num) (arr : list A) : list A * list A :=
  let k := match n with Int z => Z.to_nat z | NaN => 0%nat end in
  (take k arr, drop k arr).

(** *** Predicates on texts used to state properties *)

Fixpoint all_chars (P : ascii → bool) (s : string) : bool :=
  match s with
  | EmptyString => true
  | String a r => P a && all_chars P r
  end.

Definition is_digit (a : ascii) : bool :=
  let c := Z.of_N (N_of_ascii a) in (48 <=? c) && (c <=? 57).

(** A non-empty run of decimal digits: what [toString] makes of a natural
    number. *)
Definition digits_only (s : string) : bool :=
  negb (String.eqb s EmptyString) && all_chars is_digit s.

(** The number a run of decimal digits denotes, continuing from [acc]. *)
Fixpoint dec_value (acc : Z) (s : string) : Z :=
  match s with
  | EmptyString => acc
  | String a r => dec_value (acc * 10 + (Z.of_N (N_of_ascii a) - 48)) r
  end.

(** The same for the decimal numerals of the standard library. *)
Fixpoint uint_val (acc : Z) (d : Decimal.uint) : Z :=
  match d with
  | Decimal.Nil => acc
  | Decimal.D0 d => uint_val (acc * 10 + 0) d
  | Decimal.D1 d => uint_val (acc * 10 + 1) d
  | Decimal.D2 d => uint_val (acc * 10 + 2) d
  | Decimal.D3 d => uint_val (acc * 10 + 3) d
  | Decimal.D4 d => uint_val (acc * 10 + 4) d
  | Decimal.D5 d => uint_val (acc * 10 + 5) d
  | Decimal.D6 d => uint_val (acc * 10 + 6) d
  | Decimal.D7 d => uint_val (acc * 10 + 7) d
  | Decimal.D8 d => uint_val (acc * 10 + 8) d
  | Decimal.D9 d => uint_val (acc * 10 + 9) d
  end.

Definition no_lf (s : string) : bool := all_chars (λ a, negb (Ascii.eqb a LF)) s.

(** The Numbers the model holds as the code does: all but the whole numbers
    beyond 2^53, which a double rounds. *)
Definition safe_number (x : number) : bool :=
  match x with
  | Num (Int z) => Z.abs z <=? 2 ^ 53
  | _ => true
  end.

(** A cell that [Number] and [parseInt] read as such Numbers. *)
Definition safe_cell (c : option string) : bool :=
  safe_number (cell_to_number c) && safe_number (parseInt_cell c).

End JS.


(** ** The world of the handlers *)

Module Bot.
Import JS.

(** *** Row objects

    A row object as [getRows] builds it: an ordered list of keys with their
    cells.  Assigning an existing key replaces its cell in place, a new key
    is added at the end, and a key that was never set reads as
    [undefined].  This is an object whose keys are plain names
    ([plain_header] below); keys that are integer indices JavaScript would
    list first, and under a name that every object inherits it reads what
    is inherited. *)
Definition Obj := list (string * option string).

Fixpoint obj_get (o : Obj) (k : string) : option string :=
  match o with
  | [] => None
  | (k', v) :: o' => if decide (k' = k) then v else obj_get o' k
  end.

Fixpoint obj_set (k : string) (v : option string) (o : Obj) : Obj :=
  match o with
  | [] => [(k, v)]
  | (k', v') :: o' => if decide (k' = k) then (k, v) :: o' else (k', v') :: obj_set k v o'
  end.

Definition Object_keys (o : Obj) : list string := o.*1.

(** *** The spreadsheet service

    A sheet is the grid of cell texts the service holds; its first row is
    the header row.  Reading a range omits the empty cells at the end of a
    row; writing a row leaves a cell alone where the written value is
    [null] (an [undefined] of the handler).  Cells are read back as they
    were written (the service's own parsing of entered values is not
    modelled). *)
Definition Grid := list (list string).

Inductive SheetName := Users | Categories | Orders | Logs.

Fixpoint drop_trailing_empty (cells : list string) : list string :=
  match cells with
  | [] => []
  | c :: cs =>
      match drop_trailing_empty cs with
      | [] => if decide (c = EmptyString) then [] else [c]
      | cs' => c :: cs'
      end
  end.

(** What [spreadsheets.values.get] answers for a grid. *)
Definition values_get (g : Grid) : Grid := map drop_trailing_empty g.

(** What one written row leaves in the grid row it lands on. *)
Fixpoint write_cells (newRow : list (option string)) (cells : list string) : list string :=
  match newRow, cells with
  | [], _ => cells
  | v :: vs, [] => default EmptyString v :: write_cells vs []
  | v :: vs, c :: cs => default c v :: write_cells vs cs
  end.

(** [spreadsheets.values.update] of the row with 0-based grid index [i]. *)
Definition values_update (i : nat) (newRow : list (option string)) (g : Grid) : Grid :=
  if decide (i < length g)%nat then alter (write_cells newRow) i g
  else g ++ replicate (i - length g) [] ++ [write_cells newRow []].

(** [spreadsheets.values.append]: the rows go below the last one. *)
Definition values_append (newRows : list (list string)) (g : Grid) : Grid := g ++ newRows.

(** *** Sessions *)

Inductive SState :=
  | waiting_for_captcha
  | waiting_for_qty_input
  | waiting_for_qty_selection
  | waiting_for_custom_qty_input
  | waiting_for_proof
  | waiting_for_screenshot
  | waiting_for_utr
  | waiting_for_recovery_oid
  | in_support_mode
  | adm_waiting_for_cat_value
  | adm_waiting_for_cat_price
  | adm_waiting_for_stock_cat_select
  | adm_waiting_for_voucher_codes
  | adm_waiting_for_code_to_remove
  | adm_waiting_for_tier_selection
  | adm_waiting_for_tier_price_input
  | adm_waiting_for_broadcast_message
  | adm_waiting_for_dm_target_id
  | adm_waiting_for_dm_message
  | adm_waiting_for_block_id.

#[global] Instance SState_eq_dec : EqDecision SState.
Proof. solve_decision. Defined.

(** The states whose name starts with [adm_]. *)
Definition is_admin_state (s : SState) : bool :=
  match s with
  | adm_waiting_for_cat_value | adm_waiting_for_cat_price
  | adm_waiting_for_stock_cat_select | adm_waiting_for_voucher_codes
  | adm_waiting_for_code_to_remove | adm_waiting_for_tier_selection
  | adm_waiting_for_tier_price_input | adm_waiting_for_broadcast_message
  | adm_waiting_for_dm_target_id | adm_waiting_for_dm_message
  | adm_waiting_for_block_id => true
  | _ => false
  end.

(** One entry of [userStates]: an object whose properties come and go. *)
Record Session := mkSession {
  state : option SState;
  answer : option Z;
  categoryId : option string;
  qty : option Z;
  totalCost : option number;
  proofId : option string;
  temp_cat_value : option Z;
  tier : option string;
  dmTargetId : option Z;
}.

Definition empty_session : Session :=
  mkSession None None None None None None None None None.

(** [{ state: st }]. *)
Definition session_in (st : SState) : Session :=
  mkSession (Some st) None None None None None None None None.

Definition with_state (st : option SState) (s : Session) : Session :=
  mkSession st (answer s) (categoryId s) (qty s) (totalCost s) (proofId s)
    (temp_cat_value s) (tier s) (dmTargetId s).

(** *** Messages

    Only what a reply tells and to whom is kept, not its wording. *)
Inductive Dest :=
  | ToChat (id : Z)                (* a chat or user id that is a number *)
  | ToCell (c : option string)     (* a user id read from a sheet cell *)
  | ToOrdersChannel.

Inductive Msg :=
  | MAccessDenied
  | MBlocked
  | MWelcomeJoin
  | MMainMenu
  | MJoinFirst
  | MVerificationError
  | MCheckJoinFailed (userId : Z)
  | MCaptcha (n1 n2 : Z)
  | MVerified
  | MWrongAnswer
  | MCategoryNotFound
  | MAskCustomQuantity
  | MInvalidQuantity
  | MCategoryMissing
  | MNotEnoughStock (stock value : option string)
  | MPricingNotSet
  | MPaymentRequired (value : option string) (qty : Z) (rate total : number)
  | MAskScreenshot
  | MScreenshotReceived
  | MNotAPhoto
  | MInvalidUtr
  | MOrderSubmitted (orderId : string)
  | MNewOrder (orderId : string) (proof : option string) (utr : string)
  | MRecoverNotFound (orderId : string)
  | MVouchersFound (orderId : string) (codes : option string)
  | MRecoverStatus (status : option string)
  | MSupportText (userId : Z) (text : option string)
  | MSupportPhoto (userId : Z) (fileId : string) (caption : option string)
  | MSupportForwarded
  | MOrderUnknownOrProcessed (orderId : string)
  | MStockLow (category : option string) (available : option (option string))
  | MInsufficientCodes (category : option string) (available : nat)
  | MOrderApproved (orderId : string) (codes : string)
  | MApprovedAdmin (orderId : string)
  | MApprovedChannel (order : Obj)
  | MDeclinedAdmin (orderId : string)
  | MOrderDeclined (orderId : string)
  | MAskCatValue
  | MInvalidCatValue
  | MAskCatPrice (value : Z)
  | MInvalidCatPrice
  | MCategoryCreated (value : Z) (price : number)
  | MNoCategories
  | MPricingMenu
  | MCategoryDeleted (categoryId : string)
  | MAskVoucherCodes
  | MStockAdded (added : nat) (categoryId : option string) (stock : nat)
  | MStockCategoryMissing
  | MAskCodeToRemove
  | MCodeRemoved (code : string) (categoryId : option string)
  | MCodeNotFound (code : string)
  | MVoucherCodes (cat : Obj)
  | MNoCodesFound (value : option string)
  | MChooseTier (categoryId : string)
  | MAskTierPrice (tier : option string)
  | MAskBroadcast
  | MBroadcasting
  | MBroadcast (text : option string)
  | MBroadcastDone
  | MAskDmTarget
  | MInvalidUserId
  | MAskDmText (target : Z)
  | MAdminMessage (text : option string)
  | MDmSent (target : Z)
  | MDmFailed
  | MMsgUsage
  | MAskBlockTarget
  | MStatusChanged (target : Z) (status : string)
  | MUserUnknown (target : Z)
  | MSheetError (op : string) (sheet : SheetName)
  | MNotUnderstood.

(** *** The world *)

Record World := mkWorld {
  sh_users : Grid;
  sh_categories : Grid;
  sh_orders : Grid;
  sh_logs : Grid;
  userStates : gmap Z Session;
  outbox : list (Dest * Msg);     (* oldest first *)
  faults : list bool;             (* one per call of the sheet service, [true]: it throws *)
}.

Definition sheet (n : SheetName) (w : World) : Grid :=
  match n with
  | Users => sh_users w
  | Categories => sh_categories w
  | Orders => sh_orders w
  | Logs => sh_logs w
  end.

Definition set_sheet (n : SheetName) (g : Grid) (w : World) : World :=
  match n with
  | Users => mkWorld g (sh_categories w) (sh_orders w) (sh_logs w) (userStates w) (outbox w) (faults w)
  | Categories => mkWorld (sh_users w) g (sh_orders w) (sh_logs w) (userStates w) (outbox w) (faults w)
  | Orders => mkWorld (sh_users w) (sh_categories w) g (sh_logs w) (userStates w) (outbox w) (faults w)
  | Logs => mkWorld (sh_users w) (sh_categories w) (sh_orders w) g (userStates w) (outbox w) (faults w)
  end.

Definition set_userStates (u : gmap Z Session) (w : World) : World :=
  mkWorld (sh_users w) (sh_categories w) (sh_orders w) (sh_logs w) u (outbox w) (faults w).

Definition set_outbox (o : list (Dest * Msg)) (w : World) : World :=
  mkWorld (sh_users w) (sh_categories w) (sh_orders w) (sh_logs w) (userStates w) o (faults w).

Definition set_faults (f : list bool) (w : World) : World :=
  mkWorld (sh_users w) (sh_categories w) (sh_orders w) (sh_logs w) (userStates w) (outbox w) f.

(** *** Handlers: state passing with exceptions

    An [async] handler runs from one [await] to the next; a rejected
    [await] or a thrown error ends it where it stands, and what it had
    written by then stays written. *)
Inductive Err := TypeError | ReferenceError | ServiceError.

Inductive Res (A : Type) :=
  | Ok (a : A)
  | Throw (e : Err).
Arguments Ok {A} a.
Arguments Throw {A} e.

Definition M (A : Type) : Type := World → Res A * World.

#[global] Instance M_ret : MRet M := λ A a w, (Ok a, w).

#[global] Instance M_bind : MBind M := λ A B f m w,
  match m w with
  | (Ok a, w') => f a w'
  | (Throw e, w') => (Throw e, w')
  end.

Definition throw {A} (e : Err) : M A := λ w, (Throw e, w).

(** [try { m } catch (error) { h }]. *)
Definition try_catch {A} (m : M A) (h : M A) : M A := λ w,
  match m w with
  | (Ok a, w') => (Ok a, w')
  | (Throw _, w') => h w'
  end.

Definition gets {A} (f : World → A) : M A := λ w, (Ok (f w), w).
Definition modify (f : World → World) : M unit := λ w, (Ok tt, f w).

(** One request to the sheet service: it fails when the next fault flag says so. *)
Definition service_call : M unit := λ w,
  match faults w with
  | true :: fs => (Throw ServiceError, set_faults fs w)
  | false :: fs => (Ok tt, set_faults fs w)
  | [] => (Ok tt, w)
  end.

Definition sheets_get (n : SheetName) : M Grid :=
  service_call ;; gets (λ w, values_get (sheet n w)).

Definition sheets_update (n : SheetName) (i : nat) (newRow : list (option string)) : M unit :=
  service_call ;; modify (λ w, set_sheet n (values_update i newRow (sheet n w)) w).

Definition sheets_append (n : SheetName) (newRows : list (list string)) : M unit :=
  service_call ;; modify (λ w, set_sheet n (values_append newRows (sheet n w)) w).

Definition sheets_clear (n : SheetName) : M unit :=
  service_call ;; modify (set_sheet n []).

(** [bot.sendMessage] / [bot.sendPhoto]: the message is handed to the
    messenger (which is taken not to fail). *)
Definition send (d : Dest) (m : Msg) : M unit :=
  modify (λ w, set_outbox (outbox w ++ [(d, m)]) w).

Definition get_session (userId : Z) : M (option Session) :=
  gets (λ w, userStates w !! userId).

(** [userStates[userId] = s]. *)
Definition put_session (userId : Z) (s : Session) : M unit :=
  modify (λ w, set_userStates (<[userId := s]> (userStates w)) w).

(** [delete userStates[userId]]. *)
Definition delete_session (userId : Z) : M unit :=
  modify (λ w, set_userStates (delete userId (userStates w)) w).

(** [userStates[userId].prop = v]: a TypeError when there is no session. *)
Definition update_session (userId : Z) (f : Session → Session) : M unit :=
  s ← get_session userId;
  match s with
  | Some s => put_session userId (f s)
  | None => throw TypeError
  end.

(** The object [getRows] makes of one grid row:
    [headers.forEach((header, i) => { obj[header] = row[i]; })]. *)
Fixpoint row_object_from (i : nat) (headers : list string) (row : list string) (obj : Obj) : Obj :=
  match headers with
  | [] => obj
  | header :: hs => row_object_from (S i) hs row (obj_set header (row !! i) obj)
  end.

Definition row_object (headers : list string) (row : list string) : Obj :=
  row_object_from 0 headers row [].

(** The rows of a grid as objects (the body of [getRows] after the read). *)
Definition rows_of (g : Grid) : list Obj :=
  match g with
  | [] => []
  | headers :: body => map (row_object headers) body
  end.

(** [rows.find(p)] and [rows.findIndex(p)]. *)
Definition find {A} (P : A → Prop) `{∀ x, Decision (P x)} (l : list A) : option A :=
  snd <$> list_find P l.

Definition findIndex {A} (P : A → Prop) `{∀ x, Decision (P x)} (l : list A) : option nat :=
  fst <$> list_find P l.

(** The row [updateRow] writes back:
    [headers.map(header => newData[header] !== undefined ? newData[header] : rowData[header])]. *)
Definition merged_row (newData rowData : Obj) : list (option string) :=
  map (λ header, match obj_get newData header with
                 | Some v => Some v
                 | None => obj_get rowData header
                 end) (Object_keys rowData).

(** The pool of a category: [cat.VoucherCodes ?
    cat.VoucherCodes.split('\n').filter(c => c.trim().length > 0) : []]. *)
Definition code_pool (c : option string) : list string :=
  match c with
  | Some s =>
      if truthy c then filter (λ c, (0 < String.length (trim c))%nat) (split_on LF s)
      else []
  | None => []
  end.

Definition user_id_string (userId : Z) : string := num_to_string (Int userId).

(** *** Notions used to state properties *)

(** The header row as a read returns it. *)
Definition headers_of (g : Grid) : list string := drop_trailing_empty (hd [] g).

(** With distinct headers a row object lists the headers in order, each
    with the cell at its position. *)
Fixpoint zip_cells (i : nat) (headers : list string) (row : list string) : Obj :=
  match headers with
  | [] => []
  | h :: hs => (h, row !! i) :: zip_cells (S i) hs row
  end.

(** The names every object inherits: [obj[name]] is defined whether or not
    the object has such a key, and setting [__proto__] to a text adds no
    key. *)
Definition inherited_names : list string :=
  ["__proto__"; "constructor"; "hasOwnProperty"; "isPrototypeOf"; "propertyIsEnumerable";
   "toLocaleString"; "toString"; "valueOf"; "__defineGetter__"; "__defineSetter__";
   "__lookupGetter__"; "__lookupSetter__"].

(** A header that names a property like any other: it is no run of digits
    (an object lists such keys first, in ascending order, whatever the order
    they were set in) and none of the inherited names. *)
Definition plain_header (h : string) : bool :=
  negb (digits_only h) && negb (bool_decide (h ∈ inherited_names)).

Definition plain_headers (g : Grid) : Prop :=
  Forall (λ h, plain_header h = true) (headers_of g).

(** Two cells the handlers' truth tests cannot tell apart: the same cell,
    or both empty (an empty text, or no cell at all at the end of a row). *)
Definition cell_sim (a b : option string) : Prop :=
  a = b ∨ (truthy a = false ∧ truthy b = false).

(** The cell [updateRow] means to leave under header [h]. *)
Definition expected (newData rowData : Obj) (h : string) : option string :=
  match obj_get newData h with
  | Some v => if decide (h ∈ Object_keys rowData) then Some v else None
  | None => obj_get rowData h
  end.

(** The world after one more message. *)
Definition say (d : Dest) (m : Msg) (w : World) : World :=
  set_outbox (outbox w ++ [(d, m)]) w.

(** The world after [delete userStates[userId]]. *)
Definition forget (userId : Z) (w : World) : World :=
  set_userStates (delete userId (userStates w)) w.

(** A code as the pool holds it: no line feed inside, something left after
    trimming. *)
Definition clean_code (c : string) : Prop :=
  no_lf c = true ∧ (0 < String.length (trim c))%nat.

End Bot.

(** ** Events *)

Module Event.

(** A message update: [msg.chat.id], [msg.from.id], [msg.from.first_name],
    [msg.text], the file ids of [msg.photo] (smallest first), [msg.caption]. *)
Record Message := mkMessage {
  chat_id : Z;
  from_id : Z;
  first_name : string;
  text : option string;
  photo : list string;
  caption : option string;
}.

(** A button press: [callbackQuery.message.chat.id], [callbackQuery.from.id],
    [callbackQuery.data]. *)
Record CallbackQuery := mkCallbackQuery {
  cq_chat_id : Z;
  cq_from_id : Z;
  data : string;
}.

End Event.

(** ** The handlers of [src/unnamed/part_000] *)

Module Part000.
Import JS Bot Event.

Section Handlers.

(** [ADMIN_ID], read from the environment when the process starts. *)
Variable ADMIN_ID : Z.

(** Lines 24-31. *)
Definition appendRow (sheetName : SheetName) (rowData : list string) : M unit :=
  sheets_append sheetName [rowData].

(** Lines 33-48. *)
Definition getRows (sheetName : SheetName) : M (list Obj) :=
  rows ← sheets_get sheetName;
  mret (rows_of rows).

(** Lines 50-66.  The range [A${rowIndex + 2}] is the grid row [rowIndex + 1]. *)
Definition updateRow (sheetName : SheetName) (searchColumn : string)
    (searchValue : option string) (newData : Obj) : M bool :=
  rows ← getRows sheetName;
  match list_find (λ row, obj_get row searchColumn = searchValue) rows with
  | None => mret false
  | Some (rowIndex, rowData) =>
      sheets_update sheetName (rowIndex + 1) (merged_row newData rowData) ;;
      mret true
  end.

(** Lines 169-181. *)
Definition showMainMenu (chatId : Z) : M unit :=
  send (ToChat chatId) MMainMenu.

(** Lines 128-136; [n1] and [n2] are the two draws
    [Math.floor(Math.random() * 10) + 1]. *)
Definition sendCaptcha (n1 n2 : Z) (chatId userId : Z) : M unit :=
  let answer := n1 + n2 in
  put_session userId
    (mkSession (Some waiting_for_captcha) (Some answer) None None None None None None None) ;;
  send (ToChat chatId) (MCaptcha n1 n2).

(** Lines 71-99: the [/start] command. *)
Definition on_start (msg : Message) : M unit :=
  let chatId := chat_id msg in
  let userId := from_id msg in
  users ← getRows Users;
  let userRecord := find (λ u, loose_eq_num (obj_get u "UserID") (Int userId) = true) users in
  match userRecord with
  | Some u =>
      if decide (obj_get u "Status" = Some "Blocked") then send (ToChat chatId) MBlocked
      else if decide (obj_get u "Status" = Some "Active" ∧ obj_get u "Verified" = Some "Yes")
      then showMainMenu chatId
      else send (ToChat chatId) MWelcomeJoin
  | None => send (ToChat chatId) MWelcomeJoin
  end.


(** Lines 139-166: the [message] listener for the captcha answer. *)
Definition on_message_captcha (n1 n2 : Z) (now : string) (msg : Message) : M unit :=
  let chatId := chat_id msg in
  let userId := from_id msg in
  userState ← get_session userId;
  match userState with
  | Some userState =>
      if decide (state userState = Some waiting_for_captcha) then
        let userAnswer := parseInt_cell (text msg) in
        if negb (isNaN userAnswer) &&
           bool_decide (Some userAnswer = Int <$> answer userState) then
          delete_session userId ;;
          send (ToChat chatId) MVerified ;;
          users ← getRows Users;
          let userRecord :=
            find (λ u, loose_eq_num (obj_get u "UserID") (Int userId) = true) users in
          match userRecord with
          | Some _ =>
              updateRow Users "UserID" (Some (user_id_string userId))
                [("Status", Some "Active"); ("Verified", Some "Yes")] ;;
              showMainMenu chatId
          | None =>
              appendRow Users
                [user_id_string userId; first_name msg; now; "Active"; "Yes"] ;;
              showMainMenu chatId
          end
        else
          send (ToChat chatId) MWrongAnswer ;;
          sendCaptcha n1 n2 chatId userId
      else mret tt
  | None => mret tt
  end.

(** Lines 291-296: the tier whose cell prices the quantity. *)
Definition tier_cell (cat : Obj) (qty : Z) : option string :=
  let Price20Plus := obj_get cat "Price20Plus" in
  let Price10 := obj_get cat "Price10" in
  let Price5 := obj_get cat "Price5" in
  let Price1 := obj_get cat "Price1" in
  let Price := obj_get cat "Price" in
  if 20 <=? qty then or_else (or_else (or_else (or_else Price20Plus Price10) Price5) Price1) Price
  else if 10 <=? qty then or_else (or_else (or_else Price10 Price5) Price1) Price
  else if 5 <=? qty then or_else (or_else Price5 Price1) Price
  else or_else Price1 Price.

(** Lines 291-301: the rate, or nothing when the handler answers that no
    price is set ([isNaN(rate) || rate <= 0]). *)
Definition resolvePrice (cat : Obj) (qty : Z) : option number :=
  let rate := parseFloat_cell (tier_cell cat qty) in
  if number_isNaN rate || number_le rate (Int 0) then None else Some rate.

(** Lines 276-321. *)
Definition processQuantityAndShowPayment (chatId userId : Z)
    (categoryId : option string) (qty : Z) : M unit :=
  categories ← getRows Categories;
  match find (λ c, obj_get c "CategoryID" = categoryId) categories with
  | None => send (ToChat chatId) MCategoryMissing
  | Some cat =>
      if number_lt (cell_to_number (obj_get cat "Stock")) (Int qty) then
        send (ToChat chatId) (MNotEnoughStock (obj_get cat "Stock") (obj_get cat "Value")) ;;
        put_session userId
          (mkSession (Some waiting_for_qty_input) None categoryId None None None None None None)
      else
        match resolvePrice cat qty with
        | None => send (ToChat chatId) MPricingNotSet
        | Some rate =>
            let totalCost := number_mul rate (Int qty) in
            put_session userId
              (mkSession (Some waiting_for_proof) None categoryId (Some qty) (Some totalCost)
                 None None None None) ;;
            send (ToChat chatId) (MPaymentRequired (obj_get cat "Value") qty rate totalCost)
        end
  end.

(** Lines 365-398.  [r1] and [r2] are the two random strings, upper-cased.
    The function reads [msg.from.first_name], and [msg] is no variable of
    its scope (it has the parameters [chatId], [userId] and [utr]), so the
    order row is never built. *)
Definition submitOrder (r1 r2 now : string) (chatId userId : Z) (utr : string) : M unit :=
  let orderId := "SVH-" +:+ r1 +:+ "-" +:+ r2 in
  userState ← get_session userId;
  msg_from_first_name ← (throw ReferenceError : M string);
  match userState with
  | None => throw TypeError
  | Some userState =>
      match qty userState, totalCost userState with
      | Some q, Some total =>
          let orderData :=
            [orderId; user_id_string userId; msg_from_first_name;
             default "" (categoryId userState); num_to_string (Int q); toFixed2 total;
             utr; "Pending"; ""; now] in
          appendRow Orders orderData ;;
          send (ToChat chatId) (MOrderSubmitted orderId) ;;
          send (ToChat ADMIN_ID) (MNewOrder orderId (proofId userState) utr) ;;
          delete_session userId
      | _, _ => throw TypeError
      end
  end.

(** The test of line 354: [utr.length === 12 && !isNaN(parseInt(utr))]. *)
Definition utr_accepted (utr : string) : bool :=
  (String.length utr =? 12)%nat && negb (isNaN (parseInt utr)).

(** Lines 338-362: the [message] listener for the payment proof. *)
Definition on_message_proof (r1 r2 now : string) (msg : Message) : M unit :=
  let chatId := chat_id msg in
  let userId := from_id msg in
  userState ← get_session userId;
  match userState with
  | Some userState =>
      if decide (state userState = Some waiting_for_screenshot) then
        match last (photo msg) with
        | Some file_id =>
            update_session userId
              (λ s, mkSession (state s) (answer s) (categoryId s) (qty s) (totalCost s)
                      (Some file_id) (temp_cat_value s) (tier s) (dmTargetId s)) ;;
            update_session userId (with_state (Some waiting_for_utr)) ;;
            send (ToChat chatId) MScreenshotReceived
        | None =>
            send (ToChat chatId) MNotAPhoto ;;
            update_session userId (with_state (Some waiting_for_screenshot))
        end
      else if decide (state userState = Some waiting_for_utr) then
        match text msg with
        | None => throw TypeError
        | Some t =>
            let utr := trim t in
            if utr_accepted utr then
              update_session userId (with_state None) ;;
              submitOrder r1 r2 now chatId userId utr
            else
              send (ToChat chatId) MInvalidUtr ;;
              update_session userId (with_state (Some waiting_for_utr))
        end
      else mret tt
  | None => mret tt
  end.

(** Lines 436-456: the [message] listener for the recovery flow. *)
Definition on_message_recovery (msg : Message) : M unit :=
  let chatId := chat_id msg in
  let userId := from_id msg in
  userState ← get_session userId;
  match userState with
  | Some userState =>
      if decide (state userState = Some waiting_for_recovery_oid) then
        match text msg with
        | None => throw TypeError
        | Some t =>
            let orderId := trim t in
            orders ← getRows Orders;
            match find (λ o, obj_get o "OrderID" = Some orderId) orders with
            | None => send (ToChat chatId) (MRecoverNotFound orderId)
            | Some order =>
                if decide (obj_get order "UserID" ≠ Some (user_id_string userId)) then
                  send (ToChat chatId) (MRecoverNotFound orderId)
                else if decide (obj_get order "Status" = Some "Successful") then
                  send (ToChat chatId)
                    (MVouchersFound orderId (obj_get order "VoucherCodeDelivered"))
                else
                  send (ToChat chatId) (MRecoverStatus (obj_get order "Status"))
            end ;;
            delete_session userId
        end
      else mret tt
  | None => mret tt
  end.

(** Lines 556-604: the [adm_approve_] branch. *)
Definition approve (chatId : Z) (orderId : string) : M unit :=
  orders ← getRows Orders;
  match find (λ o, obj_get o "OrderID" = Some orderId) orders with
  | None => send (ToChat chatId) (MOrderUnknownOrProcessed orderId)
  | Some orderToApprove =>
      if decide (obj_get orderToApprove "Status" ≠ Some "Pending") then
        send (ToChat chatId) (MOrderUnknownOrProcessed orderId)
      else
        let Category := obj_get orderToApprove "Category" in
        let Quantity := obj_get orderToApprove "Quantity" in
        categories ← getRows Categories;
        match find (λ c, obj_get c "CategoryID" = Category) categories with
        | None => send (ToChat chatId) (MStockLow Category None)
        | Some categoryToUpdate =>
            let Stock := obj_get categoryToUpdate "Stock" in
            if lt_cells Stock Quantity then
              send (ToChat chatId) (MStockLow Category (Some Stock))
            else
              let voucherCodes := code_pool (obj_get categoryToUpdate "VoucherCodes") in
              if number_lt (Int (Z.of_nat (length voucherCodes))) (cell_to_number Quantity) then
                send (ToChat chatId) (MInsufficientCodes Category (length voucherCodes))
              else
                let '(releasedCodes, voucherCodes) :=
                  splice0 (parseInt_cell Quantity) voucherCodes in
                let newVoucherCodes := join newline releasedCodes in
                let updatedCategoryStock :=
                  number_sub (cell_to_number Stock) (parseInt_cell Quantity) in
                updateRow Categories "CategoryID" (obj_get categoryToUpdate "CategoryID")
                  [("Stock", Some (number_to_string updatedCategoryStock));
                   ("VoucherCodes", Some (join newline voucherCodes))] ;;
                updateRow Orders "OrderID" (Some orderId)
                  [("Status", Some "Successful");
                   ("VoucherCodeDelivered", Some newVoucherCodes)] ;;
                send (ToCell (obj_get orderToApprove "UserID"))
                  (MOrderApproved orderId newVoucherCodes) ;;
                send (ToChat chatId) (MApprovedAdmin orderId) ;;
                send ToOrdersChannel (MApprovedChannel orderToApprove)
        end
  end.

(** Lines 606-616: the [adm_decline_] branch. *)
Definition decline (chatId : Z) (orderId : string) : M unit :=
  updateRow Orders "OrderID" (Some orderId) [("Status", Some "Declined")] ;;
  send (ToChat chatId) (MDeclinedAdmin orderId) ;;
  orders ← getRows Orders;
  match find (λ o, obj_get o "OrderID" = Some orderId) orders with
  | Some orderToDecline =>
      send (ToCell (obj_get orderToDecline "UserID")) (MOrderDeclined orderId)
  | None => mret tt
  end.

(** Lines 633-647: the [adm_del_cat_confirm_] branch. *)
Definition delete_category (chatId : Z) (categoryIdToDelete : string) : M unit :=
  sheets_clear Categories ;;
  categories ← getRows Categories;
  let updatedCategories :=
    filter (λ cat, obj_get cat "CategoryID" ≠ Some categoryIdToDelete) categories in
  match categories with
  | [] => throw TypeError
  | first :: _ =>
      sheets_append Categories
        (Object_keys first :: map (λ cat, default "" <$> cat.*2) updatedCategories) ;;
      send (ToChat chatId) (MCategoryDeleted categoryIdToDelete)
  end.

(** Lines 544-653: the third [callback_query] listener. *)
Definition on_callback_admin (cq : CallbackQuery) : M unit :=
  let chatId := cq_chat_id cq in
  let userId := cq_from_id cq in
  if decide (userId ≠ ADMIN_ID) then send (ToChat chatId) MAccessDenied
  else
    match strip_prefix "adm_approve_" (data cq) with
    | Some orderId => approve chatId orderId
    | None =>
    match strip_prefix "adm_decline_" (data cq) with
    | Some orderId => decline chatId orderId
    | None =>
    if decide (data cq = "adm_add_cat_prompt") then
      put_session userId (session_in adm_waiting_for_cat_value) ;;
      send (ToChat chatId) MAskCatValue
    else
      userState ← get_session userId;
      if decide (state <$> userState = Some (Some adm_waiting_for_cat_price)) then mret tt
      else if decide (data cq = "adm_del_cat_list") then
        categories ← getRows Categories;
        match categories with
        | [] => send (ToChat chatId) MNoCategories
        | _ =>
            (* [reply_markup: { inline_keyboard }] (line 632): the buttons are in
               [inlineKeyboard]; no [inline_keyboard] is declared *)
            throw ReferenceError
        end
      else
        match strip_prefix "adm_del_cat_confirm_" (data cq) with
        | Some categoryIdToDelete => delete_category chatId categoryIdToDelete
        | None =>
            if decide (data cq = "adm_back_to_main") then showMainMenu chatId
            else mret tt
        end
    end
    end.

(** Lines 184-210: the [Buy Vouchers] command.  The menu of categories is
    never sent: its [reply_markup: { inline_keyboard }] (line 207) reads a
    variable that is not declared (the buttons are in [inlineKeyboard]). *)
Definition on_buy_vouchers (msg : Message) : M unit :=
  let chatId := chat_id msg in
  let userId := from_id msg in
  users ← getRows Users;
  let userRecord := find (λ u, loose_eq_num (obj_get u "UserID") (Int userId) = true) users in
  if bool_decide (userRecord ≫= (λ u, obj_get u "Status") = Some "Blocked")
  then send (ToChat chatId) MBlocked
  else
    categories ← getRows Categories;
    match categories with
    | [] => send (ToChat chatId) MNoCategories
    | _ => throw ReferenceError
    end.

(** Lines 212-256: the [callback_query] listener of the quantity buttons.
    The quantity menu of a category that is found is never sent
    ([inline_keyboard] of line 240 is not declared).  The last branch
    registers a listener with [bot.onText] and returns. *)
Definition on_callback_quantity (cq : CallbackQuery) : M unit :=
  let chatId := cq_chat_id cq in
  let userId := cq_from_id cq in
  let data := data cq in
  match strip_prefix "select_qty_" data with
  | Some categoryId =>
      put_session userId
        (mkSession (Some waiting_for_qty_input) None (Some categoryId) None None None None
           None None) ;;
      categories ← getRows Categories;
      match find (λ c, obj_get c "CategoryID" = Some categoryId) categories with
      | None => send (ToChat chatId) MCategoryNotFound
      | Some selectedCat => throw ReferenceError
      end
  | None =>
      if startsWith data "qty_" then
        let parts := split_on "_" data in
        let qty := parseInt_cell (parts !! 1%nat) in
        let categoryId := parts !! 2%nat in
        if decide (parts !! 1%nat = Some "custom") then
          put_session userId
            (mkSession (Some waiting_for_custom_qty_input) None categoryId None None None
               None None None) ;;
          send (ToChat chatId) MAskCustomQuantity
        else
          match qty with
          | Int q => processQuantityAndShowPayment chatId userId categoryId q
          | NaN => mret tt
          end
      else mret tt
  end.

(** Lines 258-274: the [message] listener for a typed quantity. *)
Definition on_message_custom_qty (msg : Message) : M unit :=
  let chatId := chat_id msg in
  let userId := from_id msg in
  userState ← get_session userId;
  match userState with
  | Some userState =>
      if decide (state userState = Some waiting_for_custom_qty_input) then
        match parseInt_cell (text msg) with
        | Int qty =>
            if 0 <? qty then
              delete_session userId ;;
              processQuantityAndShowPayment chatId userId (categoryId userState) qty
            else
              send (ToChat chatId) MInvalidQuantity ;;
              update_session userId (with_state (Some waiting_for_custom_qty_input))
        | NaN =>
            send (ToChat chatId) MInvalidQuantity ;;
            update_session userId (with_state (Some waiting_for_custom_qty_input))
        end
      else mret tt
  | None => mret tt
  end.

(** Lines 324-336: the [callback_query] listener of the [Paid] button. *)
Definition on_callback_submit_proof (cq : CallbackQuery) : M unit :=
  let chatId := cq_chat_id cq in
  let userId := cq_from_id cq in
  if decide (data cq = "submit_proof") then
    update_session userId (with_state (Some waiting_for_screenshot)) ;;
    send (ToChat chatId) MAskScreenshot
  else mret tt.

(** Lines 493-516: the [message] listener of the support mode. *)
Definition on_message_support (msg : Message) : M unit :=
  let chatId := chat_id msg in
  let userId := from_id msg in
  userState ← get_session userId;
  match userState with
  | Some userState =>
      if decide (state userState = Some in_support_mode) then
        if decide (text msg = Some "/cancel") then mret tt
        else
          match last (photo msg) with
          | Some file_id => send (ToChat ADMIN_ID) (MSupportPhoto userId file_id (caption msg))
          | None => send (ToChat ADMIN_ID) (MSupportText userId (text msg))
          end ;;
          send (ToChat chatId) MSupportForwarded
      else mret tt
  | None => mret tt
  end.

(** Lines 656-691: the [message] listener for the two inputs of a new
    category.  The closing [bot.onText] only registers a listener. *)
Definition on_message_admin (msg : Message) : M unit :=
  let chatId := chat_id msg in
  let userId := from_id msg in
  userState ← get_session userId;
  if decide (userId ≠ ADMIN_ID) then mret tt
  else
    match userState with
    | None => mret tt
    | Some userState =>
        if decide (state userState = Some adm_waiting_for_cat_value) then
          match parseInt_cell (text msg) with
          | Int value =>
              if value <=? 0 then send (ToChat chatId) MInvalidCatValue
              else
                update_session userId
                  (λ s, mkSession (state s) (answer s) (categoryId s) (qty s) (totalCost s)
                          (proofId s) (Some value) (tier s) (dmTargetId s)) ;;
                update_session userId (with_state (Some adm_waiting_for_cat_price)) ;;
                send (ToChat chatId) (MAskCatPrice value)
          | NaN => send (ToChat chatId) MInvalidCatValue
          end
        else if decide (state userState = Some adm_waiting_for_cat_price) then
          let price := parseFloat_cell (text msg) in
          if number_isNaN price || number_le price (Int 0) then
            send (ToChat chatId) MInvalidCatPrice
          else
            s ← get_session userId;
            match s ≫= temp_cat_value with
            | None => throw TypeError
            | Some value =>
                let categoryId := "cat_" +:+ num_to_string (Int value) in
                let p := toFixed2 price in
                appendRow Categories
                  [categoryId; num_to_string (Int value); p; "0"; ""; p; p; p; p] ;;
                delete_session userId ;;
                send (ToChat chatId) (MCategoryCreated value price)
            end
        else mret tt
    end.

(** The states in which the last listener leaves a text unanswered
    (line 736). *)
Definition awaits_input (st : option SState) : bool :=
  match st with
  | Some waiting_for_captcha | Some waiting_for_custom_qty_input
  | Some waiting_for_screenshot | Some waiting_for_utr
  | Some waiting_for_recovery_oid => true
  | _ => false
  end.

(** Lines 694-740: the last [message] listener: the admin's [/msg] command,
    the messages of a user in support mode once more, and the answer to
    what no state expects.  A target id that is NaN is no chat to send to,
    so that [sendMessage] is rejected and the [catch] answers. *)
Definition on_message_catch_all (msg : Message) : M unit :=
  let chatId := chat_id msg in
  let userId := from_id msg in
  if bool_decide (userId = ADMIN_ID) && truthy (text msg) &&
     startsWith (default "" (text msg)) "/msg" then
    let parts := split_on " " (default "" (text msg)) in
    if (length parts <? 3)%nat then send (ToChat chatId) MMsgUsage
    else
      match parseInt_cell (parts !! 1%nat) with
      | Int targetId =>
          send (ToChat targetId) (MAdminMessage (Some (join " " (drop 2 parts)))) ;;
          send (ToChat chatId) (MDmSent targetId)
      | NaN => send (ToChat chatId) MDmFailed
      end
  else
    userState ← get_session userId;
    if decide (userState ≫= state = Some in_support_mode) then
      if decide (text msg = Some "/cancel") then mret tt
      else
        match last (photo msg) with
        | Some file_id => send (ToChat ADMIN_ID) (MSupportPhoto userId file_id (caption msg))
        | None => send (ToChat ADMIN_ID) (MSupportText userId (text msg))
        end ;;
        send (ToChat chatId) MSupportForwarded
    else
      match text msg with
      | None => throw TypeError
      | Some t =>
          if negb (startsWith t "/") && negb (awaits_input (userState ≫= state)) then
            send (ToChat chatId) MNotUnderstood ;;
            showMainMenu chatId
          else mret tt
      end.

End Handlers.

End Part000.

(** ** The handlers of [src/index.js] *)

Module IndexJs.
Import JS Bot Event.

Section Handlers.

Variable ADMIN_ID : Z.

(** Functions the listing calls and does not define: they live elsewhere in
    the repository. *)
Variable processQuantityAndShowPayment : Z → Z → option string → Z → M unit.
Variable submitOrder : Z → Z → string → string → M unit.
Variable handleAdminOrderAction : Z → Z → string → string → M unit.
Variable deleteCategory : Z → string → M unit.

(** Lines 25-41. *)
Definition getSheetRows (sheetName : SheetName) : M (list Obj) :=
  try_catch
    (rows ← sheets_get sheetName; mret (rows_of rows))
    (send (ToChat ADMIN_ID) (MSheetError "getRows" sheetName) ;; mret []).

(** Lines 43-57. *)
Definition appendSheetRow (sheetName : SheetName) (rowData : list string) : M bool :=
  try_catch
    (sheets_append sheetName [rowData] ;; mret true)
    (send (ToChat ADMIN_ID) (MSheetError "appendRow" sheetName) ;; mret false).

(** Lines 59-81. *)
Definition updateSheetRow (sheetName : SheetName) (searchColumn : string)
    (searchValue : option string) (newData : Obj) : M bool :=
  try_catch
    (rows ← getSheetRows sheetName;
     match list_find (λ row, obj_get row searchColumn = searchValue) rows with
     | None => mret false
     | Some (rowIndex, rowData) =>
         sheets_update sheetName (rowIndex + 1) (merged_row newData rowData) ;;
         mret true
     end)
    (send (ToChat ADMIN_ID) (MSheetError "updateRow" sheetName) ;; mret false).

(** Lines 139-144. *)
Definition showMainMenu (chatId : Z) : M unit :=
  send (ToChat chatId) MMainMenu.

(** Lines 147-155. *)
Definition sendCaptcha (n1 n2 : Z) (chatId userId : Z) : M unit :=
  let answer := n1 + n2 in
  put_session userId
    (mkSession (Some waiting_for_captcha) (Some answer) None None None None None None None) ;;
  send (ToChat chatId) (MCaptcha n1 n2).

(** [return bot.onText(/\/admin/, ...)(msg)]: [onText] registers the
    callback and returns nothing, and calling that result throws. *)
Definition simulate_admin_command : M unit := throw TypeError.

(** A session object with a state and a category. *)
Definition session_for (st : SState) (categoryId : option string) : Session :=
  mkSession (Some st) None categoryId None None None None None None.

(** Lines 191-348: the [callback_query] listener. *)
Definition on_callback_query (membership : option string) (n1 n2 : Z)
    (cq : CallbackQuery) : M unit :=
  let chatId := cq_chat_id cq in
  let userId := cq_from_id cq in
  let data := data cq in
  if decide (data = "check_join") then
    match membership with
    | Some status =>
        if decide (status = "member" ∨ status = "administrator" ∨ status = "creator")
        then sendCaptcha n1 n2 chatId userId
        else send (ToChat chatId) MJoinFirst
    | None =>
        send (ToChat chatId) MVerificationError ;;
        send (ToChat ADMIN_ID) (MCheckJoinFailed userId)
    end
  else if startsWith data "select_cat_" then
    let categoryId := default "" (strip_prefix "select_cat_" data) in
    put_session userId (session_for waiting_for_qty_selection (Some categoryId)) ;;
    categories ← getSheetRows Categories;
    match find (λ c, obj_get c "CategoryID" = Some categoryId) categories with
    | None => send (ToChat chatId) MCategoryNotFound
    | Some selectedCat =>
        (* [reply_markup: { inline_keyboard }] (line 235): the buttons are in
           [inlineKeyboard]; no [inline_keyboard] is declared *)
        throw ReferenceError
    end
  else if startsWith data "qty_btn_" then
    let parts := split_on "_" data in
    let qty := parseInt_cell (parts !! 2%nat) in
    let categoryId := parts !! 3%nat in
    if decide (parts !! 2%nat = Some "custom") then
      put_session userId (session_for waiting_for_custom_qty_input categoryId) ;;
      send (ToChat chatId) MAskCustomQuantity
    else
      match qty with
      | Int q => processQuantityAndShowPayment chatId userId categoryId q
      | NaN => mret tt
      end
  else if decide (data = "submit_proof") then
    update_session userId (with_state (Some waiting_for_screenshot)) ;;
    send (ToChat chatId) MAskScreenshot
  else if startsWith data "adm_approve_" then
    handleAdminOrderAction chatId userId (default "" (strip_prefix "adm_approve_" data)) "Approve"
  else if startsWith data "adm_decline_" then
    handleAdminOrderAction chatId userId (default "" (strip_prefix "adm_decline_" data)) "Decline"
  else if decide (data = "adm_add_cat_prompt") then
    put_session userId (session_in adm_waiting_for_cat_value) ;;
    send (ToChat chatId) MAskCatValue
  else if decide (data = "adm_del_cat_list") then
    categories ← getSheetRows Categories;
    match categories with
    | [] => send (ToChat chatId) MNoCategories
    | _ => throw ReferenceError   (* [inline_keyboard], line 280 *)
    end
  else if startsWith data "adm_del_cat_confirm_" then
    deleteCategory chatId (default "" (strip_prefix "adm_del_cat_confirm_" data))
  else if startsWith data "adm_add_stock_prompt" then
    put_session userId (session_in adm_waiting_for_stock_cat_select) ;;
    categories ← getSheetRows Categories;
    match categories with
    | [] => send (ToChat chatId) MNoCategories
    | _ => throw ReferenceError   (* [inline_keyboard], line 294 *)
    end
  else if startsWith data "adm_add_stock_select_cat_" then
    let categoryId := default "" (strip_prefix "adm_add_stock_select_cat_" data) in
    put_session userId (session_for adm_waiting_for_voucher_codes (Some categoryId)) ;;
    (* the prompt reads [categories], which this branch does not declare *)
    throw ReferenceError
  else if startsWith data "adm_view_stock_codes_" then
    let categoryId := default "" (strip_prefix "adm_view_stock_codes_" data) in
    categories ← getSheetRows Categories;
    match find (λ c, obj_get c "CategoryID" = Some categoryId) categories with
    | Some cat =>
        if truthy (obj_get cat "VoucherCodes") then send (ToChat chatId) (MVoucherCodes cat)
        else send (ToChat chatId) (MNoCodesFound (obj_get cat "Value"))
    | None => throw TypeError
    end
  else if startsWith data "adm_remove_stock_prompt" then
    put_session userId (session_in adm_waiting_for_code_to_remove) ;;
    send (ToChat chatId) MAskCodeToRemove
  else if decide (data = "adm_pricing_menu") then
    categories ← getSheetRows Categories;
    match categories with
    | [] => send (ToChat chatId) MNoCategories
    | _ =>
        (* the buttons are passed as [reply_markup: { inlineKeyboard }]
           (line 320), under a key that names no keyboard *)
        send (ToChat chatId) MPricingMenu
    end
  else if startsWith data "adm_select_tier_pricing_" then
    let categoryId := default "" (strip_prefix "adm_select_tier_pricing_" data) in
    put_session userId (session_for adm_waiting_for_tier_selection (Some categoryId)) ;;
    throw ReferenceError
  else if startsWith data "adm_input_tier_price_" then
    let parts := split_on "_" data in
    put_session userId
      (mkSession (Some adm_waiting_for_tier_price_input) None (parts !! 5%nat) None None None
         None (parts !! 4%nat) None) ;;
    throw ReferenceError
  else if decide (data = "adm_bc_prompt") then
    put_session userId (session_in adm_waiting_for_broadcast_message) ;;
    send (ToChat chatId) MAskBroadcast
  else if decide (data = "adm_dm_prompt") then
    put_session userId (session_in adm_waiting_for_dm_target_id) ;;
    send (ToChat chatId) MAskDmTarget
  else if decide (data = "adm_block_prompt") then
    put_session userId (session_in adm_waiting_for_block_id) ;;
    send (ToChat chatId) MAskBlockTarget
  else mret tt.

(** [text.split(/[\n,]+/).map(s => s.trim()).filter(s => s.length > 0)]. *)
Definition parse_codes (text : string) : list string :=
  filter (λ s, (0 < String.length s)%nat)
    (map trim (split_runs (λ a, Ascii.eqb a LF || Ascii.eqb a COMMA) false text)).

(** Lines 468-483: the [adm_waiting_for_voucher_codes] branch. *)
Definition add_voucher_codes (chatId userId : Z) (userState : Session)
    (text : option string) : M unit :=
  let categoryId := categoryId userState in
  match text with
  | None => throw TypeError
  | Some text =>
      let newCodes := parse_codes text in
      categories ← getSheetRows Categories;
      match find (λ c, obj_get c "CategoryID" = categoryId) categories with
      | Some cat =>
          let currentVouchers := code_pool (obj_get cat "VoucherCodes") in
          let updatedVouchers := currentVouchers ++ newCodes in
          updateSheetRow Categories "CategoryID" categoryId
            [("VoucherCodes", Some (join newline updatedVouchers));
             ("Stock", Some (num_to_string (Int (Z.of_nat (length updatedVouchers)))))] ;;
          send (ToChat chatId)
            (MStockAdded (length newCodes) categoryId (length updatedVouchers))
      | None => send (ToChat chatId) MStockCategoryMissing
      end ;;
      delete_session userId ;;
      simulate_admin_command
  end.

(** Lines 488-498: the loop over the categories; it tells whether the code
    was found. *)
Fixpoint remove_code_loop (chatId : Z) (codeToRemove : string) (categories : list Obj)
    : M bool :=
  match categories with
  | [] => mret false
  | cat :: rest =>
      let voucherCodes := code_pool (obj_get cat "VoucherCodes") in
      let initialLength := length voucherCodes in
      let voucherCodes := filter (λ code, code ≠ codeToRemove) voucherCodes in
      if (length voucherCodes <? initialLength)%nat then
        updateSheetRow Categories "CategoryID" (obj_get cat "CategoryID")
          [("VoucherCodes", Some (join newline voucherCodes));
           ("Stock", Some (num_to_string (Int (Z.of_nat (length voucherCodes)))))] ;;
        send (ToChat chatId) (MCodeRemoved codeToRemove (obj_get cat "CategoryID")) ;;
        mret true
      else remove_code_loop chatId codeToRemove rest
  end.

(** Lines 484-503: the [adm_waiting_for_code_to_remove] branch. *)
Definition remove_voucher_code (chatId userId : Z) (text : option string) : M unit :=
  match text with
  | None => throw TypeError
  | Some text =>
      let codeToRemove := trim text in
      categories ← getSheetRows Categories;
      codeRemoved ← remove_code_loop chatId codeToRemove categories;
      (if codeRemoved : bool then mret tt
       else send (ToChat chatId) (MCodeNotFound codeToRemove)) ;;
      delete_session userId ;;
      simulate_admin_command
  end.

(** Lines 506-513: one message per row of the Users sheet; a send that
    fails (an id that is no number) is caught and skipped. *)
Fixpoint broadcast_loop (text : option string) (users : list Obj) : M unit :=
  match users with
  | [] => mret tt
  | userRow :: rest =>
      match parseInt_cell (obj_get userRow "UserID") with
      | Int id => send (ToChat id) (MBroadcast text)
      | NaN => mret tt
      end ;;
      broadcast_loop text rest
  end.

(** Lines 445-554: the inputs of the admin flows. *)
Definition on_admin_input (now : string) (msg : Message) (userState : option Session)
    : M unit :=
  let chatId := chat_id msg in
  let userId := from_id msg in
  match userState with
  | None => mret tt
  | Some userState =>
      match state userState with
      | Some adm_waiting_for_cat_value =>
          match parseInt_cell (text msg) with
          | Int value =>
              if value <=? 0 then send (ToChat chatId) MInvalidCatValue
              else
                update_session userId
                  (λ s, mkSession (state s) (answer s) (categoryId s) (qty s) (totalCost s)
                          (proofId s) (Some value) (tier s) (dmTargetId s)) ;;
                update_session userId (with_state (Some adm_waiting_for_cat_price)) ;;
                send (ToChat chatId) (MAskCatPrice value)
          | NaN => send (ToChat chatId) MInvalidCatValue
          end
      | Some adm_waiting_for_cat_price =>
          let price := parseFloat_cell (text msg) in
          if number_isNaN price || number_le price (Int 0) then
            send (ToChat chatId) MInvalidCatPrice
          else
            s ← get_session userId;
            match s ≫= temp_cat_value with
            | None => throw TypeError
            | Some value =>
                let categoryId := "cat_" +:+ num_to_string (Int value) in
                let p := toFixed2 price in
                appendSheetRow Categories
                  [categoryId; num_to_string (Int value); p; p; p; p; p; "0"; ""] ;;
                delete_session userId ;;
                send (ToChat chatId) (MCategoryCreated value price) ;;
                simulate_admin_command
            end
      | Some adm_waiting_for_voucher_codes =>
          add_voucher_codes chatId userId userState (text msg)
      | Some adm_waiting_for_code_to_remove =>
          remove_voucher_code chatId userId (text msg)
      | Some adm_waiting_for_broadcast_message =>
          send (ToChat chatId) MBroadcasting ;;
          users ← getSheetRows Users;
          broadcast_loop (text msg) users ;;
          send (ToChat chatId) MBroadcastDone ;;
          delete_session userId ;;
          simulate_admin_command
      | Some adm_waiting_for_dm_target_id =>
          match parseInt_cell (text msg) with
          | Int targetId =>
              update_session userId
                (λ s, mkSession (state s) (answer s) (categoryId s) (qty s) (totalCost s)
                        (proofId s) (temp_cat_value s) (tier s) (Some targetId)) ;;
              update_session userId (with_state (Some adm_waiting_for_dm_message)) ;;
              send (ToChat chatId) (MAskDmText targetId)
          | NaN => send (ToChat chatId) MInvalidUserId
          end
      | Some adm_waiting_for_dm_message =>
          s ← get_session userId;
          match s ≫= dmTargetId with
          | Some targetId =>
              send (ToChat targetId) (MAdminMessage (text msg)) ;;
              send (ToChat chatId) (MDmSent targetId)
          | None => send (ToChat chatId) MDmFailed
          end ;;
          delete_session userId ;;
          simulate_admin_command
      | Some adm_waiting_for_block_id =>
          match parseInt_cell (text msg) with
          | Int targetId =>
              users ← getSheetRows Users;
              match find (λ u, obj_get u "UserID" = Some (user_id_string targetId)) users with
              | Some userToBlock =>
                  let newStatus :=
                    if decide (obj_get userToBlock "Status" = Some "Blocked")
                    then "Active" else "Blocked" in
                  updateSheetRow Users "UserID" (Some (user_id_string targetId))
                    [("Status", Some newStatus)] ;;
                  send (ToChat chatId) (MStatusChanged targetId newStatus)
              | None => send (ToChat chatId) (MUserUnknown targetId)
              end ;;
              delete_session userId ;;
              simulate_admin_command
          | NaN => send (ToChat chatId) MInvalidUserId
          end
      | _ => mret tt
      end
  end.

(** Lines 352-561: the [message] listener.  Which branch runs is decided
    by [state_is], the test [userState && userState.state === st]. *)
Definition state_is (userState : option Session) (st : SState) : bool :=
  bool_decide (userState ≫= state = Some st).

Definition on_message (n1 n2 : Z) (now : string) (msg : Message) : M unit :=
  let chatId := chat_id msg in
  let userId := from_id msg in
  userState ← get_session userId;
  if state_is userState waiting_for_captcha then
    let userAnswer := parseInt_cell (text msg) in
    if negb (isNaN userAnswer) &&
       bool_decide (Some userAnswer = Int <$> (userState ≫= answer)) then
      delete_session userId ;;
      send (ToChat chatId) MVerified ;;
      users ← getSheetRows Users;
      match find (λ u, obj_get u "UserID" = Some (user_id_string userId)) users with
      | Some _ =>
          updateSheetRow Users "UserID" (Some (user_id_string userId))
            [("Status", Some "Active"); ("Verified", Some "Yes"); ("Date", Some now)] ;;
          showMainMenu chatId
      | None =>
          appendSheetRow Users
            [user_id_string userId; first_name msg; now; "Active"; "Yes"; ""; ""] ;;
          showMainMenu chatId
      end
    else
      send (ToChat chatId) MWrongAnswer ;;
      sendCaptcha n1 n2 chatId userId
  else if state_is userState waiting_for_custom_qty_input then
    match parseInt_cell (text msg) with
    | Int qty =>
        if 0 <? qty then
          delete_session userId ;;
          processQuantityAndShowPayment chatId userId (userState ≫= categoryId) qty
        else
          send (ToChat chatId) MInvalidQuantity ;;
          update_session userId (with_state (Some waiting_for_custom_qty_input))
    | NaN =>
        send (ToChat chatId) MInvalidQuantity ;;
        update_session userId (with_state (Some waiting_for_custom_qty_input))
    end
  else if state_is userState waiting_for_screenshot then
    match last (photo msg) with
    | Some file_id =>
        update_session userId
          (λ s, mkSession (state s) (answer s) (categoryId s) (qty s) (totalCost s)
                  (Some file_id) (temp_cat_value s) (tier s) (dmTargetId s)) ;;
        update_session userId (with_state (Some waiting_for_utr)) ;;
        send (ToChat chatId) MScreenshotReceived
    | None =>
        send (ToChat chatId) MNotAPhoto ;;
        update_session userId (with_state (Some waiting_for_screenshot))
    end
  else if state_is userState waiting_for_utr then
    match text msg with
    | None => throw TypeError
    | Some t =>
        let utr := trim t in
        if Part000.utr_accepted utr then
          update_session userId (with_state None) ;;
          submitOrder chatId userId utr (first_name msg)
        else
          send (ToChat chatId) MInvalidUtr ;;
          update_session userId (with_state (Some waiting_for_utr))
    end
  else if state_is userState waiting_for_recovery_oid then
    match text msg with
    | None => throw TypeError
    | Some t =>
        let orderId := trim t in
        orders ← getSheetRows Orders;
        match find (λ o, obj_get o "OrderID" = Some orderId) orders with
        | None => send (ToChat chatId) (MRecoverNotFound orderId)
        | Some order =>
            if decide (obj_get order "UserID" ≠ Some (user_id_string userId)) then
              send (ToChat chatId) (MRecoverNotFound orderId)
            else if decide (obj_get order "Status" = Some "Successful") then
              send (ToChat chatId)
                (MVouchersFound orderId (obj_get order "VoucherCodeDelivered"))
            else
              send (ToChat chatId) (MRecoverStatus (obj_get order "Status"))
        end ;;
        delete_session userId
    end
  else if state_is userState in_support_mode then
    if decide (text msg = Some "/cancel") then mret tt
    else
      match last (photo msg) with
      | Some file_id => send (ToChat ADMIN_ID) (MSupportPhoto userId file_id (caption msg))
      | None => send (ToChat ADMIN_ID) (MSupportText userId (text msg))
      end ;;
      send (ToChat chatId) MSupportForwarded
  else if decide (userId = ADMIN_ID) then
    on_admin_input now msg userState
  else
    (* The menu captions the fallback also excludes start with characters
       above U+00FF, which no modelled text starts with. *)
    match text msg with
    | None => throw TypeError
    | Some t =>
        if negb (startsWith t "/") && bool_decide (t ≠ "/cancel") then
          send (ToChat chatId) MNotUnderstood ;;
          showMainMenu chatId
        else mret tt
    end.

(** Lines 83-114.  The cleared range [A:Z] is the whole sheet: the sheets
    of the bot have fewer than 26 columns.  [Object.values] of a row lists
    its cells in the order of its keys, a missing cell as an empty one. *)
Definition deleteSheetRow (sheetName : SheetName) (searchColumn : string)
    (searchValue : option string) : M bool :=
  try_catch
    (rows ← getSheetRows sheetName;
     let headers := match rows with first :: _ => Object_keys first | [] => [] end in
     let initialRowCount := length rows in
     let updatedRows := filter (λ row, obj_get row searchColumn ≠ searchValue) rows in
     sheets_clear sheetName ;;
     match updatedRows with
     | _ :: _ =>
         sheets_append sheetName
           (headers :: map (λ row, default "" <$> row.*2) updatedRows)
     | [] =>
         if (0 <? initialRowCount)%nat then appendSheetRow sheetName headers ;; mret tt
         else mret tt
     end ;;
     mret true)
    (send (ToChat ADMIN_ID) (MSheetError "deleteRow" sheetName) ;; mret false).

(** Lines 116-118; [now] is [new Date().toLocaleString()]. *)
Definition logActivity (now : string) (userId : Z) (action details : string) : M unit :=
  appendSheetRow Logs [now; user_id_string userId; action; details] ;; mret tt.

(** Lines 161-188: the [/start] command. *)
Definition on_start (msg : Message) : M unit :=
  let chatId := chat_id msg in
  let userId := from_id msg in
  users ← getSheetRows Users;
  match find (λ u, obj_get u "UserID" = Some (user_id_string userId)) users with
  | Some u =>
      if decide (obj_get u "Status" = Some "Blocked") then send (ToChat chatId) MBlocked
      else if decide (obj_get u "Verified" = Some "Yes") then showMainMenu chatId
      else send (ToChat chatId) MWelcomeJoin
  | None => send (ToChat chatId) MWelcomeJoin
  end.

End Handlers.

End IndexJs.

(** ** What the handlers read, named *)

Module View.
Import JS Bot.

Definition orders_of (w : World) : list Obj := rows_of (values_get (sheet Orders w)).
Definition categories_of (w : World) : list Obj := rows_of (values_get (sheet Categories w)).
Definition users_of (w : World) : list Obj := rows_of (values_get (sheet Users w)).

(** [orders.find(o => o.OrderID === orderId)]. *)
Definition order_by_id (w : World) (orderId : string) : option Obj :=
  find (λ o, obj_get o "OrderID" = Some orderId) (orders_of w).

(** [categories.find(c => c.CategoryID === categoryId)]. *)
Definition category_by_id (w : World) (categoryId : option string) : option Obj :=
  find (λ c, obj_get c "CategoryID" = categoryId) (categories_of w).

Definition pool_of (cat : Obj) : list string := code_pool (obj_get cat "VoucherCodes").

(** [order.Status] of the order with this id. *)
Definition order_status (w : World) (orderId : string) : option string :=
  order_by_id w orderId ≫= λ o, obj_get o "Status".

(** What a reply of the recovery flow may tell the user [userId] about
    the order id [orderId] it was asked for: codes only of an order that is
    this user's and Successful, a status only of an order that is this
    user's. *)
Definition recovery_reply_ok (w : World) (userId : Z) (orderId : string) (reply : Msg)
    : Prop :=
  match reply with
  | MRecoverNotFound orderId' => orderId' = orderId
  | MVouchersFound orderId' codes =>
      orderId' = orderId ∧
      ∃ order, order_by_id w orderId = Some order ∧
               obj_get order "UserID" = Some (user_id_string userId) ∧
               obj_get order "Status" = Some "Successful" ∧
               codes = obj_get order "VoucherCodeDelivered"
  | MRecoverStatus status =>
      ∃ order, order_by_id w orderId = Some order ∧
               obj_get order "UserID" = Some (user_id_string userId) ∧
               status = obj_get order "Status"
  | _ => False
  end.

(** The two replies of the approve branch that refuse for lack of stock. *)
Definition stock_refusal (m : Msg) : bool :=
  match m with
  | MStockLow _ _ | MInsufficientCodes _ _ => true
  | _ => false
  end.

(** The number of codes the approve branch takes for an order:
    [parseInt(order.Quantity)] as [splice] reads it. *)
Definition quantity_of (order : Obj) : nat :=
  match parseInt_cell (obj_get order "Quantity") with
  | Int z => Z.to_nat z
  | NaN => 0%nat
  end.

(** The checks of the approve branch (lines 562, 571 and 577): the order
    found and Pending, its category found, and neither stock test refusing.
    When they pass, the order row and the category row the branch works on. *)
Definition approve_gate (w : World) (orderId : string) : option (Obj * Obj) :=
  match order_by_id w orderId with
  | Some order =>
      if decide (obj_get order "Status" = Some "Pending") then
        match category_by_id w (obj_get order "Category") with
        | Some cat =>
            if lt_cells (obj_get cat "Stock") (obj_get order "Quantity") then None
            else if number_lt (Int (Z.of_nat (length (pool_of cat))))
                      (cell_to_number (obj_get order "Quantity")) then None
            else Some (order, cat)
        | None => None
        end
      else None
  | None => None
  end.

(** What the approve branch writes into the category row and the order row. *)
Definition category_patch (order cat : Obj) : Obj :=
  [("Stock", Some (number_to_string
                     (number_sub (cell_to_number (obj_get cat "Stock"))
                        (parseInt_cell (obj_get order "Quantity")))));
   ("VoucherCodes", Some (join newline (drop (quantity_of order) (pool_of cat))))].

Definition order_patch (order cat : Obj) : Obj :=
  [("Status", Some "Successful");
   ("VoucherCodeDelivered", Some (join newline (take (quantity_of order) (pool_of cat))))].

(** The three messages of a successful approval. *)
Definition approval_messages (chatId : Z) (orderId : string) (order cat : Obj)
    : list (Dest * Msg) :=
  [(ToCell (obj_get order "UserID"),
    MOrderApproved orderId (join newline (take (quantity_of order) (pool_of cat))));
   (ToChat chatId, MApprovedAdmin orderId);
   (ToOrdersChannel, MApprovedChannel order)].

(** *** Prices, as the specification words them *)

(** The tiers by descending threshold: the least quantity a tier serves and
    the column of its price. *)
Definition price_tiers : list (Z * string) :=
  [(20, "Price20Plus"); (10, "Price10"); (5, "Price5"); (1, "Price1")].

(** A tier serves a quantity when the quantity reaches its threshold and
    its cell is configured (present and not empty). *)
Definition tier_applies (cat : Obj) (qty : Z) (t : Z * string) : bool :=
  (t.1 <=? qty) && truthy (obj_get cat t.2).

(** The scan: the cell of the first tier, from the highest threshold down,
    that serves the quantity; the base price when none does. *)
Definition scan_tiers (cat : Obj) (qty : Z) : option string :=
  match List.find (tier_applies cat qty) price_tiers with
  | Some t => obj_get cat t.2
  | None => obj_get cat "Price"
  end.

(** The price a cell configures: its number, when that is above zero. *)
Definition configured_price (c : option string) : option number :=
  let rate := parseFloat_cell c in
  if number_isNaN rate || number_le rate (Int 0) then None else Some rate.

(** *** Stock and pool *)

(** The Stock cell is the number of codes in the pool. *)
Definition stock_consistent (cat : Obj) : Prop :=
  cell_to_number (obj_get cat "Stock") = Int (Z.of_nat (length (pool_of cat))).

(** A category row as the flows leave it: consistent, or still without
    codes (a new category before its first stock). *)
Definition row_ok (cat : Obj) : Prop := stock_consistent cat ∨ pool_of cat = [].

(** The Quantity cell of an order as [submitOrder] writes it: the digits
    of a positive number. *)
Definition quantity_ok (order : Obj) : Prop :=
  ∃ s, obj_get order "Quantity" = Some s ∧ digits_only s = true ∧ 0 < dec_value 0 s.

(** A store the flows can work on: the sheet service answers, the header
    names of the two sheets are distinct and plain, the Categories sheet has
    its Stock and VoucherCodes columns, and the orders carry proper
    quantities. *)
Definition wf_store (w : World) : Prop :=
  faults w = [] ∧
  NoDup (headers_of (sheet Categories w)) ∧
  "Stock" ∈ headers_of (sheet Categories w) ∧
  "VoucherCodes" ∈ headers_of (sheet Categories w) ∧
  NoDup (headers_of (sheet Orders w)) ∧
  Forall quantity_ok (orders_of w) ∧
  plain_headers (sheet Categories w) ∧
  plain_headers (sheet Orders w).

(** No pool has more codes than a Number counts exactly. *)
Definition pools_fit (w : World) : Prop :=
  Forall (λ cat, Z.of_nat (length (pool_of cat)) < 2 ^ 53) (categories_of w).

(** The mutations of a category's stock: the admin sends codes for a
    category, the admin names a code to remove, the admin approves an order. *)
Inductive Mutation :=
  | AddCodes (categoryId : option string) (text : string)
  | RemoveCode (text : string)
  | Approve (orderId : string).

(** The world after the branch that handles the mutation has run. *)
Definition apply_mutation (ADMIN_ID chatId userId : Z) (w : World) (m : Mutation) : World :=
  match m with
  | AddCodes categoryId text =>
      snd (IndexJs.add_voucher_codes ADMIN_ID chatId userId
             (IndexJs.session_for adm_waiting_for_voucher_codes categoryId) (Some text) w)
  | RemoveCode text =>
      snd (IndexJs.remove_voucher_code ADMIN_ID chatId userId (Some text) w)
  | Approve orderId =>
      snd (Part000.approve chatId orderId w)
  end.

Definition run_mutations (ADMIN_ID chatId userId : Z) (ms : list Mutation) (w : World)
    : World :=
  foldl (apply_mutation ADMIN_ID chatId userId) w ms.

(** One step on the category rows: nothing changed, or one row was
    rewritten and is consistent. *)
Definition category_step (before after : list Obj) : Prop :=
  after = before ∨
  ∃ k cat', (k < length before)%nat ∧ after = <[k := cat']> before ∧ stock_consistent cat'.

(** One step on the store as a whole: the sheet service still answers
    alike, the header rows stand, the quantities stay proper, and the
    category rows made a [category_step]. *)
Definition store_step (w w' : World) : Prop :=
  faults w' = faults w ∧
  headers_of (sheet Categories w') = headers_of (sheet Categories w) ∧
  headers_of (sheet Orders w') = headers_of (sheet Orders w) ∧
  (Forall quantity_ok (orders_of w) → Forall quantity_ok (orders_of w')) ∧
  category_step (categories_of w) (categories_of w').

(** A run of [m] leaves the observation [f] of the world as it was,
    whether it returns or throws. *)
Definition keeps {A B} (f : World → A) (m : M B) : Prop :=
  ∀ w, f (snd (m w)) = f w.

(** A run of [m] neither reads nor writes the Users sheet: on a world with
    another Users sheet it returns the same and leaves the same world, but
    for that sheet. *)
Definition ignores_users {A} (m : M A) : Prop :=
  ∀ g w, m (set_sheet Users g w) = (fst (m w), set_sheet Users g (snd (m w))).

End View.

(** ** Sample sheets and worlds *)

Module Sample.
Import JS Bot.

Definition user_headers : list string :=
  ["UserID"; "Name"; "JoinedAt"; "Status"; "Verified"].

Definition category_headers : list string :=
  ["CategoryID"; "Value"; "Price1"; "Price5"; "Price10"; "Price20Plus"; "Stock";
   "VoucherCodes"].

(** The columns under the names the handlers read them by. *)
Definition order_headers : list string :=
  ["OrderID"; "UserID"; "UserName"; "Category"; "Quantity"; "Total"; "UTR"; "Status";
   "VoucherCodeDelivered"; "CreatedAt"].

(** One category, priced 50 / 45 / 40 / 35, with the given stock cell and codes. *)
Definition categories (stock : string) (codes : list string) : Grid :=
  [category_headers;
   ["cat500"; "500"; "50"; "45"; "40"; "35"; stock; join newline codes]].

(** One order of user 42 for that category. *)
Definition orders (quantity status delivered : string) : Grid :=
  [order_headers;
   ["SVH-1"; "42"; "Ann"; "cat500"; quantity; "100.00"; "123456789012"; status; delivered;
    "3/1/2025"]].

Definition users (status verified : string) : Grid :=
  [user_headers; ["42"; "Ann"; "1/1/2025"; status; verified]].

Definition world (us cs os : Grid) : World := mkWorld us cs os [] ∅ [] [].

(** Three codes in stock, a Pending order for two. *)
Definition stocked : World :=
  world (users "Active" "Yes") (categories "3" ["A"; "B"; "C"]) (orders "2" "Pending" "").

(** Ten codes in stock, a Pending order for nine. *)
Definition ample : World :=
  world (users "Active" "Yes")
    (categories "10" ["A"; "B"; "C"; "D"; "E"; "F"; "G"; "H"; "I"; "J"])
    (orders "9" "Pending" "").

(** Three codes in stock, a Pending order whose Quantity cell is -2. *)
Definition returning : World :=
  world (users "Active" "Yes") (categories "3" ["A"; "B"; "C"]) (orders "-2" "Pending" "").

(** One code in stock, a Pending order for two. *)
Definition short : World :=
  world (users "Active" "Yes") (categories "1" ["A"]) (orders "2" "Pending" "").

(** The order already delivered. *)
Definition delivered : World :=
  world (users "Active" "Yes") (categories "1" ["C"])
    (orders "2" "Successful" (join newline ["A"; "B"])).


(** User 7, who placed no order, is asked for an order id to recover. *)
Definition asking : World :=
  set_userStates {[ 7 := session_in waiting_for_recovery_oid ]} delivered.

Definition text_message (userId : Z) (t : string) : Event.Message :=
  Event.mkMessage userId userId "Bob" (Some t) [] None.

Definition button (userId : Z) (data : string) : Event.CallbackQuery :=
  Event.mkCallbackQuery userId userId data.


(** User 9 has sent the screenshot and is asked for the UTR. *)
Definition paying : World :=
  set_userStates
    {[ 9 := mkSession (Some waiting_for_utr) None (Some "cat500") (Some 2) (Some (Num (Int 100)))
              (Some "file-1") None None None ]} stocked.

(** A stand-in for [submitOrder] that leaves a trace of the call. *)
Definition traced_order_flow : Z → Z → string → string → M unit :=
  λ chatId _ utr _, send (ToChat chatId) (MOrderSubmitted utr).

(** Stand-ins for the functions [src/index.js] does not define. *)
Definition no_quantity_flow : Z → Z → option string → Z → M unit := λ _ _ _ _, mret tt.
Definition no_order_flow : Z → Z → string → string → M unit := λ _ _ _ _, mret tt.
Definition no_category_flow : Z → string → M unit := λ _ _, mret tt.

(** The row objects of the sample order and category. *)
Definition order_row (quantity status delivered : string) : Obj :=
  row_object order_headers
    ["SVH-1"; "42"; "Ann"; "cat500"; quantity; "100.00"; "123456789012"; status; delivered;
     "3/1/2025"].

Definition category_row (stock : string) (codes : list string) : Obj :=
  row_object category_headers
    ["cat500"; "500"; "50"; "45"; "40"; "35"; stock; join newline codes].

End Sample.

(* ===================================================================== *)
(** * Part II. Lemmas and theorems *)
(* ===================================================================== *)

Import JS Bot Event View.

(** ** Numerals: parsing what was printed *)

Section Numerals.

Lemma is_digit_spec a :
  is_digit a = true →
  digit_of 10 a = Some (Z.of_N (N_of_ascii a) - 48) ∧ is_ws a = false ∧
  Ascii.eqb a "-" = false ∧ Ascii.eqb a "+" = false ∧
  Ascii.eqb a "x" = false ∧ Ascii.eqb a "X" = false ∧
  Ascii.eqb a "o" = false ∧ Ascii.eqb a "O" = false ∧
  Ascii.eqb a "b" = false ∧ Ascii.eqb a "B" = false.
Proof.
  destruct a as [[] [] [] [] [] [] [] []]; vm_compute; intros H; try discriminate H;
    repeat split.
Qed.

Lemma digits_prefix_all acc s :
  all_chars is_digit s = true →
  digits_prefix 10 acc s =
  (match s with EmptyString => acc | _ => Some (dec_value (default 0 acc) s) end, EmptyString).
Proof.
  revert acc; induction s as [|a r IH]; intros acc H; simpl in *; [done|].
  apply andb_true_iff in H as [Ha Hr].
  destruct (is_digit_spec a Ha) as (-> & _).
  rewrite IH by done. destruct r; simpl; done.
Qed.

Lemma dec_value_nonneg acc s : all_chars is_digit s = true → 0 ≤ acc → 0 ≤ dec_value acc s.
Proof.
  revert acc; induction s as [|a r IH]; intros acc H Hacc; simpl in *; [done|].
  apply andb_true_iff in H as [Ha Hr]. apply IH; [done|].
  unfold is_digit in Ha. apply andb_true_iff in Ha as [H1 H2].
  apply Z.leb_le in H1, H2. lia.
Qed.

Lemma all_chars_impl (P Q : ascii → bool) s :
  (∀ a, P a = true → Q a = true) → all_chars P s = true → all_chars Q s = true.
Proof.
  intros HPQ. induction s as [|a r IH]; simpl; [done|].
  intros [Ha Hr]%andb_true_iff. rewrite HPQ, IH; done.
Qed.

Lemma trimEnd_no_ws s : all_chars (λ a, negb (is_ws a)) s = true → trimEnd s = s.
Proof.
  induction s as [|a r IH]; simpl; [done|].
  intros [Ha Hr]%andb_true_iff. rewrite IH by done.
  apply negb_true_iff in Ha. rewrite Ha. by destruct r.
Qed.

Lemma trimStart_no_ws s : all_chars (λ a, negb (is_ws a)) s = true → trimStart s = s.
Proof.
  destruct s as [|a r]; simpl; [done|].
  intros [Ha Hr]%andb_true_iff. apply negb_true_iff in Ha. by rewrite Ha.
Qed.

Lemma trim_no_ws s : all_chars (λ a, negb (is_ws a)) s = true → trim s = s.
Proof. intros H. unfold trim. by rewrite trimStart_no_ws, trimEnd_no_ws. Qed.

Lemma digits_no_ws s : all_chars is_digit s = true → all_chars (λ a, negb (is_ws a)) s = true.
Proof.
  apply all_chars_impl. intros a Ha. destruct (is_digit_spec a Ha) as (_ & -> & _). done.
Qed.

(** On a run of digits [Number] and [parseInt] agree, and the value is a
    natural number. *)
Lemma digits_only_parse s :
  digits_only s = true →
  ToNumber s = Int (dec_value 0 s) ∧ parseInt s = Int (dec_value 0 s) ∧ 0 ≤ dec_value 0 s.
Proof.
  unfold digits_only. intros [Hne Hd]%andb_true_iff.
  apply negb_true_iff in Hne.
  assert (Hrad : radix_prefix s = None).
  { destruct s as [|a [|b r]]; simpl; try done.
    simpl in Hd. apply andb_true_iff in Hd as [Ha [Hb _]%andb_true_iff].
    destruct (is_digit_spec b Hb) as (_ & _ & _ & _ & -> & -> & -> & -> & -> & ->).
    simpl. by destruct (Ascii.eqb a "0"). }
  assert (Hsign : strip_sign s = (false, s)).
  { destruct s as [|a r]; simpl; [done|].
    simpl in Hd. apply andb_true_iff in Hd as [Ha _].
    destruct (is_digit_spec a Ha) as (_ & _ & -> & -> & _). done. }
  split; [|split].
  - unfold ToNumber, integer_literal. rewrite trim_no_ws by (by apply digits_no_ws).
    rewrite Hne, Hrad, Hsign. unfold all_digits.
    rewrite digits_prefix_all by done. destruct s; [done|]. done.
  - unfold parseInt. rewrite trimStart_no_ws by (by apply digits_no_ws).
    rewrite Hsign, Hrad. rewrite digits_prefix_all by done. destruct s; [done|]. done.
  - by apply dec_value_nonneg.
Qed.

Lemma string_of_uint_digits d :
  all_chars is_digit (NilEmpty.string_of_uint d) = true ∧
  ∀ acc, dec_value acc (NilEmpty.string_of_uint d) = uint_val acc d.
Proof.
  induction d as [|d [IH1 IH2]|d [IH1 IH2]|d [IH1 IH2]|d [IH1 IH2]|d [IH1 IH2]
                  |d [IH1 IH2]|d [IH1 IH2]|d [IH1 IH2]|d [IH1 IH2]|d [IH1 IH2]];
    simpl; (split; [done || (rewrite IH1; done) | intros acc; try done; apply IH2]).
Qed.

Lemma of_uint_acc_val d acc : Zpos (Pos.of_uint_acc d acc) = uint_val (Zpos acc) d.
Proof.
  revert acc; induction d; intros acc; simpl; try done; rewrite IHd; f_equal; lia.
Qed.

Lemma of_uint_val d : Z.of_N (Pos.of_uint d) = uint_val 0 d.
Proof. induction d; simpl; try done; rewrite of_uint_acc_val; done. Qed.

Lemma pos_to_uint_val p : uint_val 0 (Pos.to_uint p) = Zpos p.
Proof. rewrite <- of_uint_val, DecimalPos.Unsigned.of_to. done. Qed.

Lemma string_of_uint_nonempty d : d ≠ Decimal.Nil → NilEmpty.string_of_uint d ≠ EmptyString.
Proof. destruct d; simpl; done. Qed.

(** [toString] of a natural number is a run of digits that denotes it. *)
Lemma nat_string_digits z :
  0 ≤ z → digits_only (num_to_string (Int z)) = true ∧ dec_value 0 (num_to_string (Int z)) = z.
Proof.
  intros Hz. unfold num_to_string, digits_only.
  destruct z as [|p|p]; [by vm_compute | | lia].
  simpl. pose proof (DecimalPos.Unsigned.to_uint_nonnil p) as Hnn.
  destruct (string_of_uint_digits (Pos.to_uint p)) as [Hd Hv].
  unfold NilZero.string_of_uint.
  destruct (Pos.to_uint p) eqn:E; [done | ..];
    rewrite <- E in *; rewrite Hd, Hv, pos_to_uint_val;
    (split; [|done]); rewrite andb_true_r; apply negb_true_iff, String.eqb_neq;
    apply string_of_uint_nonempty; done.
Qed.

Lemma ToNumber_nat_string z : 0 ≤ z → ToNumber (num_to_string (Int z)) = Int z.
Proof.
  intros Hz. destruct (nat_string_digits z Hz) as [Hd Hv].
  destruct (digits_only_parse _ Hd) as (-> & _). by rewrite Hv.
Qed.

Lemma number_lt_Int a b : number_lt (Int a) (Int b) = (a <? b).
Proof.
  unfold number_lt, Qle_bool. simpl. rewrite !Z.mul_1_r. symmetry. apply Z.ltb_antisym.
Qed.

Lemma number_eqb_Int a b : number_eqb (Int a) (Int b) = (a =? b).
Proof. unfold number_eqb, Qeq_bool. simpl. rewrite !Z.mul_1_r. done. Qed.

Lemma Qred_whole z : Qred (z # 1) = z # 1.
Proof.
  unfold Qred. pose proof (Z.ggcd_gcd z 1) as Hg.
  pose proof (Z.ggcd_correct_divisors z 1) as Hd.
  destruct (Z.ggcd z 1) as [g [a b]]. simpl in *.
  rewrite Z.gcd_1_r in Hg. subst g. destruct Hd as [-> Hb].
  assert (b = 1) as -> by lia. f_equal. lia.
Qed.

Lemma round_half_even_exact N D : 0 < D → round_half_even (N * D) D = N.
Proof.
  intros HD. unfold round_half_even.
  rewrite Z.mod_mul, Z.div_mul by lia. simpl.
  destruct D; done.
Qed.

(** A whole number up to 2^53 is a double. *)
Lemma nearest_double_whole n :
  Zpos n ≤ 2 ^ 53 → nearest_double n 1 = Some (Zpos n # 1).
Proof.
  intros Hn. unfold nearest_double.
  assert (Hlog : floor_log2 n 1 = Z.log2 (Zpos n)).
  { unfold floor_log2. change (Z.log2 1) with 0. rewrite Z.sub_0_r.
    pose proof (Z.log2_nonneg (Zpos n)) as H0.
    rewrite (proj2 (Z.leb_le _ _) H0).
    pose proof (Z.log2_spec (Zpos n) eq_refl) as [Hl _].
    rewrite (proj2 (Z.ltb_ge _ _)) by lia. done. }
  rewrite Hlog.
  pose proof (Z.log2_nonneg (Zpos n)) as H0.
  pose proof (Z.log2_spec (Zpos n) eq_refl) as [Hl Hu].
  assert (Hle : Z.log2 (Zpos n) ≤ 53).
  { rewrite <- (Z.log2_pow2 53) by lia. by apply Z.log2_le_mono. }
  rewrite Z.max_l by lia.
  remember (Z.log2 (Zpos n) - 52) as p eqn:Ep.
  destruct (0 <=? p) eqn:Hp.
  - apply Z.leb_le in Hp.
    assert (Hdiv : ∃ m, Zpos n = m * (1 * 2 ^ p) ∧ m * 2 ^ p < 2 ^ 1024) .
    { assert (p = 0 ∨ p = 1) as [E|E] by lia; rewrite E.
      - exists (Zpos n). change (2 ^ 0) with 1. split; [lia|].
        apply Z.le_lt_trans with (2 ^ 53); [lia|]. by vm_compute.
      - assert (Z.log2 (Zpos n) = 53) as E' by (clear -E Ep; lia). rewrite E' in Hl.
        assert (Zpos n = 2 ^ 53) as -> by (clear -Hl Hn; lia).
        exists (2 ^ 52). split; by vm_compute. }
    destruct Hdiv as (m & Hm & Hlt).
    assert (0 < 2 ^ p) by (apply Z.pow_pos_nonneg; lia).
    assert (Hr : round_half_even (Zpos n) (1 * 2 ^ p) = m).
    { rewrite Hm at 1. apply round_half_even_exact. lia. }
    cbv zeta. rewrite !Hr.
    rewrite (proj2 (Z.leb_gt _ _) Hlt). do 2 f_equal. lia.
  - apply Z.leb_gt in Hp.
    assert (Hr : round_half_even (Zpos n * 2 ^ (- p)) 1 = Zpos n * 2 ^ (- p)).
    { rewrite <- (Z.mul_1_r (Zpos n * 2 ^ (- p))) at 1. by apply round_half_even_exact. }
    rewrite Hr. f_equal. rewrite <- Qred_whole. apply Qred_complete.
    unfold Qeq. simpl. rewrite Z2Pos.id by (apply Z.pow_pos_nonneg; lia). lia.
Qed.

Lemma number_of_Q_whole z : Z.abs z ≤ 2 ^ 53 → number_of_Q (z # 1) = Int z.
Proof.
  intros Hz. unfold number_of_Q. destruct z as [|n|n]; simpl; [done| |].
  - rewrite nearest_double_whole by lia. done.
  - rewrite nearest_double_whole by lia. done.
Qed.

Lemma Qred_minus_whole a b : Qred (Qminus (a # 1) (b # 1)) = (a - b # 1).
Proof.
  rewrite <- (Qred_whole (a - b)). apply Qred_complete. unfold Qeq, Qminus, Qplus, Qopp. simpl. lia.
Qed.

Lemma number_sub_Int a b :
  Z.abs (a - b) ≤ 2 ^ 53 → number_sub (Int a) (Int b) = Int (a - b).
Proof.
  intros H. unfold number_sub. simpl number_value. cbv iota beta.
  rewrite Qred_minus_whole. by apply number_of_Q_whole.
Qed.

Lemma number_to_string_Int z :
  Z.abs z ≤ 2 ^ 53 → number_to_string (Int z) = num_to_string (Int z).
Proof.
  intros Hz. unfold number_to_string.
  destruct (Z.abs z <=? 2 ^ 53) eqn:E; [done|]. apply Z.leb_gt in E. lia.
Qed.

Lemma parseInt_nat_string z : 0 ≤ z → parseInt (num_to_string (Int z)) = Int z.
Proof.
  intros Hz. destruct (nat_string_digits z Hz) as [Hd Hv].
  destruct (digits_only_parse _ Hd) as (_ & -> & _). by rewrite Hv.
Qed.

Lemma num_to_string_nonempty n : num_to_string n ≠ EmptyString.
Proof.
  destruct n as [|z]; [done|]. simpl.
  destruct z as [|p|p]; [done| |done].
  destruct (nat_string_digits (Zpos p)) as [Hd _]; [done|].
  unfold digits_only in Hd. apply andb_true_iff in Hd as [Hd _].
  apply negb_true_iff, String.eqb_neq in Hd. done.
Qed.

Lemma append_nonempty_l s t : s ≠ EmptyString → (s +:+ t)%string ≠ EmptyString.
Proof. by destruct s. Qed.

Lemma append_nonempty_r s t : t ≠ EmptyString → (s +:+ t)%string ≠ EmptyString.
Proof. by destruct s. Qed.

Lemma positive_to_string_nonempty v : positive_to_string v ≠ EmptyString.
Proof.
  unfold positive_to_string.
  destruct (shortest_from _ _ _ _) as [c e]. destruct (strip_zeros _ _ _) as [c' e'].
  cbv zeta.
  repeat match goal with |- context [if ?b then _ else _] => destruct b end;
    first [ apply append_nonempty_l, num_to_string_nonempty
          | apply append_nonempty_r; done
          | done ].
Qed.

Lemma number_to_string_nonempty x : number_to_string x ≠ EmptyString.
Proof.
  destruct x as [[|z]|q|[]]; try done; unfold number_to_string.
  - destruct (Z.abs z <=? 2 ^ 53); [apply num_to_string_nonempty|].
    destruct (nearest_double _ _); [|by destruct (z <? 0)].
    apply append_nonempty_r, positive_to_string_nonempty.
  - destruct (Qle_bool q 0); [apply append_nonempty_r|]; apply positive_to_string_nonempty.
Qed.

Lemma Z_to_int_proper z : Z.to_int z ≠ Decimal.Pos Decimal.Nil ∧ Z.to_int z ≠ Decimal.Neg Decimal.Nil.
Proof.
  destruct z as [|p|p]; simpl; (split; [|done]) || (split; [done|]); try done;
    intros [= H]; by apply (DecimalPos.Unsigned.to_uint_nonnil p).
Qed.

(** Two user ids with the same decimal text are the same id. *)
Lemma user_id_string_inj a b : user_id_string a = user_id_string b → a = b.
Proof.
  unfold user_id_string, num_to_string. intros H.
  apply DecimalZ.to_int_inj.
  destruct (Z_to_int_proper a) as [Ha1 Ha2], (Z_to_int_proper b) as [Hb1 Hb2].
  pose proof (NilZero.isi _ Ha1 Ha2) as Ia. pose proof (NilZero.isi _ Hb1 Hb2) as Ib.
  rewrite H in Ia. congruence.
Qed.

End Numerals.

(** ** Texts: trim, split and join *)

Section Texts.

Lemma split_on_no_sep s : no_lf s = true → split_on LF s = [s].
Proof.
  induction s as [|a r IH]; simpl; [done|].
  intros [Ha Hr]%andb_true_iff. apply negb_true_iff in Ha. rewrite Ha, IH; done.
Qed.

Lemma split_on_app x s :
  no_lf x = true → split_on LF (x +:+ String LF s) = x :: split_on LF s.
Proof.
  induction x as [|a r IH]; simpl.
  - intros _. done.
  - intros [Ha Hr]%andb_true_iff. apply negb_true_iff in Ha. rewrite Ha, IH; done.
Qed.

(** Splitting what was joined gives the list back. *)
Lemma split_on_join l :
  l ≠ [] → Forall (λ x, no_lf x = true) l → split_on LF (join newline l) = l.
Proof.
  induction l as [|x l IH]; [done|]. intros _ Hl.
  apply Forall_cons in Hl as [Hx Hl].
  destruct l as [|y l].
  - by apply split_on_no_sep.
  - change (join newline (x :: y :: l)) with (x +:+ String LF (join newline (y :: l))).
    rewrite split_on_app by done. f_equal. by apply IH.
Qed.

Lemma split_on_parts_no_sep s : Forall (λ x, no_lf x = true) (split_on LF s).
Proof.
  induction s as [|a r IH]; simpl; [by repeat constructor|].
  destruct (Ascii.eqb a LF) eqn:E.
  - by constructor.
  - destruct (split_on LF r) as [|x xs].
    + constructor; [|done]. unfold no_lf. simpl. by rewrite E.
    + apply Forall_cons in IH as [Hx Hxs]. constructor; [|done].
      unfold no_lf in *. simpl. by rewrite E, Hx.
Qed.

Lemma code_pool_clean cell : Forall clean_code (code_pool cell).
Proof.
  unfold code_pool. destruct cell as [s|]; [|done].
  destruct (truthy (Some s)); [|done].
  apply Forall_forall. intros c [Hc Hin]%list_elem_of_filter.
  split; [|done].
  pose proof (split_on_parts_no_sep s) as H. rewrite Forall_forall in H. by apply H.
Qed.

Lemma clean_code_nonempty c : clean_code c → c ≠ EmptyString.
Proof. intros [_ H] ->. simpl in H. lia. Qed.

Lemma join_nonempty l : l ≠ [] → Forall clean_code l → join newline l ≠ EmptyString.
Proof.
  destruct l as [|x l]; [done|]. intros _ [Hx _]%Forall_cons.
  apply clean_code_nonempty in Hx. simpl. destruct l; [done|].
  destruct x; [done|]. done.
Qed.

Lemma filter_all {A} (P : A → Prop) `{∀ x, Decision (P x)} (l : list A) :
  Forall P l → filter P l = l.
Proof.
  induction 1 as [|x l Hx Hl IH]; [done|]. rewrite filter_cons_True by done. by rewrite IH.
Qed.

(** Reading the pool back from the cell it was joined into. *)
Lemma code_pool_join l : Forall clean_code l → code_pool (Some (join newline l)) = l.
Proof.
  intros Hl. unfold code_pool.
  destruct l as [|x l]; [done|].
  assert (Hne : join newline (x :: l) ≠ EmptyString) by (by apply join_nonempty).
  unfold truthy. rewrite (proj2 (String.eqb_neq _ _) Hne). simpl negb. cbv iota.
  rewrite split_on_join; [|done|].
  - apply filter_all. eapply Forall_impl; [done|]. by intros c [_ Hc].
  - eapply Forall_impl; [done|]. by intros c [Hc _].
Qed.

Lemma code_pool_falsy cell : truthy cell = false → code_pool cell = [].
Proof. unfold code_pool. destruct cell; [|done]. by intros ->. Qed.

Lemma trimEnd_idem s : trimEnd (trimEnd s) = trimEnd s.
Proof.
  induction s as [|a r IH]; simpl; [done|].
  destruct (trimEnd r) as [|b r'] eqn:E.
  - destruct (is_ws a) eqn:Ea; simpl; [done|]. by rewrite Ea.
  - simpl in *. rewrite IH. done.
Qed.

Lemma trimEnd_head a r : is_ws a = false → ∃ r', trimEnd (String a r) = String a r'.
Proof. intros Ha. simpl. rewrite Ha. destruct (trimEnd r); eauto. Qed.

Lemma trimStart_head s :
  trimStart s = EmptyString ∨ ∃ a r, trimStart s = String a r ∧ is_ws a = false.
Proof.
  induction s as [|a r IH]; simpl; [by left|].
  destruct (is_ws a) eqn:E; [done|]. right. eauto.
Qed.

Lemma trim_idem s : trim (trim s) = trim s.
Proof.
  unfold trim. destruct (trimStart_head s) as [->|(a & r & -> & Ha)]; [done|].
  destruct (trimEnd_head a r Ha) as [r' Hr]. rewrite Hr.
  simpl trimStart. rewrite Ha. rewrite <- Hr. apply trimEnd_idem.
Qed.

Lemma trimStart_no_lf s : no_lf s = true → no_lf (trimStart s) = true.
Proof.
  induction s as [|a r IH]; simpl; [done|].
  intros H. destruct (is_ws a); [|done]. apply andb_true_iff in H as [_ H]. auto.
Qed.

Lemma trimEnd_no_lf s : no_lf s = true → no_lf (trimEnd s) = true.
Proof.
  unfold no_lf. induction s as [|a r IH]; simpl; [done|].
  intros [Ha Hr]%andb_true_iff. specialize (IH Hr).
  destruct (trimEnd r) as [|b r'].
  - destruct (is_ws a); simpl; [done|]. by rewrite Ha.
  - simpl in *. by rewrite Ha, IH.
Qed.

Lemma trim_no_lf s : no_lf s = true → no_lf (trim s) = true.
Proof. intros H. unfold trim. by apply trimEnd_no_lf, trimStart_no_lf. Qed.

Lemma split_runs_parts is_sep prev s :
  (∀ a, is_sep a = false → negb (Ascii.eqb a LF) = true) →
  Forall (λ x, no_lf x = true) (split_runs is_sep prev s).
Proof.
  intros Hsep. revert prev. induction s as [|a r IH]; intros prev; simpl.
  - by repeat constructor.
  - destruct (is_sep a) eqn:E.
    + destruct prev; [apply IH|]. constructor; [done|apply IH].
    + specialize (IH false). destruct (split_runs is_sep false r) as [|x xs].
      * repeat constructor. unfold no_lf. simpl. by rewrite Hsep.
      * apply Forall_cons in IH as [Hx Hxs]. constructor; [|done].
        unfold no_lf in *. simpl. by rewrite Hsep, Hx.
Qed.

(** The codes the admin sends are fit for the pool. *)
Lemma parse_codes_clean text : Forall clean_code (IndexJs.parse_codes text).
Proof.
  unfold IndexJs.parse_codes. apply Forall_forall.
  intros c [Hlen Hin]%list_elem_of_filter.
  apply list_elem_of_fmap in Hin as (x & -> & Hx).
  split.
  - apply trim_no_lf.
    pose proof (split_runs_parts (λ a, Ascii.eqb a LF || Ascii.eqb a COMMA) false text) as H.
    rewrite Forall_forall in H. apply H; [|done].
    intros a Ha. apply orb_false_iff in Ha as [-> _]. done.
  - by rewrite trim_idem.
Qed.

End Texts.

(** ** Row objects and the sheet service *)

Section Store.

Lemma obj_set_fresh k v (o : Obj) : k ∉ Object_keys o → obj_set k v o = o ++ [(k, v)].
Proof.
  induction o as [|[k' v'] o IH]; simpl; [done|].
  intros Hk. apply not_elem_of_cons in Hk as [Hne Hk].
  destruct (decide (k' = k)); [congruence|]. by rewrite IH.
Qed.

Lemma zip_cells_keys i hs row : Object_keys (zip_cells i hs row) = hs.
Proof. revert i; induction hs as [|h hs IH]; intros i; simpl; [done|]. f_equal. apply IH. Qed.

Lemma row_object_from_zip i hs row (o : Obj) :
  NoDup hs → (∀ k, k ∈ hs → k ∉ Object_keys o) →
  row_object_from i hs row o = o ++ zip_cells i hs row.
Proof.
  revert i o; induction hs as [|h hs IH]; intros i o Hnd Hfresh; simpl.
  - by rewrite app_nil_r.
  - apply NoDup_cons in Hnd as [Hh Hnd].
    rewrite obj_set_fresh by (apply Hfresh; left).
    rewrite IH; [by rewrite <- app_assoc | done |].
    intros k Hk. unfold Object_keys. rewrite fmap_app. simpl.
    intros [Hin|Hin%list_elem_of_singleton]%elem_of_app.
    + eapply Hfresh; [by right | done].
    + congruence.
Qed.

(** Under distinct headers [getRows] zips the header row with the cells. *)
Lemma row_object_zip hs row : NoDup hs → row_object hs row = zip_cells 0 hs row.
Proof.
  intros Hnd. unfold row_object. rewrite row_object_from_zip; [done | done |].
  intros k _. unfold Object_keys. simpl. apply not_elem_of_nil.
Qed.

Lemma obj_get_zip_cells i hs row h j :
  NoDup hs → hs !! j = Some h → obj_get (zip_cells i hs row) h = row !! (i + j)%nat.
Proof.
  revert i j; induction hs as [|h' hs IH]; intros i j Hnd Hj; [done|].
  apply NoDup_cons in Hnd as [Hh Hnd]. simpl.
  destruct j as [|j]; simpl in Hj.
  - injection Hj as ->. rewrite decide_True by done. by rewrite Nat.add_0_r.
  - rewrite decide_False.
    + rewrite (IH (S i) j) by done. f_equal. lia.
    + intros ->. apply Hh. eapply list_elem_of_lookup_2. done.
Qed.

Lemma obj_get_not_key (o : Obj) h : h ∉ Object_keys o → obj_get o h = None.
Proof.
  induction o as [|[k v] o IH]; simpl; [done|].
  intros [Hne Hk]%not_elem_of_cons. rewrite decide_False by done. auto.
Qed.

Lemma obj_get_is_key (o : Obj) h v : obj_get o h = Some v → h ∈ Object_keys o.
Proof.
  intros H. destruct (decide (h ∈ Object_keys o)) as [|Hn]; [done|].
  by rewrite obj_get_not_key in H.
Qed.

Lemma cell_sim_trans a b c : cell_sim a b → cell_sim b c → cell_sim a c.
Proof.
  intros [->|[Ha Hb]] [->|[Hb' Hc]]; try (by left); try (by right).
Qed.

Lemma cell_sim_truthy a b : cell_sim a b → truthy b = true → a = b.
Proof. intros [->|[_ Hb]] Ht; [done | congruence]. Qed.

Lemma cell_sim_nonempty a v : cell_sim a (Some v) → v ≠ EmptyString → a = Some v.
Proof.
  intros Hs Hv. apply cell_sim_truthy; [done|]. simpl.
  by apply negb_true_iff, String.eqb_neq.
Qed.

Lemma truthy_false_cases c : truthy c = false ↔ c = None ∨ c = Some EmptyString.
Proof.
  destruct c as [s|]; simpl.
  - rewrite negb_false_iff, String.eqb_eq. split; [intros ->; by right|].
    intros [?|[= ->]]; done.
  - split; [by left | done].
Qed.

(** The pool does not tell an empty cell from a missing one. *)
Lemma code_pool_sim a b : cell_sim a b → code_pool a = code_pool b.
Proof.
  intros [->|[Ha Hb]]; [done|]. by rewrite !code_pool_falsy.
Qed.

Lemma drop_trailing_empty_spec l :
  ∃ n, l = drop_trailing_empty l ++ replicate n EmptyString.
Proof.
  induction l as [|c cs [n IH]]; simpl.
  - by exists 0%nat.
  - destruct (drop_trailing_empty cs) as [|x xs] eqn:E.
    + simpl in IH. destruct (decide (c = EmptyString)) as [->|].
      * exists (S n). simpl. by rewrite IH at 1.
      * exists n. simpl. by rewrite IH at 1.
    + exists n. simpl. by rewrite IH at 1.
Qed.

Lemma drop_trailing_empty_sim l j : cell_sim (drop_trailing_empty l !! j) (l !! j).
Proof.
  destruct (drop_trailing_empty_spec l) as [n Hl].
  destruct (decide (j < length (drop_trailing_empty l))%nat) as [Hj|Hj].
  - left. rewrite Hl at 2. by rewrite lookup_app_l.
  - right. rewrite lookup_ge_None_2 by lia. split; [done|].
    rewrite Hl, lookup_app_r by lia.
    destruct (replicate n EmptyString !! _) as [c|] eqn:E; [|done].
    apply lookup_replicate in E as [-> _]. done.
Qed.

Lemma write_cells_lookup newRow cells j :
  write_cells newRow cells !! j =
  match newRow !! j with
  | Some v => Some (default (default EmptyString (cells !! j)) v)
  | None => cells !! j
  end.
Proof.
  revert cells j; induction newRow as [|v vs IH]; intros cells j; simpl.
  - done.
  - destruct cells as [|c cs]; destruct j as [|j]; simpl; rewrite ?IH; try done;
      by destruct (vs !! j).
Qed.

Lemma merged_row_lookup newData rowData j h :
  Object_keys rowData !! j = Some h →
  merged_row newData rowData !! j =
  Some (match obj_get newData h with Some v => Some v | None => obj_get rowData h end).
Proof. intros Hj. unfold merged_row. by rewrite list_lookup_fmap, Hj. Qed.

Lemma row_object_keys hs row : NoDup hs → Object_keys (row_object hs row) = hs.
Proof. intros Hnd. rewrite row_object_zip by done. apply zip_cells_keys. Qed.

(** Reading a row back after [updateRow] wrote it: under every header the
    cell is the one meant, up to emptiness. *)
Lemma read_after_write hs cells newData h :
  NoDup hs →
  let rowData := row_object hs (drop_trailing_empty cells) in
  cell_sim
    (obj_get (row_object hs
       (drop_trailing_empty (write_cells (merged_row newData rowData) cells))) h)
    (expected newData rowData h).
Proof.
  intros Hnd rowData. unfold expected.
  assert (Hkeys : Object_keys rowData = hs) by (by apply row_object_keys).
  rewrite Hkeys. rewrite !row_object_zip by done.
  destruct (decide (h ∈ hs)) as [Hin|Hin].
  - apply list_elem_of_lookup in Hin as [j Hj].
    rewrite (obj_get_zip_cells 0 hs _ h j) by done. simpl.
    eapply cell_sim_trans; [apply drop_trailing_empty_sim|].
    rewrite write_cells_lookup.
    rewrite (merged_row_lookup _ _ j h) by (by rewrite Hkeys).
    unfold rowData. rewrite row_object_zip by done.
    rewrite (obj_get_zip_cells 0 hs _ h j) by done. simpl.
    destruct (obj_get newData h) as [v|]; simpl; [by left|].
    pose proof (drop_trailing_empty_sim cells j) as Hs.
    destruct (drop_trailing_empty cells !! j) as [c|] eqn:E; simpl.
    + by left.
    + destruct Hs as [<-|[_ Hc]]; simpl; [by right|].
      apply truthy_false_cases in Hc as [->| ->]; simpl; by right.
  - rewrite obj_get_not_key by (by rewrite zip_cells_keys).
    replace (obj_get rowData h) with (@None string).
    + destruct (obj_get newData h); by left.
    + symmetry. apply obj_get_not_key. by rewrite Hkeys.
Qed.

Lemma rows_of_values_get_cons h0 body :
  rows_of (values_get (h0 :: body)) =
  map (λ cells, row_object (drop_trailing_empty h0) (drop_trailing_empty cells)) body.
Proof. unfold rows_of, values_get. simpl. by rewrite map_map. Qed.

(** The rows a read returns after [updateRow] wrote row [i]: row [i]
    changed, the others did not. *)
Lemma rows_after_update g i newRow r :
  rows_of (values_get g) !! i = Some r →
  ∃ cells, g !! S i = Some cells ∧
    r = row_object (headers_of g) (drop_trailing_empty cells) ∧
    headers_of (values_update (S i) newRow g) = headers_of g ∧
    rows_of (values_get (values_update (S i) newRow g)) =
    <[i := row_object (headers_of g)
             (drop_trailing_empty (write_cells newRow cells))]> (rows_of (values_get g)).
Proof.
  destruct g as [|h0 body]; [done|].
  rewrite rows_of_values_get_cons. intros Hi.
  rewrite list_lookup_fmap in Hi.
  destruct (body !! i) as [cells|] eqn:Hc; [|done]. simpl in Hi. injection Hi as <-.
  exists cells. split; [done|]. split; [done|].
  unfold values_update. rewrite decide_True by (simpl; apply lookup_lt_Some in Hc; lia).
  change (alter (write_cells newRow) (S i) (h0 :: body))
    with (h0 :: alter (write_cells newRow) i body).
  split; [done|].
  rewrite rows_of_values_get_cons.
  apply list_eq. intros k. rewrite list_lookup_fmap.
  destruct (decide (k = i)) as [->|Hne].
  - rewrite list_lookup_alter_eq, Hc. simpl.
    rewrite list_lookup_insert_eq; [done|].
    rewrite length_fmap. by apply lookup_lt_Some in Hc.
  - rewrite list_lookup_alter_ne by done.
    rewrite list_lookup_insert_ne by done. by rewrite list_lookup_fmap.
Qed.

(** The same in one statement: what [updateRow] leaves of the row it found. *)
Lemma update_found g i r newData :
  NoDup (headers_of g) →
  rows_of (values_get g) !! i = Some r →
  ∃ r',
    rows_of (values_get (values_update (S i) (merged_row newData r) g)) =
      <[i := r']> (rows_of (values_get g)) ∧
    headers_of (values_update (S i) (merged_row newData r) g) = headers_of g ∧
    Object_keys r = headers_of g ∧
    ∀ h, cell_sim (obj_get r' h) (expected newData r h).
Proof.
  intros Hnd Hi.
  destruct (rows_after_update g i (merged_row newData r) r Hi) as (cells & Hc & Hr & Hh & Hrows).
  eexists. split; [exact Hrows|]. split; [done|]. split.
  - rewrite Hr. by apply row_object_keys.
  - intros h. rewrite Hr. by apply read_after_write.
Qed.

Lemma list_find_insert {A} (P : A → Prop) `{∀ x, Decision (P x)} (l : list A) i x x' :
  list_find P l = Some (i, x) → P x' → list_find P (<[i := x']> l) = Some (i, x').
Proof.
  intros (Hi & Hx & Hmin)%list_find_Some Hx'. apply list_find_Some.
  split; [|split; [done|]].
  - apply list_lookup_insert_eq. by apply lookup_lt_Some in Hi.
  - intros j y Hj Hlt. rewrite list_lookup_insert_ne in Hj by lia. eauto.
Qed.

End Store.

(** ** Running the handlers *)

Section Runs.

Lemma bind_run {A B} (m : M A) (f : A → M B) w :
  (m ≫= f) w =
  match m w with
  | (Ok a, w') => f a w'
  | (Throw e, w') => (Throw e, w')
  end.
Proof. reflexivity. Qed.

Lemma service_call_quiet w : faults w = [] → service_call w = (Ok tt, w).
Proof. intros H. unfold service_call. by rewrite H. Qed.

Lemma send_run d m w : send d m w = (Ok tt, say d m w).
Proof. reflexivity. Qed.

Lemma faults_set_sheet n g w : faults (set_sheet n g w) = faults w.
Proof. by destruct n. Qed.

Lemma sheet_set_sheet n g w : sheet n (set_sheet n g w) = g.
Proof. by destruct n. Qed.

Lemma sheet_set_sheet_ne n n' g w : n ≠ n' → sheet n' (set_sheet n g w) = sheet n' w.
Proof. by destruct n, n'. Qed.

Lemma sheet_say n d m w : sheet n (say d m w) = sheet n w.
Proof. by destruct n. Qed.

Lemma getRows_quiet n w :
  faults w = [] → Part000.getRows n w = (Ok (rows_of (values_get (sheet n w))), w).
Proof.
  intros H. unfold Part000.getRows, sheets_get. rewrite !bind_run, service_call_quiet by done.
  reflexivity.
Qed.

Lemma updateRow_quiet n col v nd w :
  faults w = [] →
  Part000.updateRow n col v nd w =
  match list_find (λ row, obj_get row col = v) (rows_of (values_get (sheet n w))) with
  | None => (Ok false, w)
  | Some (i, r) =>
      (Ok true, set_sheet n (values_update (S i) (merged_row nd r) (sheet n w)) w)
  end.
Proof.
  intros H. unfold Part000.updateRow. rewrite bind_run, getRows_quiet by done.
  destruct (list_find _ _) as [[i r]|]; [|done].
  unfold sheets_update. rewrite !bind_run, service_call_quiet by done.
  simpl. by rewrite Nat.add_1_r.
Qed.

End Runs.

(** ** Approval never reserves more codes than the pool holds *)

Section NoOverAllocation.

(** C2.  A Pending order whose quantity exceeds the number of codes in its
    category's pool (or whose category row is missing) is refused by the
    approve branch with one of its two stock replies, and nothing else
    changes: the sheets, the sessions and the fault flags are those of
    before. *)
Theorem approve_refuses_short_pool (w : World) (chatId : Z) (orderId : string)
    (order : Obj) (q : Z) :
  faults w = [] →
  order_by_id w orderId = Some order →
  obj_get order "Status" = Some "Pending" →
  cell_to_number (obj_get order "Quantity") = Int q →
  (∀ cat, category_by_id w (obj_get order "Category") = Some cat →
          Z.of_nat (length (pool_of cat)) < q) →
  ∃ m, stock_refusal m = true ∧
       Part000.approve chatId orderId w = (Ok tt, say (ToChat chatId) m w).
Proof.
  intros Hf Ho Hst Hq Hpool.
  unfold Part000.approve. rewrite bind_run, getRows_quiet by done.
  unfold order_by_id, orders_of in Ho. rewrite Ho.
  rewrite decide_False by (intros Hne; by apply Hne).
  rewrite bind_run, getRows_quiet by done.
  unfold category_by_id, categories_of in Hpool.
  destruct (find _ (rows_of (values_get (sheet Categories w)))) as [cat|] eqn:Hc.
  - destruct (lt_cells _ _).
    + eexists. split; [|apply send_run]. done.
    + specialize (Hpool cat eq_refl). unfold pool_of in Hpool.
      rewrite Hq, number_lt_Int.
      rewrite (proj2 (Z.ltb_lt _ _) Hpool).
      eexists. split; [|apply send_run]. done.
  - eexists. split; [|apply send_run]. done.
Qed.

End NoOverAllocation.

(** ** What a successful approval does *)

Section Approval.

Lemma find_list_find {A} (P : A → Prop) `{∀ x, Decision (P x)} (l : list A) x :
  find P l = Some x → ∃ i, list_find P l = Some (i, x).
Proof.
  unfold find. destruct (list_find P l) as [[i y]|]; simpl; [|done].
  intros [= ->]. eauto.
Qed.

Lemma approve_gate_inv w orderId order cat :
  approve_gate w orderId = Some (order, cat) →
  order_by_id w orderId = Some order ∧
  obj_get order "Status" = Some "Pending" ∧
  category_by_id w (obj_get order "Category") = Some cat ∧
  lt_cells (obj_get cat "Stock") (obj_get order "Quantity") = false ∧
  number_lt (Int (Z.of_nat (length (pool_of cat)))) (cell_to_number (obj_get order "Quantity")) = false.
Proof.
  unfold approve_gate.
  destruct (order_by_id w orderId) as [o|]; [|done].
  destruct (decide _) as [Hst|]; [|done].
  destruct (category_by_id w _) as [c|] eqn:Hc; [|done].
  destruct (lt_cells _ _) eqn:H1; [done|].
  destruct (number_lt _ _) eqn:H2; [done|].
  intros [= <- <-]. repeat split; done.
Qed.

Lemma splice0_quantity order (l : list string) :
  splice0 (parseInt_cell (obj_get order "Quantity")) l =
  (take (quantity_of order) l, drop (quantity_of order) l).
Proof. unfold splice0, quantity_of. by destruct (parseInt_cell _). Qed.

Lemma written_world_facts w gO gC d1 m1 d2 m2 d3 m3 :
  let w' := say d3 m3 (say d2 m2 (say d1 m1
              (set_sheet Orders gO (set_sheet Categories gC w)))) in
  faults w' = faults w ∧ userStates w' = userStates w ∧ sheet Users w' = sheet Users w ∧
  sheet Orders w' = gO ∧ sheet Categories w' = gC ∧
  outbox w' = outbox w ++ [(d1, m1); (d2, m2); (d3, m3)].
Proof. destruct w. simpl. rewrite <- !app_assoc. done. Qed.

(** The run of the approve branch when its checks pass and the sheet
    service answers: two rows written, three messages sent. *)
Lemma approve_effect w chatId orderId order cat :
  faults w = [] →
  NoDup (headers_of (sheet Orders w)) →
  NoDup (headers_of (sheet Categories w)) →
  approve_gate w orderId = Some (order, cat) →
  ∃ w' i j order' cat',
    Part000.approve chatId orderId w = (Ok tt, w') ∧
    faults w' = [] ∧
    userStates w' = userStates w ∧
    sheet Users w' = sheet Users w ∧
    headers_of (sheet Orders w') = headers_of (sheet Orders w) ∧
    headers_of (sheet Categories w') = headers_of (sheet Categories w) ∧
    list_find (λ o, obj_get o "OrderID" = Some orderId) (orders_of w) = Some (i, order) ∧
    list_find (λ c, obj_get c "CategoryID" = obj_get order "Category") (categories_of w)
      = Some (j, cat) ∧
    orders_of w' = <[i := order']> (orders_of w) ∧
    categories_of w' = <[j := cat']> (categories_of w) ∧
    (∀ h, cell_sim (obj_get order' h) (expected (order_patch order cat) order h)) ∧
    (∀ h, cell_sim (obj_get cat' h) (expected (category_patch order cat) cat h)) ∧
    outbox w' = outbox w ++ approval_messages chatId orderId order cat.
Proof.
  intros Hf HndO HndC Hgate.
  apply approve_gate_inv in Hgate as (Ho & Hst & Hc & Hlt & Hnum).
  unfold order_by_id in Ho. unfold category_by_id in Hc.
  destruct (find_list_find _ _ _ Ho) as [i Hi].
  destruct (find_list_find _ _ _ Hc) as [j Hj].
  pose proof Hi as (Hio & _ & _)%list_find_Some.
  pose proof Hj as (Hjc & Hcid & _)%list_find_Some.
  destruct (update_found _ _ _ (category_patch order cat) HndC Hjc)
    as (cat' & HrowsC & HhC & _ & HcellC).
  destruct (update_found _ _ _ (order_patch order cat) HndO Hio)
    as (order' & HrowsO & HhO & _ & HcellO).
  set (gC := values_update (S j) (merged_row (category_patch order cat) cat)
               (sheet Categories w)) in *.
  set (gO := values_update (S i) (merged_row (order_patch order cat) order)
               (sheet Orders w)) in *.
  destruct (written_world_facts w gO gC
              (ToCell (obj_get order "UserID"))
              (MOrderApproved orderId (join newline (take (quantity_of order) (pool_of cat))))
              (ToChat chatId) (MApprovedAdmin orderId)
              ToOrdersChannel (MApprovedChannel order))
    as (Hw1 & Hw2 & Hw3 & Hw4 & Hw5 & Hw6).
  exists (say ToOrdersChannel (MApprovedChannel order)
            (say (ToChat chatId) (MApprovedAdmin orderId)
               (say (ToCell (obj_get order "UserID"))
                  (MOrderApproved orderId
                     (join newline (take (quantity_of order) (pool_of cat))))
                  (set_sheet Orders gO (set_sheet Categories gC w))))), i, j, order', cat'.
  split.
  { unfold Part000.approve. rewrite bind_run, getRows_quiet by done.
    unfold orders_of in Ho. rewrite Ho.
    rewrite decide_False by (intros Hne; by apply Hne).
    rewrite bind_run, getRows_quiet by done.
    unfold categories_of in Hc. rewrite Hc, Hlt.
    unfold pool_of in Hnum. rewrite Hnum.
    rewrite splice0_quantity.
    rewrite bind_run, updateRow_quiet by done.
    rewrite Hcid. unfold categories_of in Hj. rewrite Hj.
    rewrite bind_run, updateRow_quiet by (by rewrite faults_set_sheet).
    rewrite sheet_set_sheet_ne by done.
    unfold orders_of in Hi. rewrite Hi.
    rewrite !bind_run, !send_run. reflexivity. }
  unfold orders_of, categories_of.
  rewrite Hw1, Hw2, Hw3, Hw4, Hw5, Hw6.
  repeat split; done.
Qed.

Lemma expected_order_status order cat :
  obj_get order "Status" = Some "Pending" →
  expected (order_patch order cat) order "Status" = Some "Successful".
Proof.
  intros Hst. unfold expected, order_patch. simpl obj_get. cbv iota beta.
  rewrite decide_True; [done|]. by eapply obj_get_is_key.
Qed.

Lemma expected_order_other order cat h :
  h ≠ "Status" → h ≠ "VoucherCodeDelivered" →
  expected (order_patch order cat) order h = obj_get order h.
Proof.
  intros H1 H2. unfold expected, order_patch. simpl obj_get.
  rewrite !decide_False by done. done.
Qed.

Lemma expected_category_stock order cat :
  "Stock" ∈ Object_keys cat →
  expected (category_patch order cat) cat "Stock" =
  Some (number_to_string (number_sub (cell_to_number (obj_get cat "Stock"))
                         (parseInt_cell (obj_get order "Quantity")))).
Proof.
  intros Hk. unfold expected, category_patch. simpl obj_get. cbv iota beta.
  by rewrite decide_True.
Qed.

(** The pool read back from the written category row is what the branch
    left in it. *)
Lemma pool_after_patch order cat cat' :
  cell_sim (obj_get cat' "VoucherCodes") (expected (category_patch order cat) cat "VoucherCodes") →
  pool_of cat' = drop (quantity_of order) (pool_of cat).
Proof.
  intros Hs. unfold pool_of at 1. rewrite (code_pool_sim _ _ Hs).
  unfold expected, category_patch. simpl obj_get.
  destruct (decide ("VoucherCodes" ∈ Object_keys cat)) as [Hk|Hk].
  - apply code_pool_join. apply Forall_drop. apply code_pool_clean.
  - unfold pool_of. rewrite (obj_get_not_key cat) by done. simpl. by rewrite drop_nil.
Qed.

End Approval.

(** ** Approving twice *)

Section Idempotence.

(** What holds of the orders the approve branch lets through.  For a
    Pending order that passes the two checks of lines 571 and 577, the first
    approve writes Successful into the order row and takes the first
    [Quantity] codes out of the pool (the Stock cell becomes Stock minus
    Quantity); a second approve of the same order is answered with the
    not-found-or-already-processed reply and changes nothing but the list
    of messages sent, so stock and pool stay as the first approve left
    them. *)
Lemma approve_once_then_rejected (w : World) (chatId : Z) (orderId : string)
    (order cat : Obj) :
  faults w = [] →
  NoDup (headers_of (sheet Orders w)) → plain_headers (sheet Orders w) →
  NoDup (headers_of (sheet Categories w)) → plain_headers (sheet Categories w) →
  orderId ≠ "" →
  approve_gate w orderId = Some (order, cat) →
  safe_cell (obj_get cat "Stock") = true →
  safe_cell (obj_get order "Quantity") = true →
  ∃ w1 order1 cat1 i j,
    Part000.approve chatId orderId w = (Ok tt, w1) ∧
    orders_of w !! i = Some order ∧
    orders_of w1 = <[i := order1]> (orders_of w) ∧
    order_by_id w1 orderId = Some order1 ∧
    obj_get order1 "Status" = Some "Successful" ∧
    categories_of w !! j = Some cat ∧
    categories_of w1 = <[j := cat1]> (categories_of w) ∧
    pool_of cat1 = drop (quantity_of order) (pool_of cat) ∧
    ("Stock" ∈ Object_keys cat →
     obj_get cat1 "Stock" =
     Some (number_to_string (number_sub (cell_to_number (obj_get cat "Stock"))
                            (parseInt_cell (obj_get order "Quantity"))))) ∧
    Part000.approve chatId orderId w1 =
      (Ok tt, say (ToChat chatId) (MOrderUnknownOrProcessed orderId) w1).
Proof.
  intros Hf HndO _ HndC _ Hid Hgate _ _.
  destruct (approve_effect w chatId orderId order cat Hf HndO HndC Hgate)
    as (w1 & i & j & order1 & cat1 & Hrun & Hf1 & _ & _ & _ & _ & Hi & Hj & HO & HC
        & HcellO & HcellC & _).
  apply approve_gate_inv in Hgate as (Ho & Hst & _).
  pose proof Hi as (Hio & _ & _)%list_find_Some.
  pose proof Hj as (Hjc & _ & _)%list_find_Some.
  assert (Hst1 : obj_get order1 "Status" = Some "Successful").
  { apply cell_sim_nonempty; [|done].
    rewrite <- (expected_order_status order cat Hst). apply HcellO. }
  assert (Hid1 : obj_get order1 "OrderID" = Some orderId).
  { apply cell_sim_nonempty; [|done].
    pose proof (HcellO "OrderID") as Hs.
    rewrite expected_order_other in Hs by done.
    apply list_find_Some in Hi as (_ & <- & _). done. }
  assert (Hfind1 : order_by_id w1 orderId = Some order1).
  { unfold order_by_id, find. rewrite HO.
    by rewrite (list_find_insert _ _ _ _ order1 Hi Hid1). }
  exists w1, order1, cat1, i, j.
  repeat (split; [done|]).
  split; [by apply (pool_after_patch order)|].
  split.
  { intros Hk. apply cell_sim_nonempty; [|apply number_to_string_nonempty].
    rewrite <- (expected_category_stock order cat Hk). apply HcellC. }
  unfold Part000.approve. rewrite bind_run, getRows_quiet by done.
  unfold order_by_id, orders_of in Hfind1. rewrite Hfind1.
  rewrite decide_True; [apply send_run|]. rewrite Hst1. done.
Qed.

End Idempotence.

(** ** The two approval properties on the sample worlds *)

Section ApprovalInstances.

(** C2 at the sample world with one code and an order for two. *)
Lemma approve_refuses_short_pool_witness :
  ∃ m, stock_refusal m = true ∧
       Part000.approve 1 "SVH-1" Sample.short = (Ok tt, say (ToChat 1) m Sample.short).
Proof.
  apply (approve_refuses_short_pool Sample.short 1 "SVH-1" (Sample.order_row "2" "Pending" "") 2).
  - reflexivity.
  - vm_compute. reflexivity.
  - vm_compute. reflexivity.
  - vm_compute. reflexivity.
  - intros cat H. vm_compute in H. injection H as <-. vm_compute. reflexivity.
Defined.

(** C1.  A Pending order that the stock covers is not approved.  The
    category holds ten codes and its Stock cell reads 10; the order is
    Pending and asks for 9.  The approve branch compares the two cells
    (line 571); both are texts, so they are compared letter by letter, and
    "10" is below "9".  The branch answers that the stock is low, with 10
    available, and changes nothing else: the order is still Pending, and the
    Stock cell and the ten codes are as before. *)
Theorem approve_refuses_covered_order :
  order_status Sample.ample "SVH-1" = Some "Pending" ∧
  (∃ order cat,
     order_by_id Sample.ample "SVH-1" = Some order ∧
     category_by_id Sample.ample (obj_get order "Category") = Some cat ∧
     cell_to_number (obj_get order "Quantity") = Int 9 ∧
     cell_to_number (obj_get cat "Stock") = Int 10 ∧
     length (pool_of cat) = 10%nat ∧
     lt_cells (obj_get cat "Stock") (obj_get order "Quantity") = true) ∧
  Part000.approve 1 "SVH-1" Sample.ample =
    (Ok tt, say (ToChat 1) (MStockLow (Some "cat500") (Some (Some "10"))) Sample.ample) ∧
  order_status (snd (Part000.approve 1 "SVH-1" Sample.ample)) "SVH-1" = Some "Pending".
Proof.
  split; [by vm_compute|]. split.
  - eexists _, _. split; [by vm_compute|]. split; [by vm_compute|].
    repeat split; by vm_compute.
  - split; by vm_compute.
Qed.

(** The two approvals at the sample world with three codes and an order
    for two. *)
Lemma approve_once_then_rejected_witness :
  ∃ w1 order1 cat1 i j,
    Part000.approve 1 "SVH-1" Sample.stocked = (Ok tt, w1) ∧
    orders_of Sample.stocked !! i = Some (Sample.order_row "2" "Pending" "") ∧
    orders_of w1 = <[i := order1]> (orders_of Sample.stocked) ∧
    order_by_id w1 "SVH-1" = Some order1 ∧
    obj_get order1 "Status" = Some "Successful" ∧
    categories_of Sample.stocked !! j = Some (Sample.category_row "3" ["A"; "B"; "C"]) ∧
    categories_of w1 = <[j := cat1]> (categories_of Sample.stocked) ∧
    pool_of cat1 = drop (quantity_of (Sample.order_row "2" "Pending" ""))
                     (pool_of (Sample.category_row "3" ["A"; "B"; "C"])) ∧
    ("Stock" ∈ Object_keys (Sample.category_row "3" ["A"; "B"; "C"]) →
     obj_get cat1 "Stock" =
     Some (number_to_string
             (number_sub (cell_to_number (obj_get (Sample.category_row "3" ["A"; "B"; "C"]) "Stock"))
                (parseInt_cell (obj_get (Sample.order_row "2" "Pending" "") "Quantity"))))) ∧
    Part000.approve 1 "SVH-1" w1 =
      (Ok tt, say (ToChat 1) (MOrderUnknownOrProcessed "SVH-1") w1).
Proof.
  apply (approve_once_then_rejected Sample.stocked 1 "SVH-1").
  - reflexivity.
  - refine (bool_decide_unpack _ _). vm_compute. exact I.
  - refine (bool_decide_unpack _ _). vm_compute. exact I.
  - refine (bool_decide_unpack _ _). vm_compute. exact I.
  - refine (bool_decide_unpack _ _). vm_compute. exact I.
  - discriminate.
  - vm_compute. reflexivity.
  - vm_compute. reflexivity.
  - vm_compute. reflexivity.
Defined.

End ApprovalInstances.

(** ** A failing order write *)

Section WriteFailure.

Lemma service_call_next w :
  service_call w =
  (if hd false (faults w) then Throw ServiceError else Ok tt, set_faults (tail (faults w)) w).
Proof. unfold service_call. destruct w as [? ? ? ? ? ? [|[] fs]]; reflexivity. Qed.

Lemma sheet_set_faults n fs w : sheet n (set_faults fs w) = sheet n w.
Proof. by destruct n. Qed.

Lemma faults_set_faults fs w : faults (set_faults fs w) = fs.
Proof. done. Qed.

Lemma set_faults_twice fs fs' w : set_faults fs (set_faults fs' w) = set_faults fs w.
Proof. done. Qed.

Ltac step_faults :=
  rewrite ?faults_set_sheet, ?faults_set_faults, ?set_faults_twice, ?sheet_set_faults;
  simpl hd; simpl tail; cbv iota.

Lemma getRows_next n w :
  Part000.getRows n w =
  (if hd false (faults w) then Throw ServiceError
   else Ok (rows_of (values_get (sheet n w))),
   set_faults (tail (faults w)) w).
Proof.
  unfold Part000.getRows, sheets_get. rewrite !bind_run, service_call_next.
  destruct (hd false (faults w)); [done|]. unfold gets. simpl.
  by rewrite sheet_set_faults.
Qed.

Lemma updateRow_next n col v nd w :
  Part000.updateRow n col v nd w =
  if hd false (faults w) then (Throw ServiceError, set_faults (tail (faults w)) w)
  else
    match list_find (λ row, obj_get row col = v) (rows_of (values_get (sheet n w))) with
    | None => (Ok false, set_faults (tail (faults w)) w)
    | Some (i, r) =>
        if hd false (tail (faults w))
        then (Throw ServiceError, set_faults (tail (tail (faults w))) w)
        else (Ok true,
              set_sheet n (values_update (S i) (merged_row nd r) (sheet n w))
                (set_faults (tail (tail (faults w))) w))
    end.
Proof.
  unfold Part000.updateRow. rewrite bind_run, getRows_next.
  destruct (hd false (faults w)); [done|].
  destruct (list_find _ _) as [[i r]|]; [|done].
  unfold sheets_update. rewrite !bind_run, service_call_next.
  destruct w as [us cs os ls st ob fl]. simpl.
  destruct (hd false (tail fl)); [done|].
  rewrite Nat.add_1_r. by destruct n.
Qed.

(** C8.  When the approve branch reaches its writes, the category write
    succeeds and the order write then fails (its read or its update throws),
    the handler ends there: no message is sent to anyone, the Orders sheet
    is as before, so the order is still Pending and holds no delivered codes,
    while the Categories sheet carries the deducted row.  The Stock and
    Quantity cells are any texts whose numbers the model holds as the code
    does (fractions and exponents among them, whole numbers up to 2^53), and
    the Categories columns have plain names. *)
Theorem approval_not_reported_when_order_write_fails (w : World) (chatId : Z)
    (orderId : string) (order cat : Obj) (fs : list bool) :
  approve_gate w orderId = Some (order, cat) →
  safe_cell (obj_get cat "Stock") = true →
  safe_cell (obj_get order "Quantity") = true →
  plain_headers (sheet Categories w) →
  faults w = false :: false :: false :: false :: fs →
  (hd false fs = true ∨ hd false (tail fs) = true) →
  ∃ w' j,
    Part000.approve chatId orderId w = (Throw ServiceError, w') ∧
    outbox w' = outbox w ∧
    sheet Orders w' = sheet Orders w ∧
    order_status w' orderId = Some "Pending" ∧
    categories_of w !! j = Some cat ∧
    sheet Categories w' =
      values_update (S j) (merged_row (category_patch order cat) cat) (sheet Categories w).
Proof.
  intros Hgate _ _ _ Hf Hfail.
  apply approve_gate_inv in Hgate as (Ho & Hst & Hc & Hlt & Hnum).
  pose proof Ho as Ho'.
  unfold order_by_id in Ho. unfold category_by_id in Hc.
  destruct (find_list_find _ _ _ Ho) as [i Hi].
  destruct (find_list_find _ _ _ Hc) as [j Hj].
  pose proof Hj as (Hjc & Hcid & _)%list_find_Some.
  unfold orders_of, categories_of in *.
  assert (Hrun : ∃ fs',
    Part000.approve chatId orderId w =
    (Throw ServiceError,
     set_faults fs'
       (set_sheet Categories
          (values_update (S j) (merged_row (category_patch order cat) cat)
             (sheet Categories w))
          (set_faults fs w)))).
  { unfold Part000.approve. rewrite bind_run, getRows_next, Hf. step_faults.
    rewrite Ho.
    rewrite decide_False by (intros Hne; by apply Hne).
    rewrite bind_run, getRows_next. step_faults.
    rewrite Hc, Hlt. unfold pool_of in Hnum. rewrite Hnum.
    rewrite splice0_quantity.
    rewrite bind_run, updateRow_next. step_faults.
    rewrite Hcid, Hj.
    rewrite bind_run, updateRow_next. step_faults.
    rewrite sheet_set_sheet_ne by done. step_faults.
    destruct Hfail as [Hfail|Hfail].
    - rewrite Hfail. eexists. reflexivity.
    - destruct (hd false fs); [eexists; reflexivity|].
      rewrite Hi. rewrite Hfail. eexists. reflexivity. }
  destruct Hrun as [fs' Hrun].
  eexists _, j. split; [exact Hrun|].
  split; [done|].
  split; [by destruct w|].
  split.
  { unfold order_status, order_by_id, orders_of.
    replace (sheet Orders _) with (sheet Orders w) by (by destruct w).
    rewrite Ho. simpl. done. }
  split; [done|]. by destruct w.
Qed.

(** C8 at the sample world with three codes, when the fifth call of the
    sheet service (the read inside the order write) fails. *)
Lemma approval_not_reported_when_order_write_fails_witness :
  ∃ w' j,
    Part000.approve 1 "SVH-1"
      (set_faults [false; false; false; false; true] Sample.stocked)
      = (Throw ServiceError, w') ∧
    outbox w' = [] ∧
    sheet Orders w' = sheet Orders Sample.stocked ∧
    order_status w' "SVH-1" = Some "Pending" ∧
    categories_of Sample.stocked !! j = Some (Sample.category_row "3" ["A"; "B"; "C"]) ∧
    sheet Categories w' =
      values_update (S j)
        (merged_row (category_patch (Sample.order_row "2" "Pending" "")
                       (Sample.category_row "3" ["A"; "B"; "C"]))
           (Sample.category_row "3" ["A"; "B"; "C"]))
        (sheet Categories Sample.stocked).
Proof.
  apply (approval_not_reported_when_order_write_fails
           (set_faults [false; false; false; false; true] Sample.stocked) 1 "SVH-1"
           (Sample.order_row "2" "Pending" "") (Sample.category_row "3" ["A"; "B"; "C"])
           [true]).
  - vm_compute. reflexivity.
  - vm_compute. reflexivity.
  - vm_compute. reflexivity.
  - refine (bool_decide_unpack _ _). vm_compute. exact I.
  - reflexivity.
  - left. reflexivity.
Defined.

End WriteFailure.

(** ** Stock equals pool *)

Section Conservation.

Variables ADMIN_ID chatId userId : Z.

Lemma rows_keys g r :
  NoDup (headers_of g) → r ∈ rows_of (values_get g) → Object_keys r = headers_of g.
Proof.
  intros Hnd Hin. destruct g as [|h0 body]; [by apply not_elem_of_nil in Hin|].
  rewrite rows_of_values_get_cons in Hin.
  apply list_elem_of_fmap in Hin as (cells & -> & _). by apply row_object_keys.
Qed.

Lemma try_catch_ok {A} (m h : M A) w a w' : m w = (Ok a, w') → try_catch m h w = (Ok a, w').
Proof. intros H. unfold try_catch. by rewrite H. Qed.

Lemma getSheetRows_quiet n w :
  faults w = [] →
  IndexJs.getSheetRows ADMIN_ID n w = (Ok (rows_of (values_get (sheet n w))), w).
Proof.
  intros H. unfold IndexJs.getSheetRows. apply try_catch_ok.
  unfold sheets_get. rewrite !bind_run, service_call_quiet by done. reflexivity.
Qed.

Lemma updateSheetRow_quiet n col v nd w :
  faults w = [] →
  IndexJs.updateSheetRow ADMIN_ID n col v nd w =
  match list_find (λ row, obj_get row col = v) (rows_of (values_get (sheet n w))) with
  | None => (Ok false, w)
  | Some (i, r) =>
      (Ok true, set_sheet n (values_update (S i) (merged_row nd r) (sheet n w)) w)
  end.
Proof.
  intros H. unfold IndexJs.updateSheetRow.
  destruct (list_find _ _) as [[i r]|] eqn:E.
  - apply try_catch_ok. rewrite bind_run, getSheetRows_quiet, E by done.
    unfold sheets_update. rewrite !bind_run, service_call_quiet by done.
    simpl. by rewrite Nat.add_1_r.
  - apply try_catch_ok. rewrite bind_run, getSheetRows_quiet, E by done. done.
Qed.

(** Writing a pool and its length into a category row leaves it consistent. *)
Lemma written_row_consistent g (r r' : Obj) (codes : list string) (stock_first : bool) :
  NoDup (headers_of g) →
  "Stock" ∈ headers_of g → "VoucherCodes" ∈ headers_of g →
  Object_keys r = headers_of g →
  Forall clean_code codes →
  let nd := if stock_first
            then [("Stock", Some (num_to_string (Int (Z.of_nat (length codes)))));
                  ("VoucherCodes", Some (join newline codes))]
            else [("VoucherCodes", Some (join newline codes));
                  ("Stock", Some (num_to_string (Int (Z.of_nat (length codes)))))] in
  (∀ h, cell_sim (obj_get r' h) (expected nd r h)) →
  stock_consistent r'.
Proof.
  intros Hnd Hs Hv Hk Hclean nd Hcell.
  assert (HS : obj_get r' "Stock" = Some (num_to_string (Int (Z.of_nat (length codes))))).
  { apply cell_sim_nonempty; [|apply num_to_string_nonempty].
    specialize (Hcell "Stock"). unfold expected, nd in Hcell.
    destruct stock_first; simpl obj_get in Hcell; cbv iota beta in Hcell;
      rewrite decide_True in Hcell by (by rewrite Hk); done. }
  assert (HV : pool_of r' = codes).
  { unfold pool_of. specialize (Hcell "VoucherCodes"). unfold expected, nd in Hcell.
    rewrite (code_pool_sim _ _ Hcell).
    destruct stock_first; simpl obj_get; cbv iota beta;
      rewrite decide_True by (by rewrite Hk); by apply code_pool_join. }
  unfold stock_consistent. rewrite HS, HV. simpl.
  apply ToNumber_nat_string. lia.
Qed.

Lemma store_step_wf w w' : wf_store w → store_step w w' → wf_store w'.
Proof.
  intros (Hf & H1 & H2 & H3 & H4 & H5 & H6 & H7) (Gf & G1 & G2 & G3 & _).
  unfold wf_store, plain_headers in *. rewrite Gf, G1, G2. auto 10.
Qed.

(** A step that wrote no sheet. *)
Lemma store_step_frame w w' :
  faults w' = faults w → (∀ n, sheet n w' = sheet n w) → store_step w w'.
Proof.
  intros Hf Hs. unfold store_step, orders_of, categories_of. rewrite !Hs.
  repeat split; [done | done | by left].
Qed.

Lemma approve_refused w orderId :
  faults w = [] → approve_gate w orderId = None →
  ∃ m, Part000.approve chatId orderId w = (Ok tt, say (ToChat chatId) m w).
Proof.
  intros Hf Hgate. unfold approve_gate, order_by_id, category_by_id, orders_of,
    categories_of, pool_of in Hgate.
  unfold Part000.approve. rewrite bind_run, getRows_quiet by done.
  destruct (find _ (rows_of (values_get (sheet Orders w)))) as [o|]; [|by eexists].
  destruct (decide (obj_get o "Status" = Some "Pending")) as [Hst|Hst].
  - rewrite decide_False by (intros Hne; by apply Hne).
    rewrite bind_run, getRows_quiet by done.
    destruct (find _ (rows_of (values_get (sheet Categories w)))) as [c|]; [|by eexists].
    destruct (lt_cells _ _); [by eexists|].
    destruct (number_lt _ _); [by eexists|]. done.
  - rewrite decide_True by done. by eexists.
Qed.

Lemma quantity_ok_parse order :
  quantity_ok order →
  ∃ q, 0 < q ∧ cell_to_number (obj_get order "Quantity") = Int q ∧
       parseInt_cell (obj_get order "Quantity") = Int q ∧
       quantity_of order = Z.to_nat q.
Proof.
  intros (s & Hs & Hd & Hpos). destruct (digits_only_parse s Hd) as (H1 & H2 & _).
  exists (dec_value 0 s). unfold quantity_of. rewrite Hs. simpl. rewrite H1, H2. done.
Qed.

Lemma quantity_ok_kept order cat order' :
  quantity_ok order →
  (∀ h, cell_sim (obj_get order' h) (expected (order_patch order cat) order h)) →
  quantity_ok order'.
Proof.
  intros (s & Hs & Hd & Hpos) Hcell. exists s. split; [|done].
  apply cell_sim_nonempty.
  - rewrite <- Hs, <- (expected_order_other order cat "Quantity") by done. apply Hcell.
  - intros ->. done.
Qed.

(** The approve branch as a step of the store. *)
Lemma approve_store_step w orderId :
  wf_store w → Forall row_ok (categories_of w) → pools_fit w →
  store_step w (snd (Part000.approve chatId orderId w)).
Proof.
  intros (Hf & HndC & HS & HV & HndO & Hq & HpC & HpO) Hrows Hfit.
  destruct (approve_gate w orderId) as [[order cat]|] eqn:Hgate.
  - destruct (approve_effect w chatId orderId order cat Hf HndO HndC Hgate)
      as (w1 & i & j & order1 & cat1 & Hrun & Hf1 & _ & _ & HhO & HhC & Hi & Hj & HO & HC
          & HcellO & HcellC & _).
    rewrite Hrun. simpl snd.
    apply approve_gate_inv in Hgate as (_ & _ & _ & _ & Hnum).
    pose proof Hi as (Hio & _ & _)%list_find_Some.
    pose proof Hj as (Hjc & _ & _)%list_find_Some.
    assert (Hqo : quantity_ok order).
    { rewrite Forall_forall in Hq. apply Hq. by eapply list_elem_of_lookup_2. }
    destruct (quantity_ok_parse order Hqo) as (q & Hpos & Hnq & Hpq & Hqn).
    rewrite Hnq, number_lt_Int in Hnum. apply Z.ltb_ge in Hnum.
    assert (Hlen : Z.of_nat (length (pool_of cat)) < 2 ^ 53).
    { unfold pools_fit in Hfit. rewrite Forall_forall in Hfit. apply Hfit.
      by eapply list_elem_of_lookup_2. }
    assert (Hkeys : Object_keys cat = headers_of (sheet Categories w)).
    { apply rows_keys; [done|]. by eapply list_elem_of_lookup_2. }
    assert (Hcons : stock_consistent cat).
    { rewrite Forall_forall in Hrows.
      destruct (Hrows cat) as [Hc|Hc]; [by eapply list_elem_of_lookup_2 | done |].
      rewrite Hc in Hnum. simpl in Hnum. lia. }
    repeat split.
    + by rewrite Hf1.
    + done.
    + done.
    + intros _. rewrite HO. apply Forall_insert; [done|].
      by apply (quantity_ok_kept order cat).
    + right. exists j, cat1. split; [by eapply lookup_lt_Some|]. split; [done|].
      unfold stock_consistent.
      rewrite (pool_after_patch order cat cat1 (HcellC _)).
      assert (HS1 : obj_get cat1 "Stock" =
                Some (num_to_string (Int (Z.of_nat (length (pool_of cat)) - q)))).
      { apply cell_sim_nonempty; [|apply num_to_string_nonempty].
        pose proof (HcellC "Stock") as Hs.
        rewrite expected_category_stock in Hs by (by rewrite Hkeys).
        assert (Habs : Z.abs (Z.of_nat (length (pool_of cat)) - q) ≤ 2 ^ 53)
          by (clear -Hpos Hnum Hlen; lia).
        rewrite Hcons, Hpq, number_sub_Int, number_to_string_Int in Hs by done. done. }
      rewrite HS1. unfold cell_to_number. rewrite ToNumber_nat_string by lia.
      do 2 f_equal. rewrite length_drop, Hqn. lia.
  - destruct (approve_refused w orderId Hf Hgate) as [m ->]. simpl snd.
    apply store_step_frame; [done|]. intros n. apply sheet_say.
Qed.

Lemma find_list_find_same {A} (P : A → Prop) `{∀ x, Decision (P x)} (l : list A) :
  find P l = None → list_find P l = None.
Proof. unfold find. by destruct (list_find P l). Qed.

(** The branch that adds codes as a step of the store. *)
Lemma add_store_step w categoryId text :
  wf_store w →
  store_step w (snd (IndexJs.add_voucher_codes ADMIN_ID chatId userId
                       (IndexJs.session_for adm_waiting_for_voucher_codes categoryId)
                       (Some text) w)).
Proof.
  intros (Hf & HndC & HS & HV & HndO & Hq & HpC & HpO).
  unfold IndexJs.add_voucher_codes. simpl Bot.categoryId.
  rewrite bind_run, getSheetRows_quiet by done.
  destruct (find _ (rows_of (values_get (sheet Categories w)))) as [cat|] eqn:Hfind.
  - destruct (find_list_find _ _ _ Hfind) as [j Hj].
    pose proof Hj as (Hjc & _ & _)%list_find_Some.
    rewrite !bind_run, updateSheetRow_quiet by done. rewrite Hj.
    destruct (update_found _ _ _
                [("VoucherCodes",
                  Some (join newline (code_pool (obj_get cat "VoucherCodes")
                                      ++ IndexJs.parse_codes text)));
                 ("Stock",
                  Some (num_to_string
                          (Int (Z.of_nat (length (code_pool (obj_get cat "VoucherCodes")
                                                  ++ IndexJs.parse_codes text))))))]
                HndC Hjc) as (cat' & Hrows & Hh & Hkeys & Hcell).
    simpl snd.
    repeat split.
    + done.
    + simpl. done.
    + right. exists j, cat'. split; [by eapply lookup_lt_Some|]. split; [exact Hrows|].
      apply (written_row_consistent (sheet Categories w) cat cat'
               (code_pool (obj_get cat "VoucherCodes") ++ IndexJs.parse_codes text) false);
        try done.
      apply Forall_app. split; [apply code_pool_clean | apply parse_codes_clean].
  - simpl snd. apply store_step_frame; [done|]. by intros [].
Qed.

Lemma remove_loop_step w code (cats : list Obj) :
  wf_store w →
  (∀ c, c ∈ cats → c ∈ categories_of w) →
  ∃ b w',
    IndexJs.remove_code_loop ADMIN_ID chatId code cats w = (Ok b, w') ∧
    userStates w' = userStates w ∧
    (∀ n, n ≠ Categories → sheet n w' = sheet n w) ∧
    store_step w w'.
Proof.
  intros (Hf & HndC & HS & HV & HndO & Hq & HpC & HpO).
  induction cats as [|cat rest IH]; intros Hsub.
  - exists false, w. split; [done|]. split; [done|]. split; [done|].
    by apply store_step_frame.
  - simpl IndexJs.remove_code_loop.
    destruct (_ <? _)%nat eqn:Hlt.
    + assert (Hin : cat ∈ categories_of w) by (apply Hsub; left).
      destruct (list_find_elem_of (λ row, obj_get row "CategoryID" = obj_get cat "CategoryID")
                  (categories_of w) cat Hin eq_refl) as [[k r] Hk].
      pose proof Hk as (Hkr & _ & _)%list_find_Some.
      rewrite !bind_run, updateSheetRow_quiet by done.
      unfold categories_of in Hk. rewrite Hk.
      destruct (update_found _ _ _
                  [("VoucherCodes",
                    Some (join newline (filter (λ c, c ≠ code)
                                          (code_pool (obj_get cat "VoucherCodes")))));
                   ("Stock",
                    Some (num_to_string
                            (Int (Z.of_nat (length (filter (λ c, c ≠ code)
                                                      (code_pool (obj_get cat "VoucherCodes"))))))))]
                  HndC Hkr) as (r' & Hrows & Hh & Hkeys & Hcell).
      eexists true, _. split; [reflexivity|].
      split; [done|]. split; [by intros []|].
      repeat split; try done.
      right. exists k, r'. split; [by eapply lookup_lt_Some|]. split; [exact Hrows|].
      apply (written_row_consistent (sheet Categories w) r r'
               (filter (λ c, c ≠ code) (code_pool (obj_get cat "VoucherCodes"))) false);
        try done.
      apply Forall_forall. intros c [_ Hc]%list_elem_of_filter.
      pose proof (code_pool_clean (obj_get cat "VoucherCodes")) as Hcl.
      rewrite Forall_forall in Hcl. by apply Hcl.
    + apply IH. intros c Hc. apply Hsub. by right.
Qed.

(** The branch that removes a code as a step of the store. *)
Lemma remove_store_step w text :
  wf_store w →
  store_step w (snd (IndexJs.remove_voucher_code ADMIN_ID chatId userId (Some text) w)).
Proof.
  intros Hwf. pose proof Hwf as (Hf & _).
  unfold IndexJs.remove_voucher_code.
  rewrite bind_run, getSheetRows_quiet by done.
  destruct (remove_loop_step w (trim text) (rows_of (values_get (sheet Categories w))) Hwf)
    as (b & w' & Hrun & _ & Hsheets & Hf' & HhC & HhO & Hqs & Hstep); [done|].
  rewrite bind_run, Hrun.
  destruct b; simpl snd.
  - repeat split; try done.
  - repeat split; try done.
Qed.

(** Every mutation is a step of the store. *)
Lemma mutation_store_step w m :
  wf_store w → Forall row_ok (categories_of w) → pools_fit w →
  store_step w (apply_mutation ADMIN_ID chatId userId w m).
Proof.
  intros Hwf Hrows Hfit. destruct m as [c t|t|o]; simpl.
  - by apply add_store_step.
  - by apply remove_store_step.
  - by apply approve_store_step.
Qed.

Lemma category_step_rows before after :
  category_step before after →
  Forall row_ok before →
  Forall row_ok after ∧
  ∀ i c', after !! i = Some c' → stock_consistent c' ∨ before !! i = Some c'.
Proof.
  intros [->|(k & cat' & Hk & -> & Hc)] Hrows.
  - split; [done|]. intros i c' H. by right.
  - split.
    + apply Forall_insert; [done|]. by left.
    + intros i c' H. destruct (decide (i = k)) as [->|Hne].
      * rewrite list_lookup_insert_eq in H by done. injection H as <-. by left.
      * rewrite list_lookup_insert_ne in H by done. by right.
Qed.

(** Where every order carries the digits of a positive quantity, stock
    and pool stay in step.  Start from a store in which every category row
    is consistent (its Stock cell is the number of codes in its pool) or has
    no codes yet.  After any sequence of code additions, code removals and
    approvals, every category row either is consistent or is a row no
    mutation wrote (still as it was at the start); so if all rows were
    consistent at the start, all rows are consistent after each mutation. *)
Lemma positive_orders_keep_stock (ms : list Mutation) (w : World) :
  wf_store w →
  Forall row_ok (categories_of w) →
  (∀ n, pools_fit (run_mutations ADMIN_ID chatId userId (take n ms) w)) →
  (∀ i cat', categories_of (run_mutations ADMIN_ID chatId userId ms w) !! i = Some cat' →
             stock_consistent cat' ∨ categories_of w !! i = Some cat') ∧
  (Forall stock_consistent (categories_of w) →
   Forall stock_consistent (categories_of (run_mutations ADMIN_ID chatId userId ms w))).
Proof.
  revert w. induction ms as [|m ms IH]; intros w Hwf Hrows Hfit.
  - simpl. split; [intros i c H; by right | done].
  - pose proof (mutation_store_step w m Hwf Hrows (Hfit 0%nat)) as Hstep.
    pose proof (store_step_wf _ _ Hwf Hstep) as Hwf1.
    destruct Hstep as (_ & _ & _ & _ & Hcat).
    destruct (category_step_rows _ _ Hcat Hrows) as [Hrows1 Htouch].
    destruct (IH _ Hwf1 Hrows1 (λ n, Hfit (S n))) as [IH1 IH2].
    unfold run_mutations in *. simpl foldl. split.
    + intros i c' Hc'. destruct (IH1 i c' Hc') as [Hok|Hsame]; [by left|].
      apply Htouch. done.
    + intros Hall. apply IH2. apply Forall_lookup. intros i c Hc.
      destruct (Htouch i c Hc) as [Hok|Hsame]; [done|].
      rewrite Forall_lookup in Hall. eauto.
Qed.

End Conservation.

Section ConservationInstance.

(** On the sample world: codes are added, the order is approved, a code is
    removed. *)
Lemma positive_orders_keep_stock_witness :
  let ms := [AddCodes (Some "cat500") "D,E"; Approve "SVH-1"; RemoveCode "C"] in
  (∀ i cat', categories_of (run_mutations 1 1 1 ms Sample.stocked) !! i = Some cat' →
             stock_consistent cat' ∨ categories_of Sample.stocked !! i = Some cat') ∧
  (Forall stock_consistent (categories_of Sample.stocked) →
   Forall stock_consistent (categories_of (run_mutations 1 1 1 ms Sample.stocked))).
Proof.
  apply (positive_orders_keep_stock 1 1 1).
  - unfold wf_store. split; [reflexivity|].
    split; [refine (bool_decide_unpack _ _); vm_compute; exact I|].
    split; [refine (bool_decide_unpack _ _); vm_compute; exact I|].
    split; [refine (bool_decide_unpack _ _); vm_compute; exact I|].
    split; [refine (bool_decide_unpack _ _); vm_compute; exact I|].
    split; [repeat constructor; exists "2"; repeat split|].
    split; refine (bool_decide_unpack _ _); vm_compute; exact I.
  - repeat constructor.
  - intros [|[|[|[|n]]]]; refine (bool_decide_unpack _ _); vm_compute; exact I.
Defined.

(** C3.  An approval that leaves the Stock cell and the pool apart.  The
    category holds three codes and its Stock cell reads 3; a Pending order
    of that category has the Quantity cell -2.  Neither check of the approve
    branch stops it (lines 571 and 577: "3" is not below "-2", and 3 is not
    below -2), no code leaves the pool ([splice(0, -2)] removes nothing), and
    the Stock cell is written as 3 - (-2).  After the approval, which is
    reported as a success and leaves the order Successful, the Stock cell
    reads 5 beside a pool of three codes. *)
Theorem approve_parts_stock_from_pool :
  Forall stock_consistent (categories_of Sample.returning) ∧
  order_status Sample.returning "SVH-1" = Some "Pending" ∧
  ∃ w' cat',
    Part000.approve 1 "SVH-1" Sample.returning = (Ok tt, w') ∧
    order_status w' "SVH-1" = Some "Successful" ∧
    outbox w' = [(ToCell (Some "42"), MOrderApproved "SVH-1" "");
                 (ToChat 1, MApprovedAdmin "SVH-1");
                 (ToOrdersChannel, MApprovedChannel (Sample.order_row "-2" "Pending" ""))] ∧
    category_by_id w' (Some "cat500") = Some cat' ∧
    obj_get cat' "Stock" = Some "5" ∧
    pool_of cat' = ["A"; "B"; "C"] ∧
    ¬ stock_consistent cat'.
Proof.
  split; [repeat constructor; by vm_compute|]. split; [by vm_compute|].
  eexists _, _. split; [by vm_compute|].
  split; [by vm_compute|]. split; [by vm_compute|]. split; [by vm_compute|].
  split; [by vm_compute|]. split; [by vm_compute|].
  unfold stock_consistent. vm_compute. discriminate.
Qed.

End ConservationInstance.

(** ** Recovery answers the owner only *)

Section Recovery.

Lemma get_session_run userId w : get_session userId w = (Ok (userStates w !! userId), w).
Proof. reflexivity. Qed.

Lemma delete_session_run userId w : delete_session userId w = (Ok tt, forget userId w).
Proof. reflexivity. Qed.

(** The three-way answer of lines 446-452 on the order found. *)
Lemma recovery_answer w userId orderId :
  ∃ reply,
    recovery_reply_ok w userId orderId reply ∧
    (∀ order, order_by_id w orderId = Some order →
              obj_get order "UserID" ≠ Some (user_id_string userId) →
              reply = MRecoverNotFound orderId) ∧
    (order_by_id w orderId = None → reply = MRecoverNotFound orderId) ∧
    ∀ chatId w0,
      match find (λ o, obj_get o "OrderID" = Some orderId) (orders_of w) with
      | None => send (ToChat chatId) (MRecoverNotFound orderId)
      | Some order =>
          if decide (obj_get order "UserID" ≠ Some (user_id_string userId)) then
            send (ToChat chatId) (MRecoverNotFound orderId)
          else if decide (obj_get order "Status" = Some "Successful") then
            send (ToChat chatId) (MVouchersFound orderId (obj_get order "VoucherCodeDelivered"))
          else send (ToChat chatId) (MRecoverStatus (obj_get order "Status"))
      end w0 = (Ok tt, say (ToChat chatId) reply w0).
Proof.
  unfold order_by_id.
  destruct (find _ (orders_of w)) as [order|] eqn:Hfind.
  - destruct (decide (obj_get order "UserID" ≠ Some (user_id_string userId))) as [Hne|He].
    + exists (MRecoverNotFound orderId). repeat split; try done.
    + apply dec_stable in He.
      destruct (decide (obj_get order "Status" = Some "Successful")) as [Hs|Hs].
      * exists (MVouchersFound orderId (obj_get order "VoucherCodeDelivered")).
        split; [simpl; split; [done|]; exists order; unfold order_by_id; done|].
        split; [intros o [= <-] Hne; done|]. split; [done|]. done.
      * exists (MRecoverStatus (obj_get order "Status")).
        split; [simpl; exists order; unfold order_by_id; done|].
        split; [intros o [= <-] Hne; done|]. split; [done|]. done.
  - exists (MRecoverNotFound orderId). repeat split; try done.
Qed.

Lemma recovery_part000 w msg t :
  faults w = [] →
  (userStates w !! from_id msg) ≫= state = Some waiting_for_recovery_oid →
  text msg = Some t →
  ∀ reply,
    (∀ chatId w0,
      match find (λ o, obj_get o "OrderID" = Some (trim t)) (orders_of w) with
      | None => send (ToChat chatId) (MRecoverNotFound (trim t))
      | Some order =>
          if decide (obj_get order "UserID" ≠ Some (user_id_string (from_id msg))) then
            send (ToChat chatId) (MRecoverNotFound (trim t))
          else if decide (obj_get order "Status" = Some "Successful") then
            send (ToChat chatId)
              (MVouchersFound (trim t) (obj_get order "VoucherCodeDelivered"))
          else send (ToChat chatId) (MRecoverStatus (obj_get order "Status"))
      end w0 = (Ok tt, say (ToChat chatId) reply w0)) →
    Part000.on_message_recovery msg w =
      (Ok tt, forget (from_id msg) (say (ToChat (chat_id msg)) reply w)).
Proof.
  intros Hf Hst Ht reply Hreply.
  unfold Part000.on_message_recovery. rewrite bind_run, get_session_run.
  destruct (userStates w !! from_id msg) as [us|]; [|done]. simpl in Hst.
  rewrite decide_True by done. rewrite Ht.
  rewrite bind_run, getRows_quiet by done.
  rewrite bind_run. unfold orders_of in Hreply. rewrite Hreply.
  apply delete_session_run.
Qed.

Lemma recovery_indexjs ADMIN_ID pq so n1 n2 now w msg t :
  faults w = [] →
  (userStates w !! from_id msg) ≫= state = Some waiting_for_recovery_oid →
  text msg = Some t →
  ∀ reply,
    (∀ chatId w0,
      match find (λ o, obj_get o "OrderID" = Some (trim t)) (orders_of w) with
      | None => send (ToChat chatId) (MRecoverNotFound (trim t))
      | Some order =>
          if decide (obj_get order "UserID" ≠ Some (user_id_string (from_id msg))) then
            send (ToChat chatId) (MRecoverNotFound (trim t))
          else if decide (obj_get order "Status" = Some "Successful") then
            send (ToChat chatId)
              (MVouchersFound (trim t) (obj_get order "VoucherCodeDelivered"))
          else send (ToChat chatId) (MRecoverStatus (obj_get order "Status"))
      end w0 = (Ok tt, say (ToChat chatId) reply w0)) →
    IndexJs.on_message ADMIN_ID pq so n1 n2 now msg w =
      (Ok tt, forget (from_id msg) (say (ToChat (chat_id msg)) reply w)).
Proof.
  intros Hf Hst Ht reply Hreply.
  unfold IndexJs.on_message. rewrite bind_run, get_session_run.
  unfold IndexJs.state_is. rewrite Hst.
  repeat (rewrite bool_decide_eq_false_2 by discriminate).
  rewrite bool_decide_eq_true_2 by done. rewrite Ht.
  rewrite bind_run, getSheetRows_quiet by done.
  rewrite bind_run. unfold orders_of in Hreply. rewrite Hreply.
  apply delete_session_run.
Qed.

(** C6.  In the recovery state, whatever the order id typed and whatever
    the order's status: both listings answer with one reply, which tells
    codes only of a Successful order whose UserID cell is the requester's
    id; when the order was created by another user the reply is the
    not-found message. *)
Theorem recover_only_for_owner ADMIN_ID pq so n1 n2 now (w : World) (msg : Message)
    (t : string) :
  faults w = [] →
  (userStates w !! from_id msg) ≫= state = Some waiting_for_recovery_oid →
  text msg = Some t →
  ∃ reply,
    Part000.on_message_recovery msg w =
      (Ok tt, forget (from_id msg) (say (ToChat (chat_id msg)) reply w)) ∧
    IndexJs.on_message ADMIN_ID pq so n1 n2 now msg w =
      (Ok tt, forget (from_id msg) (say (ToChat (chat_id msg)) reply w)) ∧
    recovery_reply_ok w (from_id msg) (trim t) reply ∧
    ∀ order creator,
      order_by_id w (trim t) = Some order →
      obj_get order "UserID" = Some (user_id_string creator) →
      creator ≠ from_id msg →
      reply = MRecoverNotFound (trim t).
Proof.
  intros Hf Hst Ht.
  destruct (recovery_answer w (from_id msg) (trim t)) as (reply & Hok & Hother & _ & Hrun).
  exists reply. split; [by apply (recovery_part000 w msg t)|].
  split; [by apply (recovery_indexjs _ _ _ _ _ _ w msg t)|].
  split; [done|].
  intros order creator Ho Hc Hne. apply (Hother order Ho).
  rewrite Hc. intros [= H]. apply user_id_string_inj in H. done.
Qed.

(** C6 on the sample world: user 7 asks for the delivered order of user 42. *)
Lemma recover_only_for_owner_witness :
  ∃ reply,
    Part000.on_message_recovery (Sample.text_message 7 "SVH-1") Sample.asking =
      (Ok tt, forget 7 (say (ToChat 7) reply Sample.asking)) ∧
    IndexJs.on_message 1 Sample.no_quantity_flow Sample.no_order_flow 3 4 "now"
      (Sample.text_message 7 "SVH-1") Sample.asking =
      (Ok tt, forget 7 (say (ToChat 7) reply Sample.asking)) ∧
    recovery_reply_ok Sample.asking 7 "SVH-1" reply ∧
    ∀ order creator,
      order_by_id Sample.asking "SVH-1" = Some order →
      obj_get order "UserID" = Some (user_id_string creator) →
      creator ≠ 7 →
      reply = MRecoverNotFound "SVH-1".
Proof.
  apply (recover_only_for_owner 1 Sample.no_quantity_flow Sample.no_order_flow 3 4 "now"
           Sample.asking (Sample.text_message 7 "SVH-1") "SVH-1"); reflexivity.
Defined.

End Recovery.

(** ** A correct captcha answer activates the user *)

Section Verification.

Variable ADMIN_ID : Z.

Lemma put_session_run userId s w :
  put_session userId s w = (Ok tt, set_userStates (<[userId := s]> (userStates w)) w).
Proof. reflexivity. Qed.




End Verification.

Section VerificationInstance.


End VerificationInstance.

(** ** Tiered prices *)

Section Pricing.

Lemma or_else_falsy a b : truthy a = false → or_else a b = b.
Proof. intros H. unfold or_else. by rewrite H. Qed.

Lemma or_else_truthy a b : truthy a = true → or_else a b = a.
Proof. intros H. unfold or_else. by rewrite H. Qed.

(** The cell the handler reads for a quantity is the cell the scan of the
    tiers finds. *)
Lemma tier_cell_scan (cat : Obj) (qty : Z) :
  1 ≤ qty → Part000.tier_cell cat qty = scan_tiers cat qty.
Proof.
  intros Hq. unfold Part000.tier_cell, scan_tiers, price_tiers, tier_applies, or_else.
  simpl List.find. cbn [fst snd].
  rewrite (proj2 (Z.leb_le 1 qty) Hq).
  destruct (20 <=? qty) eqn:E20; destruct (10 <=? qty) eqn:E10; destruct (5 <=? qty) eqn:E5;
    try (apply Z.leb_le in E20); try (apply Z.leb_gt in E10); try (apply Z.leb_gt in E5);
    try (apply Z.leb_le in E10); try lia;
    destruct (truthy (obj_get cat "Price20Plus")) eqn:T20;
    destruct (truthy (obj_get cat "Price10")) eqn:T10;
    destruct (truthy (obj_get cat "Price5")) eqn:T5;
    destruct (truthy (obj_get cat "Price1")) eqn:T1;
    simpl; rewrite ?T20, ?T10, ?T5, ?T1; reflexivity.
Qed.

(** C4.  For every category row and every quantity from 1 on, the price
    the handler resolves is the price configured in the cell that the scan
    of the tiers by descending threshold finds: the cell of the first tier
    among 20Plus, 10, 5 and 1 whose threshold the quantity reaches and whose
    cell is not empty, and the base price when there is none.  So for the
    tiers 1 → 50, 5 → 45, 10 → 40 and 20Plus → 35 the price is 35 from
    quantity 20 on, 40 from 10 on, 45 from 5 on and 50 below; a quantity
    whose own tier and the tiers below it down to some tier are empty is
    priced by that lower tier; and with all four tiers empty it is priced by
    the base price. *)
Theorem price_by_descending_thresholds (cat : Obj) (qty : Z) :
  1 ≤ qty →
  Part000.resolvePrice cat qty = configured_price (scan_tiers cat qty) ∧
  (obj_get cat "Price1" = Some "50" →
   obj_get cat "Price5" = Some "45" →
   obj_get cat "Price10" = Some "40" →
   obj_get cat "Price20Plus" = Some "35" →
   Part000.resolvePrice cat qty =
   Some (if 20 <=? qty then Num (Int 35)
         else if 10 <=? qty then Num (Int 40)
         else if 5 <=? qty then Num (Int 45)
         else Num (Int 50))) ∧
  (∀ t, t ∈ price_tiers → t.1 ≤ qty → truthy (obj_get cat t.2) = true →
        (∀ u, u ∈ price_tiers → t.1 < u.1 → u.1 ≤ qty → truthy (obj_get cat u.2) = false) →
        Part000.resolvePrice cat qty = configured_price (obj_get cat t.2)) ∧
  ((∀ u, u ∈ price_tiers → u.1 ≤ qty → truthy (obj_get cat u.2) = false) →
   Part000.resolvePrice cat qty = configured_price (obj_get cat "Price")).
Proof.
  intros Hq.
  assert (Hres : Part000.resolvePrice cat qty = configured_price (scan_tiers cat qty)).
  { unfold Part000.resolvePrice. by rewrite tier_cell_scan. }
  split; [exact Hres|]. split; [|split].
  - intros H1 H5 H10 H20. rewrite Hres. unfold scan_tiers, price_tiers, tier_applies.
    simpl List.find. cbn [fst snd]. rewrite H1, H5, H10, H20.
    rewrite (proj2 (Z.leb_le 1 qty) Hq).
    destruct (20 <=? qty); [simpl; rewrite H20; by vm_compute|].
    destruct (10 <=? qty); [simpl; rewrite H10; by vm_compute|].
    destruct (5 <=? qty); simpl; [rewrite H5|rewrite H1]; by vm_compute.
  - intros t Ht Hle Htr Habove. rewrite Hres. f_equal.
    unfold scan_tiers.
    assert (Hfind : List.find (tier_applies cat qty) price_tiers = Some t).
    { unfold price_tiers in *. unfold tier_applies.
      assert (Hskip : ∀ u, u ∈ price_tiers → t.1 < u.1 →
                           (u.1 <=? qty) && truthy (obj_get cat u.2) = false).
      { intros u Hu Hlt. destruct (u.1 <=? qty) eqn:E; [|done].
        apply Z.leb_le in E. by rewrite (Habove u Hu Hlt E). }
      assert (Hhit : (t.1 <=? qty) && truthy (obj_get cat t.2) = true).
      { by rewrite (proj2 (Z.leb_le _ _) Hle), Htr. }
      unfold price_tiers in Hskip.
      pose proof (Hskip (20, "Price20Plus")) as S20.
      pose proof (Hskip (10, "Price10")) as S10.
      pose proof (Hskip (5, "Price5")) as S5.
      clear Hskip Habove.
      repeat (apply elem_of_cons in Ht as [->|Ht]);
        [| | | | by apply elem_of_nil in Ht];
        simpl List.find; cbn [fst snd] in *; cbv beta.
      + by rewrite Hhit.
      + rewrite S20 by (set_solver || lia). by rewrite Hhit.
      + rewrite S20, S10 by (set_solver || lia). by rewrite Hhit.
      + rewrite S20, S10, S5 by (set_solver || lia). by rewrite Hhit. }
    by rewrite Hfind.
  - intros Hnone. rewrite Hres. f_equal. unfold scan_tiers.
    assert (Hfind : List.find (tier_applies cat qty) price_tiers = None).
    { assert (Hskip : ∀ u, u ∈ price_tiers →
                           (u.1 <=? qty) && truthy (obj_get cat u.2) = false).
      { intros u Hu. destruct (u.1 <=? qty) eqn:E; [|done].
        apply Z.leb_le in E. by rewrite (Hnone u Hu E). }
      unfold price_tiers in *. unfold tier_applies.
      pose proof (Hskip (20, "Price20Plus")) as S20.
      pose proof (Hskip (10, "Price10")) as S10.
      pose proof (Hskip (5, "Price5")) as S5.
      pose proof (Hskip (1, "Price1")) as S1.
      simpl List.find. cbn [fst snd] in *.
      rewrite S20, S10, S5, S1 by set_solver. done. }
    by rewrite Hfind.
Qed.

(** C4 on sample categories: the five quantities of the claim on the tiers
    50, 45, 40 and 35; then a row whose tiers 20Plus and 10 are empty, where
    quantity 25 falls to the tier 5; then a row with no tier at all, where
    it falls to the base price. *)
Lemma price_by_descending_thresholds_witness :
  let cat := Sample.category_row "30" ["A"; "B"; "C"] in
  let sparse : Obj := [("Price", Some "60"); ("Price1", Some "50"); ("Price5", Some "45");
                       ("Price10", Some ""); ("Price20Plus", None)] in
  let bare : Obj := [("Price", Some "60")] in
  Part000.resolvePrice cat 4 = Some (Num (Int 50)) ∧
  Part000.resolvePrice cat 5 = Some (Num (Int 45)) ∧
  Part000.resolvePrice cat 9 = Some (Num (Int 45)) ∧
  Part000.resolvePrice cat 10 = Some (Num (Int 40)) ∧
  Part000.resolvePrice cat 25 = Some (Num (Int 35)) ∧
  Part000.resolvePrice sparse 25 = Some (Num (Int 45)) ∧
  Part000.resolvePrice bare 25 = Some (Num (Int 60)).
Proof.
  intros cat sparse bare.
  pose proof (λ q Hq, proj1 (proj2 (price_by_descending_thresholds cat q Hq))
                        eq_refl eq_refl eq_refl eq_refl) as H.
  split; [apply (H 4); lia|]. split; [apply (H 5); lia|].
  split; [apply (H 9); lia|]. split; [apply (H 10); lia|].
  split; [apply (H 25); lia|]. split.
  - assert (1 ≤ 25) as Hq by lia.
    rewrite (proj1 (proj2 (proj2 (price_by_descending_thresholds sparse 25 Hq)))
               (5, "Price5")).
    + vm_compute. reflexivity.
    + unfold price_tiers. set_solver.
    + simpl. lia.
    + reflexivity.
    + intros u Hu Hlt _. unfold price_tiers in Hu.
      repeat (apply elem_of_cons in Hu as [->|Hu]); simpl in Hlt;
        first [reflexivity | lia | by apply elem_of_nil in Hu].
  - assert (1 ≤ 25) as Hq by lia.
    rewrite (proj2 (proj2 (proj2 (price_by_descending_thresholds bare 25 Hq)))).
    + vm_compute. reflexivity.
    + intros u Hu _. unfold price_tiers in Hu.
      repeat (apply elem_of_cons in Hu as [->|Hu]);
        first [reflexivity | by apply elem_of_nil in Hu].
Defined.

(** The rate reaches the user: with stock for it, quantity 25 of the
    sample category is offered at 35 a code, 875 in all. *)
Lemma quantity_25_is_offered_at_35 :
  Part000.processQuantityAndShowPayment 9 9 (Some "cat500") 25
    (Sample.world [] (Sample.categories "30" ["A"; "B"; "C"]) []) =
  (Ok tt,
   say (ToChat 9) (MPaymentRequired (Some "500") 25 (Int 35) (Int 875))
     (set_userStates
        {[ 9 := mkSession (Some waiting_for_proof) None (Some "cat500") (Some 25)
                  (Some (Num (Int 875))) None None None None ]}
        (Sample.world [] (Sample.categories "30" ["A"; "B"; "C"]) []))).
Proof. vm_compute. reflexivity. Qed.

End Pricing.

(** ** The UTR test *)

Section Utr.

Lemma string_length_all_chars s n :
  String.length s = S n → s ≠ EmptyString.
Proof. by destruct s. Qed.

(** X26.  Twelve digits are accepted. *)
Lemma utr_twelve_digits_accepted utr :
  String.length utr = 12%nat → all_chars is_digit utr = true →
  Part000.utr_accepted utr = true.
Proof.
  intros Hlen Hd. unfold Part000.utr_accepted. rewrite Hlen. simpl.
  assert (Hdo : digits_only utr = true).
  { unfold digits_only. rewrite Hd, andb_true_r.
    apply negb_true_iff, String.eqb_neq. by eapply string_length_all_chars. }
  destruct (digits_only_parse utr Hdo) as (_ & -> & _). done.
Qed.

(** X27.  A text that fails the test is answered with the prompt again: the
    session stays in the UTR state and no sheet is written. *)
Lemma utr_rejected_reprompts r1 r2 now msg t us w :
  userStates w !! from_id msg = Some us →
  state us = Some waiting_for_utr →
  text msg = Some t →
  Part000.utr_accepted (trim t) = false →
  Part000.on_message_proof 1 r1 r2 now msg w =
  (Ok tt,
   set_userStates (<[from_id msg := us]> (userStates w))
     (say (ToChat (chat_id msg)) MInvalidUtr w)).
Proof.
  intros Hus Hst Ht Hrej. unfold Part000.on_message_proof.
  rewrite bind_run, get_session_run, Hus. rewrite Hst.
  rewrite decide_False by done. rewrite decide_True by done.
  rewrite Ht, Hrej. rewrite bind_run, send_run.
  unfold update_session. rewrite bind_run, get_session_run.
  replace (userStates (say (ToChat (chat_id msg)) MInvalidUtr w) !! from_id msg)
    with (Some us) by done.
  rewrite put_session_run. destruct us. simpl in Hst. subst. reflexivity.
Qed.

(** C5 fails on the code.  The text [12345678901x] has twelve characters,
    the last of which is no digit, and the test of line 354 accepts it:
    [parseInt] reads the eleven digits and ignores the rest.  In
    [src/index.js] the listener hands it to [submitOrder]; in the other
    listing the listener calls its own [submitOrder], which throws before
    it writes the order row. *)
Lemma utr_test_accepts_a_letter :
  String.length "12345678901x" = 12%nat ∧
  all_chars is_digit "12345678901x" = false ∧
  Part000.utr_accepted "12345678901x" = true ∧
  outbox (snd (IndexJs.on_message 1 Sample.no_quantity_flow Sample.traced_order_flow 3 4 "now"
                 (Sample.text_message 9 "12345678901x") Sample.paying)) =
    [(ToChat 9, MOrderSubmitted "12345678901x")] ∧
  fst (Part000.on_message_proof 1 "ABCDEFG" "HIJKLM" "now"
         (Sample.text_message 9 "12345678901x") Sample.paying) = Throw ReferenceError ∧
  sheet Orders (snd (Part000.on_message_proof 1 "ABCDEFG" "HIJKLM" "now"
                       (Sample.text_message 9 "12345678901x") Sample.paying)) =
    sheet Orders Sample.paying.
Proof. repeat split; vm_compute; reflexivity. Qed.

End Utr.

(** ** Declining an order *)

Section Decline.

Context {A : Type} (f : World → A).

Lemma keeps_ret {B} (b : B) : keeps f (mret b).
Proof. by intros w. Qed.

Lemma keeps_bind {B C} (m : M B) (k : B → M C) :
  keeps f m → (∀ b, keeps f (k b)) → keeps f (m ≫= k).
Proof.
  intros Hm Hk w. rewrite bind_run. specialize (Hm w).
  destruct (m w) as [[b|e] w1]; simpl in *; [by rewrite Hk|done].
Qed.

Lemma keeps_modify (g : World → World) :
  (∀ w, f (g w) = f w) → keeps f (modify g).
Proof. intros Hg w. apply Hg. Qed.

Lemma keeps_service_call :
  (∀ fs w, f (set_faults fs w) = f w) → keeps f service_call.
Proof.
  intros Hf w. unfold service_call.
  destruct (faults w) as [|[] fs]; simpl; by rewrite ?Hf.
Qed.

End Decline.

Section DeclineInventory.

Lemma inventory_set_faults fs w : sheet Categories (set_faults fs w) = sheet Categories w.
Proof. reflexivity. Qed.

Lemma keeps_inventory_getRows n : keeps (sheet Categories) (Part000.getRows n).
Proof.
  unfold Part000.getRows, sheets_get.
  repeat (apply keeps_bind; [|intros ?]);
    auto using keeps_ret, keeps_service_call, inventory_set_faults.
  by intros w.
Qed.

Lemma keeps_inventory_send d m : keeps (sheet Categories) (send d m).
Proof. by intros w. Qed.

(** X24.  The decline branch has no inventory side effect: whatever the order
    id and whatever the sheet service does, the Categories sheet after it
    is the one before it. *)
Lemma decline_keeps_inventory chatId orderId :
  keeps (sheet Categories) (Part000.decline chatId orderId).
Proof.
  unfold Part000.decline, Part000.updateRow.
  apply keeps_bind; [|intros _].
  { apply keeps_bind; [apply keeps_inventory_getRows|intros rows].
    destruct (list_find _ rows) as [[i r]|]; [|apply keeps_ret].
    apply keeps_bind; [|intros; apply keeps_ret].
    unfold sheets_update. apply keeps_bind; [|intros _].
    - apply keeps_service_call, inventory_set_faults.
    - by apply keeps_modify. }
  apply keeps_bind; [apply keeps_inventory_send|intros _].
  apply keeps_bind; [apply keeps_inventory_getRows|intros orders].
  destruct (find _ orders); [apply keeps_inventory_send|apply keeps_ret].
Qed.

(** C7 fails on the code.  The decline branch (lines 606-616) writes
    [Status: Declined] with no look at the order's status, where the
    approve branch first tests [Status !== Pending] (line 562).  On the
    sample store whose order SVH-1 is Successful and delivered, the
    admin's decline turns the order into a Declined one and tells both
    the admin and the user so; the approve branch on the same store
    answers that the order is already processed and writes nothing.  The
    inventory is left alone by both. *)
Lemma decline_overwrites_successful_order :
  let press data := snd (Part000.on_callback_admin 1 (Sample.button 1 data) Sample.delivered) in
  order_status Sample.delivered "SVH-1" = Some "Successful" ∧
  order_status (press "adm_decline_SVH-1") "SVH-1" = Some "Declined" ∧
  outbox (press "adm_decline_SVH-1") =
    [(ToChat 1, MDeclinedAdmin "SVH-1"); (ToCell (Some "42"), MOrderDeclined "SVH-1")] ∧
  sheet Categories (press "adm_decline_SVH-1") = sheet Categories Sample.delivered ∧
  order_status (press "adm_approve_SVH-1") "SVH-1" = Some "Successful" ∧
  outbox (press "adm_approve_SVH-1") = [(ToChat 1, MOrderUnknownOrProcessed "SVH-1")].
Proof. repeat split; vm_compute; reflexivity. Qed.

End DeclineInventory.

(** ** The admin gate *)

Section AdminGate.

Variable ADMIN_ID : Z.

(** X25.  The guard of the admin listener of the older listing (lines 549-554):
    a callback of anybody but the admin is answered with a refusal and
    changes neither the sessions nor the sheets. *)
Lemma admin_callback_guard cq w :
  cq_from_id cq ≠ ADMIN_ID →
  Part000.on_callback_admin ADMIN_ID cq w =
  (Ok tt, say (ToChat (cq_chat_id cq)) MAccessDenied w).
Proof.
  intros Hne. unfold Part000.on_callback_admin.
  by rewrite decide_True.
Qed.

(** C9 fails on [src/index.js].  Its callback listener tests no identity:
    on the data [adm_add_cat_prompt] (lines 268-270) the session of the
    sender, whoever it is, is put into the admin state
    [adm_waiting_for_cat_value]. *)
Lemma callback_puts_any_user_in_admin_state
    pq hao dc membership n1 n2 (chatId userId : Z) (w : World) :
  let w' := snd (IndexJs.on_callback_query ADMIN_ID pq hao dc membership n1 n2
                   (mkCallbackQuery chatId userId "adm_add_cat_prompt") w) in
  userStates w' !! userId = Some (session_in adm_waiting_for_cat_value) ∧
  is_admin_state adm_waiting_for_cat_value = true ∧
  outbox w' = outbox w ++ [(ToChat chatId, MAskCatValue)].
Proof.
  unfold IndexJs.on_callback_query. simpl.
  split; [|done]. apply lookup_insert_eq.
Qed.

End AdminGate.

Section AdminGateInstance.

(** With admin 1: user 2 presses the button and is in the admin state
    after it.  The message listener guards its admin branch (line 445),
    so the next text of user 2 is not handled as a category value; the
    same text of the admin is. *)
Lemma stranger_in_admin_state :
  let w1 := snd (IndexJs.on_callback_query 1 Sample.no_quantity_flow Sample.no_order_flow
                   Sample.no_category_flow (Some "member") 3 4
                   (Sample.button 2 "adm_add_cat_prompt") Sample.stocked) in
  let w2 := snd (IndexJs.on_message 1 Sample.no_quantity_flow Sample.no_order_flow 3 4 "now"
                   (Sample.text_message 2 "500") w1) in
  (userStates w1 !! 2) ≫= state = Some adm_waiting_for_cat_value ∧
  outbox w1 = [(ToChat 2, MAskCatValue)] ∧
  (userStates w2 !! 2) ≫= state = Some adm_waiting_for_cat_value ∧
  outbox w2 = [(ToChat 2, MAskCatValue); (ToChat 2, MNotUnderstood); (ToChat 2, MMainMenu)] ∧
  outbox (snd (Part000.on_callback_admin 1 (Sample.button 2 "adm_add_cat_prompt")
                 Sample.stocked)) = [(ToChat 2, MAccessDenied)].
Proof. repeat split; vm_compute; reflexivity. Qed.

End AdminGateInstance.

(* ===================================================================== *)
(** * Part III. Further properties of the handlers *)
(* ===================================================================== *)

(** ** Reading and writing rows *)

Section SheetRows.

(** X1.  With distinct header names, none of them a run of digits or a name
    every object inherits, [getRows] answers one object per data row of the sheet;
    each lists the headers in their order and holds under a header the cell
    of that column (nothing, or an empty cell, where the row ends
    earlier). *)
Theorem getRows_rows_follow_headers (n : SheetName) (w : World) :
  faults w = [] →
  NoDup (headers_of (sheet n w)) →
  plain_headers (sheet n w) →
  ∃ rows,
    Part000.getRows n w = (Ok rows, w) ∧
    length rows = pred (length (sheet n w)) ∧
    ∀ i r, rows !! i = Some r →
      Object_keys r = headers_of (sheet n w) ∧
      ∃ cells, sheet n w !! S i = Some cells ∧
        ∀ j h, headers_of (sheet n w) !! j = Some h →
               cell_sim (obj_get r h) (cells !! j).
Proof.
  intros Hf Hnd _. exists (rows_of (values_get (sheet n w))).
  split; [by apply getRows_quiet|].
  destruct (sheet n w) as [|h0 body] eqn:Hg.
  { split; [done|]. intros i r Hr. done. }
  rewrite rows_of_values_get_cons. unfold headers_of in *. simpl hd in *.
  split; [by rewrite length_map|].
  intros i r Hr. apply list_lookup_fmap_Some in Hr as (cells & -> & Hcells).
  split; [by apply row_object_keys|].
  exists cells. split; [exact Hcells|].
  intros j h Hh. rewrite row_object_zip by done.
  rewrite (obj_get_zip_cells 0 _ _ h j) by done. simpl.
  apply drop_trailing_empty_sim.
Qed.

(** X2.  [updateRow] on a row it finds, read back, on a sheet whose header
    names are distinct and none of them a run of digits or a name every
    object inherits, with a [newData] that names each key once: the row
    objects are those of before, but for the first matching row, which
    holds the new value under each header named in [newData] and its old
    cells elsewhere; the other sheets, the sessions and the messages are
    untouched. *)
Theorem updateRow_then_getRows (n : SheetName) (col : string) (v : option string)
    (newData : Obj) (w : World) (i : nat) (r : Obj) :
  faults w = [] →
  NoDup (headers_of (sheet n w)) →
  plain_headers (sheet n w) →
  NoDup (Object_keys newData) →
  list_find (λ row, obj_get row col = v) (rows_of (values_get (sheet n w))) = Some (i, r) →
  ∃ w' r',
    Part000.updateRow n col v newData w = (Ok true, w') ∧
    Part000.getRows n w' = (Ok (<[i := r']> (rows_of (values_get (sheet n w)))), w') ∧
    (∀ h, cell_sim (obj_get r' h) (expected newData r h)) ∧
    (∀ n', n' ≠ n → sheet n' w' = sheet n' w) ∧
    outbox w' = outbox w ∧ userStates w' = userStates w.
Proof.
  intros Hf Hnd _ _ Hfind.
  pose proof Hfind as Hi. apply list_find_Some in Hi as (Hi & _).
  destruct (update_found _ _ _ newData Hnd Hi) as (r' & Hrows & _ & _ & Hcells).
  exists (set_sheet n (values_update (S i) (merged_row newData r) (sheet n w)) w), r'.
  split; [by rewrite updateRow_quiet, Hfind|].
  split.
  { rewrite getRows_quiet by (by rewrite faults_set_sheet).
    by rewrite sheet_set_sheet, Hrows. }
  split; [done|]. split; [|by destruct n].
  intros n' Hn'. by apply sheet_set_sheet_ne.
Qed.

End SheetRows.

Section SheetRowsInstance.

Lemma getRows_rows_follow_headers_witness :
  faults Sample.stocked = [] ∧
  ∃ rows, Part000.getRows Categories Sample.stocked = (Ok rows, Sample.stocked) ∧
          length rows = 1%nat.
Proof.
  split; [reflexivity|].
  destruct (getRows_rows_follow_headers Categories Sample.stocked) as (rows & H1 & H2 & _).
  - reflexivity.
  - refine (bool_decide_unpack _ _). vm_compute. exact I.
  - refine (bool_decide_unpack _ _). vm_compute. exact I.
  - exists rows. split; [exact H1|exact H2].
Defined.

Lemma updateRow_then_getRows_witness :
  ∃ w' r',
    Part000.updateRow Orders "OrderID" (Some "SVH-1") [("Status", Some "Declined")]
      Sample.stocked = (Ok true, w') ∧
    Part000.getRows Orders w' = (Ok [r'], w') ∧
    cell_sim (obj_get r' "Status") (Some "Declined") ∧
    cell_sim (obj_get r' "UTR") (Some "123456789012").
Proof.
  destruct (updateRow_then_getRows Orders "OrderID" (Some "SVH-1")
              [("Status", Some "Declined")] Sample.stocked 0
              (Sample.order_row "2" "Pending" ""))
    as (w' & r' & H1 & H2 & H3 & _).
  - reflexivity.
  - refine (bool_decide_unpack _ _). vm_compute. exact I.
  - refine (bool_decide_unpack _ _). vm_compute. exact I.
  - refine (bool_decide_unpack _ _). vm_compute. exact I.
  - vm_compute. reflexivity.
  - exists w', r'. split; [exact H1|]. split; [exact H2|].
    split; [exact (H3 "Status")|exact (H3 "UTR")].
Defined.

End SheetRowsInstance.

(** ** The guarded sheet helpers of [src/index.js] *)

Section GuardedHelpers.

Variable ADMIN_ID : Z.

Lemma try_catch_returns {A} (m h : M A) (w : World) :
  (∀ w1, ∃ a, fst (h w1) = Ok a) → ∃ a, fst (try_catch m h w) = Ok a.
Proof.
  intros Hh. unfold try_catch. destruct (m w) as [[a|e] w1]; [by exists a|apply Hh].
Qed.

Lemma report_returns {A} (op : string) (n : SheetName) (a : A) (w : World) :
  (send (ToChat ADMIN_ID) (MSheetError op n) ;; mret a) w =
  (Ok a, say (ToChat ADMIN_ID) (MSheetError op n) w).
Proof. reflexivity. Qed.

(** X3.  Whatever the sheet service does, the four helpers and the logging on
    top of them return: a failure of the service is caught inside them and
    never reaches the caller. *)
Theorem sheet_helpers_never_throw (n : SheetName) (rowData : list string) (col : string)
    (v : option string) (newData : Obj) (now action details : string) (userId : Z)
    (w : World) :
  (∃ rows, fst (IndexJs.getSheetRows ADMIN_ID n w) = Ok rows) ∧
  (∃ b, fst (IndexJs.appendSheetRow ADMIN_ID n rowData w) = Ok b) ∧
  (∃ b, fst (IndexJs.updateSheetRow ADMIN_ID n col v newData w) = Ok b) ∧
  (∃ b, fst (IndexJs.deleteSheetRow ADMIN_ID n col v w) = Ok b) ∧
  fst (IndexJs.logActivity ADMIN_ID now userId action details w) = Ok tt.
Proof.
  assert (Hcaught : ∀ A (m : M A) op n' (a : A) w0,
            ∃ a', fst (try_catch m (send (ToChat ADMIN_ID) (MSheetError op n') ;; mret a) w0)
                  = Ok a').
  { intros A m op n' a w0. apply try_catch_returns.
    intros w1. eexists. by rewrite report_returns. }
  repeat split; try apply Hcaught.
  unfold IndexJs.logActivity. rewrite bind_run.
  destruct (Hcaught bool (sheets_append Logs
                            [[now; user_id_string userId; action; details]] ;; mret true)
              "appendRow" Logs false w) as [b Hb].
  unfold IndexJs.appendSheetRow.
  destruct (try_catch _ _ w) as [[b'|e] w1]; [reflexivity|discriminate Hb].
Qed.

(** X4.  When the read of the sheet fails, [getSheetRows] answers no rows and
    tells the admin; [updateSheetRow] then finds no row, answers [false]
    as for an unknown key, and reports no update error of its own. *)
Theorem failed_read_looks_like_no_rows (n : SheetName) (col : string) (v : option string)
    (newData : Obj) (fs : list bool) (w : World) :
  faults w = true :: fs →
  let w' := say (ToChat ADMIN_ID) (MSheetError "getRows" n) (set_faults fs w) in
  IndexJs.getSheetRows ADMIN_ID n w = (Ok [], w') ∧
  IndexJs.updateSheetRow ADMIN_ID n col v newData w = (Ok false, w') ∧
  sheet n w' = sheet n w.
Proof.
  intros Hf w'.
  assert (Hget : IndexJs.getSheetRows ADMIN_ID n w = (Ok [], w')).
  { unfold IndexJs.getSheetRows, try_catch, sheets_get.
    rewrite !bind_run. unfold service_call. rewrite Hf. reflexivity. }
  split; [exact Hget|]. split; [|by destruct n].
  unfold IndexJs.updateSheetRow, try_catch. rewrite bind_run, Hget. reflexivity.
Qed.

End GuardedHelpers.

Section GuardedHelpersInstance.

Lemma failed_read_looks_like_no_rows_witness :
  let w := set_faults [true] Sample.stocked in
  IndexJs.updateSheetRow 1 Categories "CategoryID" (Some "cat500") [("Stock", Some "9")] w =
  (Ok false, say (ToChat 1) (MSheetError "getRows" Categories) Sample.stocked).
Proof.
  intros w.
  exact (proj1 (proj2 (failed_read_looks_like_no_rows 1 Categories "CategoryID"
                         (Some "cat500") [("Stock", Some "9")] [] w eq_refl))).
Defined.

End GuardedHelpersInstance.

(** ** Deleting rows *)

Section DeleteRows.

Variable ADMIN_ID : Z.







End DeleteRows.

Section DeleteRowsInstance.



End DeleteRowsInstance.

(** ** Codes: the pool cell and the admin's text *)

Section Codes.

(** X7.  The pool cell is rewritten by every flow as the codes read from it,
    joined by line feeds.  Reading that back gives the same codes, also
    after more clean codes were put behind them: a rewrite neither loses
    nor invents a code. *)
Theorem pool_survives_rewrite (cell : option string) (more : list string) :
  Forall clean_code more →
  Forall clean_code (code_pool cell) ∧
  code_pool (Some (join newline (code_pool cell))) = code_pool cell ∧
  code_pool (Some (join newline (code_pool cell ++ more))) = code_pool cell ++ more.
Proof.
  intros Hmore. pose proof (code_pool_clean cell) as Hpool.
  split; [exact Hpool|]. split.
  - by apply code_pool_join.
  - apply code_pool_join. apply Forall_app. by split.
Qed.

End Codes.

Section Runs_of_separators.

Variable is_sep : ascii → bool.
Hypothesis is_sep_LF : is_sep LF = true.

Lemma split_runs_head_not_sep prev a r :
  is_sep a = false →
  split_runs is_sep prev (String a r) = split_runs is_sep false (String a r).
Proof. intros Ha. simpl. by rewrite Ha. Qed.

Lemma split_runs_no_sep x :
  all_chars (λ a, negb (is_sep a)) x = true → split_runs is_sep false x = [x].
Proof.
  induction x as [|a r IH]; intros H; [done|]. simpl in *.
  apply andb_true_iff in H as [Ha Hr]. apply negb_true_iff in Ha.
  rewrite Ha, IH by done. done.
Qed.

Lemma split_runs_line x s :
  all_chars (λ a, negb (is_sep a)) x = true →
  split_runs is_sep false (x +:+ String LF s) = x :: split_runs is_sep true s.
Proof.
  induction x as [|a r IH]; intros H; [simpl; by rewrite is_sep_LF|]. simpl in *.
  apply andb_true_iff in H as [Ha Hr]. apply negb_true_iff in Ha.
  rewrite Ha, IH by done. done.
Qed.

Lemma split_runs_join l :
  l ≠ [] →
  Forall (λ c, c ≠ EmptyString ∧ all_chars (λ a, negb (is_sep a)) c = true) l →
  split_runs is_sep false (join newline l) = l.
Proof.
  induction l as [|x l IH]; intros Hne Hall; [done|].
  apply Forall_cons in Hall as [[Hx Hsep] Hl].
  destruct l as [|y l]; [by apply split_runs_no_sep|].
  change (join newline (x :: y :: l)) with (x +:+ String LF (join newline (y :: l))).
  rewrite split_runs_line by done. f_equal.
  pose proof Hl as [[Hy Hysep] _]%Forall_cons.
  destruct y as [|a r]; [done|]. simpl in Hysep.
  apply andb_true_iff in Hysep as [Ha _]. apply negb_true_iff in Ha.
  assert (∃ r', join newline (String a r :: l) = String a r') as [r' Hr'].
  { destruct l; simpl; eauto. }
  transitivity (split_runs is_sep false (join newline (String a r :: l))).
  - rewrite Hr'. by apply split_runs_head_not_sep.
  - by apply IH.
Qed.

End Runs_of_separators.

Section CodeLines.

(** X8.  Codes sent one per line are taken as they are: for codes that are not
    empty, hold no line feed or comma and no blank at either end, the text
    made of them line by line is parsed into the same codes, in order. *)
Theorem parse_codes_of_lines (codes : list string) :
  Forall (λ c, c ≠ EmptyString ∧ trim c = c ∧
               all_chars (λ a, negb (Ascii.eqb a LF || Ascii.eqb a COMMA)) c = true) codes →
  IndexJs.parse_codes (join newline codes) = codes.
Proof.
  intros Hall. unfold IndexJs.parse_codes.
  destruct codes as [|x l]; [done|].
  rewrite split_runs_join; [|done|done|].
  - assert (Hmap : map trim (x :: l) = x :: l).
    { clear -Hall. induction Hall as [|c cs (_ & Ht & _) _ IH]; [done|].
      simpl. by rewrite Ht, IH. }
    rewrite Hmap. apply filter_all.
    eapply Forall_impl; [exact Hall|]. intros c (Hc & _ & _). simpl.
    destruct c; [done|simpl; lia].
  - eapply Forall_impl; [exact Hall|]. by intros c (Hc & _ & Hs).
Qed.

End CodeLines.

Section CodesInstance.

Lemma pool_survives_rewrite_witness :
  code_pool (Some (join newline (code_pool (Some (join newline ["A"; " "; "B"])) ++ ["C"])))
  = ["A"; "B"; "C"].
Proof.
  refine (eq_trans (proj2 (proj2 (pool_survives_rewrite
                                    (Some (join newline ["A"; " "; "B"])) ["C"] _))) _).
  - repeat constructor.
  - reflexivity.
Defined.

Lemma parse_codes_of_lines_witness :
  IndexJs.parse_codes (join newline ["SHEIN-1"; "SHEIN-2"]) = ["SHEIN-1"; "SHEIN-2"].
Proof.
  apply parse_codes_of_lines. repeat constructor; discriminate.
Defined.

End CodesInstance.

(** ** Adding and removing codes *)

Section Stock.

Variables ADMIN_ID chatId userId : Z.



Lemma filter_shorter {A} (P : A → Prop) `{∀ x, Decision (P x)} (l : list A) :
  (length (filter P l) <? length l)%nat = bool_decide (Exists (λ x, ¬ P x) l).
Proof.
  induction l as [|x l IH]; [done|].
  pose proof (length_filter P l) as Hle.
  rewrite filter_cons. destruct (decide (P x)) as [Hx|Hx]; simpl length.
  - change (S (length (filter P l)) <? S (length l))%nat
      with (length (filter P l) <? length l)%nat.
    rewrite IH. apply bool_decide_ext. rewrite Exists_cons. tauto.
  - rewrite bool_decide_true by (by left). apply Nat.ltb_lt. lia.
Qed.

(** The loop over the categories stops at the first one whose pool holds
    the code. *)
Lemma remove_code_loop_first code (cats : list Obj) w :
  IndexJs.remove_code_loop ADMIN_ID chatId code cats w =
  match list_find (λ c, code ∈ pool_of c) cats with
  | None => (Ok false, w)
  | Some (_, cat) =>
      let kept := filter (λ c, c ≠ code) (pool_of cat) in
      (IndexJs.updateSheetRow ADMIN_ID Categories "CategoryID" (obj_get cat "CategoryID")
         [("VoucherCodes", Some (join newline kept));
          ("Stock", Some (num_to_string (Int (Z.of_nat (length kept)))))] ;;
       send (ToChat chatId) (MCodeRemoved code (obj_get cat "CategoryID")) ;;
       mret true) w
  end.
Proof.
  induction cats as [|cat rest IH]; [done|].
  simpl IndexJs.remove_code_loop. rewrite filter_shorter.
  simpl (list_find _ (cat :: rest)). unfold pool_of at 1.
  destruct (decide (code ∈ code_pool (obj_get cat "VoucherCodes"))) as [Hin|Hnin].
  - rewrite bool_decide_true; [reflexivity|].
    apply Exists_exists. exists code. split; [done|]. by intros H.
  - rewrite bool_decide_false.
    + rewrite IH. by destruct (list_find _ rest) as [[k c]|].
    + intros (x & Hx & Hne)%Exists_exists.
      destruct (decide (x = code)) as [->|Hd]; [done|]. by apply Hne.
Qed.

(** X10.  A code that no pool holds: the sheets stay as they are, the admin is
    told that the code is unknown, the session is dropped, and the handler
    ends in the TypeError of its last line. *)
Theorem remove_unknown_code_changes_nothing (text : string) (w : World) :
  faults w = [] →
  (∀ cat, cat ∈ categories_of w → trim text ∉ pool_of cat) →
  IndexJs.remove_voucher_code ADMIN_ID chatId userId (Some text) w =
  (Throw TypeError, forget userId (say (ToChat chatId) (MCodeNotFound (trim text)) w)).
Proof.
  intros Hf Hnone. unfold IndexJs.remove_voucher_code.
  rewrite bind_run, (getSheetRows_quiet ADMIN_ID) by done.
  rewrite bind_run, remove_code_loop_first.
  destruct (list_find _ _) as [[k c]|] eqn:Hfind; [|reflexivity].
  apply list_find_Some in Hfind as (Hk & Hin & _).
  exfalso. apply (Hnone c); [|done]. by eapply list_elem_of_lookup_2.
Qed.


End Stock.

Section StockInstance.


Lemma remove_unknown_code_changes_nothing_witness :
  IndexJs.remove_voucher_code 1 1 1 (Some " Z ") Sample.stocked =
  (Throw TypeError, forget 1 (say (ToChat 1) (MCodeNotFound "Z") Sample.stocked)).
Proof.
  apply (remove_unknown_code_changes_nothing 1 1 1 " Z " Sample.stocked); [reflexivity|].
  intros cat Hcat. vm_compute in Hcat.
  apply list_elem_of_singleton in Hcat as ->.
  refine (bool_decide_unpack _ _). vm_compute. exact I.
Defined.


End StockInstance.

(** ** Deleting a category *)

Section DeleteCategory.


End DeleteCategory.

Section DeleteCategoryInstance.


End DeleteCategoryInstance.

(** ** The codes an approval delivers *)

Section Delivery.

(** X13.  A passing approval hands out the head of the pool: the order row then
    holds the first [Quantity] codes of the category's pool, the category
    row the codes after them, so the two together are the pool of before,
    in order; the user is sent the codes the order row holds.  The header
    names of the two sheets are distinct and plain, and the Stock and
    Quantity cells are texts whose numbers the model holds as the code does
    (fractions and exponents among them, whole numbers up to 2^53). *)
Theorem approve_delivers_pool_prefix (w : World) (chatId : Z) (orderId : string)
    (order cat : Obj) :
  faults w = [] →
  NoDup (headers_of (sheet Orders w)) → plain_headers (sheet Orders w) →
  NoDup (headers_of (sheet Categories w)) → plain_headers (sheet Categories w) →
  "VoucherCodeDelivered" ∈ headers_of (sheet Orders w) →
  approve_gate w orderId = Some (order, cat) →
  safe_cell (obj_get cat "Stock") = true →
  safe_cell (obj_get order "Quantity") = true →
  ∃ w1 order1 cat1 i j,
    Part000.approve chatId orderId w = (Ok tt, w1) ∧
    orders_of w1 = <[i := order1]> (orders_of w) ∧
    categories_of w1 = <[j := cat1]> (categories_of w) ∧
    code_pool (obj_get order1 "VoucherCodeDelivered") = take (quantity_of order) (pool_of cat) ∧
    code_pool (obj_get order1 "VoucherCodeDelivered") ++ pool_of cat1 = pool_of cat ∧
    outbox w1 = outbox w ++
      [(ToCell (obj_get order "UserID"),
        MOrderApproved orderId (join newline (take (quantity_of order) (pool_of cat))));
       (ToChat chatId, MApprovedAdmin orderId);
       (ToOrdersChannel, MApprovedChannel order)].
Proof.
  intros Hf HndO _ HndC _ Hcol Hgate _ _.
  destruct (approve_effect w chatId orderId order cat Hf HndO HndC Hgate)
    as (w1 & i & j & order1 & cat1 & Hrun & _ & _ & _ & _ & _ & Hi & Hj & Ho & Hc & Hoc & Hcc & Hout).
  exists w1, order1, cat1, i, j.
  assert (Hkeys : Object_keys order = headers_of (sheet Orders w)).
  { apply rows_keys; [done|]. apply list_find_Some in Hi as (Hi & _).
    by eapply list_elem_of_lookup_2. }
  assert (Hclean : Forall clean_code (take (quantity_of order) (pool_of cat))).
  { apply Forall_take, code_pool_clean. }
  assert (Hdel : code_pool (obj_get order1 "VoucherCodeDelivered")
                 = take (quantity_of order) (pool_of cat)).
  { rewrite (code_pool_sim _ _ (Hoc "VoucherCodeDelivered")).
    unfold expected, order_patch. simpl obj_get. cbv iota beta.
    rewrite decide_True by (by rewrite Hkeys). by apply code_pool_join. }
  split; [exact Hrun|]. split; [exact Ho|]. split; [exact Hc|]. split; [exact Hdel|].
  split; [|exact Hout].
  rewrite Hdel, (pool_after_patch order cat cat1 (Hcc "VoucherCodes")).
  apply take_drop.
Qed.

End Delivery.

Section DeliveryInstance.

Lemma approve_delivers_pool_prefix_witness :
  ∃ w1 order1 cat1,
    Part000.approve 1 "SVH-1" Sample.stocked = (Ok tt, w1) ∧
    code_pool (obj_get order1 "VoucherCodeDelivered") = ["A"; "B"] ∧
    code_pool (obj_get order1 "VoucherCodeDelivered") ++ pool_of cat1 = ["A"; "B"; "C"].
Proof.
  destruct (approve_delivers_pool_prefix Sample.stocked 1 "SVH-1"
              (Sample.order_row "2" "Pending" "") (Sample.category_row "3" ["A"; "B"; "C"]))
    as (w1 & order1 & cat1 & i & j & H1 & _ & _ & H4 & H5 & _).
  - reflexivity.
  - refine (bool_decide_unpack _ _). vm_compute. exact I.
  - refine (bool_decide_unpack _ _). vm_compute. exact I.
  - refine (bool_decide_unpack _ _). vm_compute. exact I.
  - refine (bool_decide_unpack _ _). vm_compute. exact I.
  - refine (bool_decide_unpack _ _). vm_compute. exact I.
  - vm_compute. reflexivity.
  - vm_compute. reflexivity.
  - vm_compute. reflexivity.
  - exists w1, order1, cat1. split; [exact H1|]. split; [exact H4|exact H5].
Defined.

End DeliveryInstance.

(** ** Quantity buttons *)

Section QuantityButtons.

Lemma split_on_piece sep x s :
  all_chars (λ c, negb (Ascii.eqb c sep)) x = true →
  split_on sep (x +:+ String sep s) = x :: split_on sep s.
Proof.
  induction x as [|a r IH]; intros H; simpl in *.
  - by rewrite Ascii.eqb_refl.
  - apply andb_true_iff in H as [Ha Hr]. apply negb_true_iff in Ha.
    by rewrite Ha, IH.
Qed.

Lemma digits_hold_no_underscore d :
  all_chars is_digit d = true → all_chars (λ c, negb (Ascii.eqb c "_")) d = true.
Proof.
  apply all_chars_impl. intros a Ha.
  destruct (Ascii.eqb_spec a "_") as [->|]; [discriminate Ha|done].
Qed.

(** X14.  The data of a quantity button is split at every underscore, and the
    category id is taken to be the one piece after the quantity.  For an id
    that itself holds an underscore (as the ids [cat_<value>] of the
    categories the admin creates do), the quantity is priced for the part
    of the id before its first underscore.  Both listings do so. *)
Theorem quantity_button_cuts_category_id (ADMIN_ID chatId userId : Z) (d a b : string)
    (w : World) pq hao dc membership (n1 n2 : Z) :
  digits_only d = true →
  all_chars (λ c, negb (Ascii.eqb c "_")) a = true →
  Part000.on_callback_quantity
    (mkCallbackQuery chatId userId ("qty_" +:+ d +:+ "_" +:+ a +:+ "_" +:+ b)) w
  = Part000.processQuantityAndShowPayment chatId userId (Some a) (dec_value 0 d) w ∧
  IndexJs.on_callback_query ADMIN_ID pq hao dc membership n1 n2
    (mkCallbackQuery chatId userId ("qty_btn_" +:+ d +:+ "_" +:+ a +:+ "_" +:+ b)) w
  = pq chatId userId (Some a) (dec_value 0 d) w.
Proof.
  intros Hd Ha.
  destruct (digits_only_parse d Hd) as (_ & Hparse & _).
  apply andb_true_iff in Hd as [_ Hdig].
  pose proof (digits_hold_no_underscore d Hdig) as Hd_.
  assert (Hcustom : d ≠ "custom") by (by intros ->).
  assert (Hparts : ∀ p, all_chars (λ c, negb (Ascii.eqb c "_")) p = true →
            split_on "_" (p +:+ "_" +:+ d +:+ "_" +:+ a +:+ "_" +:+ b)
            = p :: d :: a :: split_on "_" b).
  { intros p Hp.
    change (p +:+ "_" +:+ d +:+ "_" +:+ a +:+ "_" +:+ b)
      with (p +:+ String "_" (d +:+ String "_" (a +:+ String "_" b))).
    by rewrite !split_on_piece. }
  split.
  - unfold Part000.on_callback_quantity. cbn [data cq_chat_id cq_from_id].
    change (strip_prefix "select_qty_" ("qty_" +:+ d +:+ "_" +:+ a +:+ "_" +:+ b)) with (@None string).
    change (startsWith ("qty_" +:+ d +:+ "_" +:+ a +:+ "_" +:+ b) "qty_") with true.
    cbv iota beta zeta.
    change ("qty_" +:+ d +:+ "_" +:+ a +:+ "_" +:+ b)
      with ("qty" +:+ "_" +:+ d +:+ "_" +:+ a +:+ "_" +:+ b).
    rewrite (Hparts "qty") by done.
    change (("qty" :: d :: a :: split_on "_" b) !! 1%nat) with (Some d).
    change (("qty" :: d :: a :: split_on "_" b) !! 2%nat) with (Some a).
    rewrite decide_False by congruence.
    unfold parseInt_cell. by rewrite Hparse.
  - unfold IndexJs.on_callback_query. cbn [data cq_chat_id cq_from_id]. cbv zeta.
    rewrite decide_False by done.
    change (startsWith ("qty_btn_" +:+ d +:+ "_" +:+ a +:+ "_" +:+ b) "select_cat_") with false.
    change (startsWith ("qty_btn_" +:+ d +:+ "_" +:+ a +:+ "_" +:+ b) "qty_btn_") with true.
    cbv iota beta.
    change ("qty_btn_" +:+ d +:+ "_" +:+ a +:+ "_" +:+ b)
      with ("qty" +:+ String "_" ("btn" +:+ "_" +:+ d +:+ "_" +:+ a +:+ "_" +:+ b)).
    rewrite split_on_piece by done. rewrite (Hparts "btn") by done.
    change (("qty" :: "btn" :: d :: a :: split_on "_" b) !! 2%nat) with (Some d).
    change (("qty" :: "btn" :: d :: a :: split_on "_" b) !! 3%nat) with (Some a).
    rewrite decide_False by congruence.
    unfold parseInt_cell. by rewrite Hparse.
Qed.

End QuantityButtons.

Section QuantityButtonsInstance.

(** The button [5 codes] of the category [cat_500] asks for five codes of
    a category [cat], which the sheet does not hold. *)
Lemma quantity_button_cuts_category_id_witness :
  let w := Sample.world (Sample.users "Active" "Yes")
             [Sample.category_headers;
              ["cat_500"; "500"; "50"; "45"; "40"; "35"; "9"; "A"]] [] in
  Part000.on_callback_quantity (mkCallbackQuery 7 7 "qty_5_cat_500") w
  = (Ok tt, say (ToChat 7) MCategoryMissing w).
Proof.
  intros w.
  refine (eq_trans (proj1 (quantity_button_cuts_category_id 1 7 7 "5" "cat" "500" w
                             Sample.no_quantity_flow Sample.no_order_flow
                             Sample.no_category_flow None 0 0 eq_refl eq_refl)) _).
  vm_compute. reflexivity.
Defined.

End QuantityButtonsInstance.

(** ** The ordering flow and the Users sheet *)

Section OrderingIgnoresUsers.

Lemma ignores_users_ret {A} (a : A) : ignores_users (mret a).
Proof. by intros g w. Qed.

Lemma ignores_users_throw {A} e : ignores_users (throw e : M A).
Proof. by intros g w. Qed.

Lemma ignores_users_bind {A B} (m : M A) (k : A → M B) :
  ignores_users m → (∀ a, ignores_users (k a)) → ignores_users (m ≫= k).
Proof.
  intros Hm Hk g w. rewrite !bind_run, Hm.
  destruct (m w) as [[a|e] w1]; simpl; [apply Hk|done].
Qed.

Lemma ignores_users_service_call : ignores_users service_call.
Proof.
  intros g w. unfold service_call. rewrite faults_set_sheet.
  destruct (faults w) as [|[] fs]; reflexivity.
Qed.

Lemma ignores_users_send d m : ignores_users (send d m).
Proof. by intros g w. Qed.

Lemma ignores_users_get_session userId : ignores_users (get_session userId).
Proof. by intros g w. Qed.

Lemma ignores_users_put_session userId s : ignores_users (put_session userId s).
Proof. by intros g w. Qed.

Lemma ignores_users_delete_session userId : ignores_users (delete_session userId).
Proof. by intros g w. Qed.

Lemma ignores_users_update_session userId f : ignores_users (update_session userId f).
Proof.
  apply ignores_users_bind; [apply ignores_users_get_session|].
  intros [s|]; [apply ignores_users_put_session|apply ignores_users_throw].
Qed.

Lemma ignores_users_getRows n : n ≠ Users → ignores_users (Part000.getRows n).
Proof.
  intros Hn. unfold Part000.getRows, sheets_get.
  apply ignores_users_bind; [|intros; apply ignores_users_ret].
  apply ignores_users_bind; [apply ignores_users_service_call|].
  intros _ g w. by destruct n.
Qed.

Lemma ignores_users_updateRow n col v nd :
  n ≠ Users → ignores_users (Part000.updateRow n col v nd).
Proof.
  intros Hn. unfold Part000.updateRow.
  apply ignores_users_bind; [by apply ignores_users_getRows|]. intros rows.
  destruct (list_find _ rows) as [[i r]|]; [|apply ignores_users_ret].
  apply ignores_users_bind; [|intros; apply ignores_users_ret].
  unfold sheets_update.
  apply ignores_users_bind; [apply ignores_users_service_call|].
  intros _ g w. by destruct n.
Qed.

Lemma ignores_users_appendRow n row : n ≠ Users → ignores_users (Part000.appendRow n row).
Proof.
  intros Hn. unfold Part000.appendRow, sheets_append.
  apply ignores_users_bind; [apply ignores_users_service_call|].
  intros _ g w. by destruct n.
Qed.

Ltac ignores_users_prim :=
  first
    [ apply ignores_users_ret | apply ignores_users_throw | apply ignores_users_send
    | apply ignores_users_get_session | apply ignores_users_put_session
    | apply ignores_users_delete_session | apply ignores_users_update_session
    | apply ignores_users_getRows; discriminate
    | apply ignores_users_updateRow; discriminate
    | apply ignores_users_appendRow; discriminate
    | apply ignores_users_bind; [|intros ?] ].

Lemma ignores_users_processQuantity chatId userId categoryId q :
  ignores_users (Part000.processQuantityAndShowPayment chatId userId categoryId q).
Proof.
  unfold Part000.processQuantityAndShowPayment.
  repeat ignores_users_prim.
  destruct (find _ _) as [cat|]; [|ignores_users_prim].
  destruct (number_lt _ _); [repeat ignores_users_prim|].
  destruct (Part000.resolvePrice cat q); repeat ignores_users_prim.
Qed.

Ltac ignores_users_step :=
  first [ apply ignores_users_processQuantity | ignores_users_prim ].

(** X15.  Between the choice of a quantity and the approval of the order, no
    handler of the listing looks at the Users sheet: on a world that differs
    in that sheet alone (a user blocked, or removed) each of them returns
    the same, sends the same and writes the same.  Blocking a user does not
    stop an order of that user, nor its approval. *)
Theorem ordering_never_looks_at_users (ADMIN_ID : Z) (cq : CallbackQuery) (msg : Message)
    (r1 r2 now : string) (chatId : Z) (orderId : string) :
  ignores_users (Part000.on_callback_quantity cq) ∧
  ignores_users (Part000.on_message_custom_qty msg) ∧
  ignores_users (Part000.on_callback_submit_proof cq) ∧
  ignores_users (Part000.on_message_proof ADMIN_ID r1 r2 now msg) ∧
  ignores_users (Part000.approve chatId orderId).
Proof.
  repeat split.
  - unfold Part000.on_callback_quantity. cbv zeta.
    destruct (strip_prefix "select_qty_" (data cq)) as [categoryId|].
    + repeat ignores_users_step. destruct (find _ _); ignores_users_step.
    + destruct (startsWith (data cq) "qty_"); [|ignores_users_step].
      destruct (decide _); [repeat ignores_users_step|].
      destruct (parseInt_cell _); ignores_users_step.
  - unfold Part000.on_message_custom_qty. cbv zeta.
    ignores_users_step; [ignores_users_step|].
    destruct a as [userState|]; [|ignores_users_step].
    destruct (decide _); [|ignores_users_step].
    destruct (parseInt_cell _) as [|q]; [repeat ignores_users_step|].
    destruct (0 <? q); repeat ignores_users_step.
  - unfold Part000.on_callback_submit_proof. cbv zeta.
    destruct (decide _); repeat ignores_users_step.
  - unfold Part000.on_message_proof. cbv zeta.
    ignores_users_step; [ignores_users_step|].
    destruct a as [userState|]; [|ignores_users_step].
    destruct (decide _).
    { destruct (last _); repeat ignores_users_step. }
    destruct (decide _); [|ignores_users_step].
    destruct (text msg) as [t|]; [|ignores_users_step].
    destruct (Part000.utr_accepted _); [|repeat ignores_users_step].
    ignores_users_step; [ignores_users_step|].
    unfold Part000.submitOrder. repeat ignores_users_step.
  - unfold Part000.approve.
    ignores_users_step; [ignores_users_step|].
    destruct (find _ a) as [order|]; [|ignores_users_step].
    destruct (decide _); [ignores_users_step|]. cbv zeta.
    ignores_users_step; [ignores_users_step|].
    destruct (find _ a0) as [cat|]; [|ignores_users_step].
    destruct (lt_cells _ _); [ignores_users_step|].
    destruct (number_lt _ _); [ignores_users_step|].
    destruct (splice0 _ _) as [released left].
    repeat ignores_users_step.
Qed.

End OrderingIgnoresUsers.

(** ** Who reaches the admin inputs *)

Section AdminInputs.

Variable ADMIN_ID : Z.
Variable processQuantityAndShowPayment : Z → Z → option string → Z → M unit.
Variable submitOrder : Z → Z → string → string → M unit.

(** X16.  A session in an admin state does not make its owner an admin: the
    message listener of [src/index.js] hands a text to the admin inputs
    only when the sender is the admin.  A text of anybody else in such a
    state gets the fallback answer (or none, for a command); no sheet is
    read or written and the session stays as it is. *)
Theorem admin_inputs_only_from_admin (n1 n2 : Z) (now : string) (msg : Message)
    (s : Session) (st : SState) (t : string) (w : World) :
  from_id msg ≠ ADMIN_ID →
  userStates w !! from_id msg = Some s →
  state s = Some st →
  is_admin_state st = true →
  text msg = Some t →
  IndexJs.on_message ADMIN_ID processQuantityAndShowPayment submitOrder n1 n2 now msg w =
  (Ok tt,
   if negb (startsWith t "/") && bool_decide (t ≠ "/cancel")
   then say (ToChat (chat_id msg)) MMainMenu (say (ToChat (chat_id msg)) MNotUnderstood w)
   else w).
Proof.
  intros Hna Hs Hst Hadm Ht. unfold IndexJs.on_message.
  rewrite bind_run, get_session_run, Hs.
  unfold IndexJs.state_is.
  change (Some s ≫= state) with (state s). rewrite Hst.
  destruct st; try discriminate Hadm;
    (repeat (rewrite bool_decide_false by congruence));
    rewrite decide_False by done; rewrite Ht;
    destruct (negb (startsWith t "/") && bool_decide (t ≠ "/cancel")); reflexivity.
Qed.

End AdminInputs.

Section AdminInputsInstance.

Lemma admin_inputs_only_from_admin_witness :
  let w := set_userStates {[ 2 := session_in adm_waiting_for_block_id ]} Sample.stocked in
  IndexJs.on_message 1 Sample.no_quantity_flow Sample.no_order_flow 3 4 "now"
    (Sample.text_message 2 "42") w =
  (Ok tt, say (ToChat 2) MMainMenu (say (ToChat 2) MNotUnderstood w)).
Proof.
  intros w.
  refine (admin_inputs_only_from_admin 1 Sample.no_quantity_flow Sample.no_order_flow 3 4
            "now" (Sample.text_message 2 "42") (session_in adm_waiting_for_block_id)
            adm_waiting_for_block_id "42" w _ eq_refl eq_refl eq_refl eq_refl).
  discriminate.
Defined.

End AdminInputsInstance.

(** ** Broadcast and blocking *)

Section AdminFlows.

Variable ADMIN_ID : Z.

Lemma say_after_outbox d m o w :
  say d m (set_outbox o w) = set_outbox (o ++ [(d, m)]) w.
Proof. reflexivity. Qed.

Lemma set_outbox_same w : set_outbox (outbox w) w = w.
Proof. by destruct w. Qed.

(** The loop of the broadcast: one message for each row whose id parses. *)
Lemma broadcast_loop_run text (users : list Obj) o w :
  IndexJs.broadcast_loop text users (set_outbox o w) =
  (Ok tt,
   set_outbox
     (o ++ omap (λ u, match parseInt_cell (obj_get u "UserID") with
                      | Int id => Some (ToChat id, MBroadcast text)
                      | NaN => None
                      end) users) w).
Proof.
  revert o. induction users as [|u rest IH]; intros o.
  - simpl. by rewrite app_nil_r.
  - simpl IndexJs.broadcast_loop. simpl omap.
    destruct (parseInt_cell (obj_get u "UserID")) as [|id].
    + rewrite bind_run.
      change ((mret () : M unit) (set_outbox o w)) with (Ok (), set_outbox o w).
      cbv iota beta. apply IH.
    + rewrite bind_run, send_run, say_after_outbox. cbv iota beta.
      rewrite IH. by rewrite <- app_assoc.
Qed.

(** X17.  The broadcast input: the admin is told that the sending starts, every
    row of the Users sheet whose UserID cell starts with a number gets the
    text once, in the order of the sheet, rows without such an id are
    skipped, the admin is told the end, and the session is dropped.  The
    handler then ends in the TypeError of its last line. *)
Theorem broadcast_reaches_each_listed_user (now : string) (msg : Message) (s : Session)
    (w : World) :
  faults w = [] →
  state s = Some adm_waiting_for_broadcast_message →
  IndexJs.on_admin_input ADMIN_ID now msg (Some s) w =
  (Throw TypeError,
   forget (from_id msg)
     (set_outbox
        (outbox w ++ [(ToChat (chat_id msg), MBroadcasting)] ++
         omap (λ u, match parseInt_cell (obj_get u "UserID") with
                    | Int id => Some (ToChat id, MBroadcast (text msg))
                    | NaN => None
                    end) (users_of w) ++
         [(ToChat (chat_id msg), MBroadcastDone)]) w)).
Proof.
  intros Hf Hst. unfold IndexJs.on_admin_input. rewrite Hst.
  rewrite bind_run, send_run. cbv iota beta.
  rewrite bind_run, (getSheetRows_quiet ADMIN_ID) by done. cbv iota beta.
  rewrite sheet_say. unfold say.
  rewrite bind_run, broadcast_loop_run. cbv iota beta.
  rewrite bind_run, send_run, say_after_outbox. cbv iota beta.
  rewrite bind_run, delete_session_run. cbv iota beta.
  unfold IndexJs.simulate_admin_command, throw. unfold users_of.
  by rewrite <- !app_assoc.
Qed.


End AdminFlows.

Section AdminFlowsInstance.

Lemma broadcast_reaches_each_listed_user_witness :
  outbox (snd (IndexJs.on_admin_input 1 "now" (Sample.text_message 1 "hello")
                 (Some (session_in adm_waiting_for_broadcast_message)) Sample.stocked)) =
  [(ToChat 1, MBroadcasting); (ToChat 42, MBroadcast (Some "hello"));
   (ToChat 1, MBroadcastDone)].
Proof.
  rewrite (broadcast_reaches_each_listed_user 1 "now" (Sample.text_message 1 "hello")
             (session_in adm_waiting_for_broadcast_message) Sample.stocked eq_refl eq_refl).
  reflexivity.
Defined.


End AdminFlowsInstance.

(** ** Creating a category *)

Section NewCategory.

Variable ADMIN_ID : Z.

Lemma userStates_set_userStates u w : userStates (set_userStates u w) = u.
Proof. reflexivity. Qed.

Lemma startsWith_slash_false a r : a ≠ "/"%char → startsWith (String a r) "/" = false.
Proof.
  intros Hne. unfold startsWith. cbn [strip_prefix].
  destruct (Ascii.eqb_spec "/" a) as [E|_]; [by subst|].
  by apply bool_decide_eq_false_2, is_Some_None.
Qed.

Lemma parseInt_no_slash t v : parseInt t = Int v → startsWith t "/" = false.
Proof.
  destruct t as [|a r]; [done|]. intros H.
  destruct (decide (a = "/"%char)) as [->|Hne]; [by destruct r; vm_compute in H|].
  by apply startsWith_slash_false.
Qed.

Lemma parseFloat_no_slash t : number_isNaN (parseFloat t) = false → startsWith t "/" = false.
Proof.
  destruct t as [|a r]; [done|]. intros H.
  destruct (decide (a = "/"%char)) as [->|Hne]; [by vm_compute in H|].
  by apply startsWith_slash_false.
Qed.

Lemma startsWith_msg t : startsWith t "/" = false → startsWith t "/msg" = false.
Proof.
  destruct t as [|a r]; [done|]. unfold startsWith. cbn [strip_prefix].
  destruct (Ascii.eqb "/" a); [|done].
  intros H. apply bool_decide_eq_false in H. destruct H. by eexists.
Qed.

(** What the last listener does with a text that is no command, from a
    user whose session is in none of the states it leaves alone: it answers
    that it does not understand and shows the main menu. *)
Lemma catch_all_answers (msg : Message) (t : string) (w : World) :
  text msg = Some t → startsWith t "/" = false →
  userStates w !! from_id msg ≫= state ≠ Some in_support_mode →
  Part000.awaits_input (userStates w !! from_id msg ≫= state) = false →
  Part000.on_message_catch_all ADMIN_ID msg w =
  (Ok tt, say (ToChat (chat_id msg)) MMainMenu (say (ToChat (chat_id msg)) MNotUnderstood w)).
Proof.
  intros Ht Hsl Hsup Haw. unfold Part000.on_message_catch_all.
  rewrite Ht. change (default "" (Some t))%string with t.
  rewrite (startsWith_msg t Hsl), andb_false_r.
  rewrite bind_run, get_session_run. cbv iota beta.
  rewrite decide_False by done. rewrite Hsl, Haw.
  change (negb false && negb false) with true. cbv iota.
  unfold Part000.showMainMenu. rewrite bind_run, !send_run. reflexivity.
Qed.

(** X19.  The two inputs of a new category, one after the other, as the
    listener of lines 656-691 handles them: a face value that [parseInt]
    reads as a positive whole number (up to 2^53) and a price that
    [parseFloat] reads as a number above zero put one row below the
    Categories sheet.  Its id is [cat_] followed by the value, its third
    cell and its last four hold the price as [toFixed(2)] prints the double,
    its fourth is 0 and its fifth empty.  The listener asks for the price
    after the first input and reports the category after the second, and
    the session is gone afterwards.  The last listener (lines 694-740)
    answers each of the two inputs as well: that it does not understand,
    and the main menu. *)
Theorem new_category_row (m1 m2 : Message) (t1 t2 : string) (value : Z) (price : number)
    (w : World) :
  faults w = [] →
  from_id m1 = ADMIN_ID → from_id m2 = ADMIN_ID →
  userStates w !! ADMIN_ID = Some (session_in adm_waiting_for_cat_value) →
  text m1 = Some t1 → parseInt t1 = Int value → 0 < value → value ≤ 2 ^ 53 →
  text m2 = Some t2 → parseFloat t2 = price →
  number_isNaN price = false → number_le price (Int 0) = false →
  let p := toFixed2 price in
  ∃ w1 w2,
    Part000.on_message_admin ADMIN_ID m1 w = (Ok tt, w1) ∧
    Part000.on_message_admin ADMIN_ID m2 w1 = (Ok tt, w2) ∧
    sheet Categories w2 =
      sheet Categories w ++
      [["cat_" +:+ num_to_string (Int value); num_to_string (Int value); p; "0"; ""; p; p; p; p]] ∧
    userStates w2 !! ADMIN_ID = None ∧
    outbox w2 = outbox w ++ [(ToChat (chat_id m1), MAskCatPrice value);
                             (ToChat (chat_id m2), MCategoryCreated value price)] ∧
    (∀ m, m = m1 ∨ m = m2 →
          Part000.on_message_catch_all ADMIN_ID m w1 =
          (Ok tt, say (ToChat (chat_id m)) MMainMenu
                    (say (ToChat (chat_id m)) MNotUnderstood w1))).
Proof.
  intros Hf Hm1 Hm2 Hs Ht1 Hv Hpos Hmax Ht2 Hp Hnan Hprice p.
  set (s1 := mkSession (Some adm_waiting_for_cat_price) None None None None None
               (Some value) None None).
  set (w1 := say (ToChat (chat_id m1)) (MAskCatPrice value)
               (set_userStates (<[ADMIN_ID := s1]> (userStates w)) w)).
  assert (Hs1 : userStates w1 !! ADMIN_ID = Some s1) by apply lookup_insert_eq.
  exists w1. eexists. split; [|split].
  - unfold Part000.on_message_admin. rewrite Hm1.
    rewrite bind_run, get_session_run, Hs. cbv iota beta.
    rewrite decide_False by (by intros H; apply H).
    rewrite decide_True by done.
    rewrite Ht1. unfold parseInt_cell. rewrite Hv.
    replace (value <=? 0) with false by (symmetry; apply Z.leb_gt; lia).
    unfold update_session.
    rewrite !bind_run, get_session_run, Hs. cbv iota beta.
    rewrite put_session_run. cbv iota beta.
    rewrite !bind_run, get_session_run, userStates_set_userStates, lookup_insert_eq.
    cbv iota beta. rewrite put_session_run. cbv iota beta. rewrite send_run.
    rewrite userStates_set_userStates, insert_insert_eq. reflexivity.
  - unfold Part000.on_message_admin. rewrite Hm2.
    rewrite bind_run, get_session_run, Hs1. cbv iota beta.
    rewrite decide_False by (by intros H; apply H).
    rewrite decide_False by done. rewrite decide_True by done.
    rewrite Ht2. unfold parseFloat_cell. cbv zeta. rewrite Hp, Hnan, Hprice.
    change (false || false) with false. cbv iota.
    rewrite bind_run, get_session_run, Hs1.
    change (Some s1 ≫= temp_cat_value) with (Some value). cbv iota beta.
    unfold Part000.appendRow, sheets_append.
    rewrite !bind_run, service_call_quiet by done. cbv iota beta.
    reflexivity.
  - simpl. split; [done|]. split; [apply lookup_delete_eq|].
    split; [by rewrite <- app_assoc|].
    intros m [->| ->].
    + apply (catch_all_answers m1 t1); [done | by eapply parseInt_no_slash | |];
        rewrite Hm1, Hs1; done.
    + apply (catch_all_answers m2 t2);
        [done | apply parseFloat_no_slash; by rewrite Hp | |];
        rewrite Hm2, Hs1; done.
Qed.

End NewCategory.

Section NewCategoryInstance.

(** "1.005" is read as the double just below it, so the price cells hold
    1.00. *)
Lemma new_category_row_witness :
  let w := set_userStates {[ 1 := session_in adm_waiting_for_cat_value ]} Sample.stocked in
  ∃ w1 w2,
    Part000.on_message_admin 1 (Sample.text_message 1 "500") w = (Ok tt, w1) ∧
    Part000.on_message_admin 1 (Sample.text_message 1 "1.005") w1 = (Ok tt, w2) ∧
    sheet Categories w2 =
      sheet Categories w ++
      [["cat_500"; "500"; "1.00"; "0"; ""; "1.00"; "1.00"; "1.00"; "1.00"]].
Proof.
  intros w.
  destruct (new_category_row 1 (Sample.text_message 1 "500") (Sample.text_message 1 "1.005")
              "500" "1.005" 500 (parseFloat "1.005") w)
    as (w1 & w2 & H1 & H2 & H3 & _); try reflexivity; try (by vm_compute).
  exists w1, w2. split; [exact H1|]. split; [exact H2|].
  rewrite H3. vm_compute. reflexivity.
Defined.

End NewCategoryInstance.

(** ** The steps before an order *)

Section OrderSteps.

Variable ADMIN_ID : Z.

Lemma say_keeps_sessions d m w : userStates (say d m w) = userStates w.
Proof. reflexivity. Qed.

Lemma put_same_session userId (s : Session) w :
  userStates w !! userId = Some s →
  set_userStates (<[userId := s]> (userStates w)) w = w.
Proof. intros H. destruct w. unfold set_userStates. simpl in *. by rewrite insert_id. Qed.

(** X20.  The [Paid] button and the screenshot after it.  Without a session the
    button ends in a TypeError and nothing is sent.  With one, whatever its
    state, the two steps lead to the UTR state and keep what the session
    held (category, quantity, total); the proof is the last, largest, photo
    of the message.  No sheet is touched. *)
Theorem proof_steps_keep_the_order_data (r1 r2 now : string) (cq : CallbackQuery)
    (msg : Message) (w : World) :
  data cq = "submit_proof" →
  from_id msg = cq_from_id cq →
  (userStates w !! cq_from_id cq = None →
   Part000.on_callback_submit_proof cq w = (Throw TypeError, w)) ∧
  (∀ s f,
     userStates w !! cq_from_id cq = Some s →
     last (photo msg) = Some f →
     ∃ w1 w2,
       Part000.on_callback_submit_proof cq w = (Ok tt, w1) ∧
       Part000.on_message_proof ADMIN_ID r1 r2 now msg w1 = (Ok tt, w2) ∧
       userStates w2 !! cq_from_id cq =
         Some (mkSession (Some waiting_for_utr) (answer s) (categoryId s) (qty s)
                 (totalCost s) (Some f) (temp_cat_value s) (tier s) (dmTargetId s)) ∧
       outbox w2 = outbox w ++ [(ToChat (cq_chat_id cq), MAskScreenshot);
                                (ToChat (chat_id msg), MScreenshotReceived)] ∧
       ∀ n, sheet n w2 = sheet n w).
Proof.
  intros Hdata Hfrom. split.
  - intros Hnone. unfold Part000.on_callback_submit_proof, update_session.
    rewrite decide_True by done.
    by rewrite !bind_run, get_session_run, Hnone.
  - intros s f Hs Hf.
    set (s1 := with_state (Some waiting_for_screenshot) s).
    set (w1 := say (ToChat (cq_chat_id cq)) MAskScreenshot
                 (set_userStates (<[cq_from_id cq := s1]> (userStates w)) w)).
    assert (Hs1 : userStates w1 !! cq_from_id cq = Some s1) by apply lookup_insert_eq.
    exists w1. eexists. split; [|split].
    + unfold Part000.on_callback_submit_proof, update_session.
      rewrite decide_True by done.
      by rewrite !bind_run, get_session_run, Hs.
    + unfold Part000.on_message_proof, update_session. rewrite Hfrom.
      rewrite bind_run, get_session_run, Hs1. cbv iota beta.
      rewrite decide_True by done. rewrite Hf.
      rewrite !bind_run, get_session_run, Hs1. cbv iota beta.
      rewrite put_session_run. cbv iota beta.
      rewrite !bind_run, get_session_run, userStates_set_userStates, lookup_insert_eq.
      cbv iota beta. rewrite put_session_run. cbv iota beta. rewrite send_run.
      reflexivity.
    + split; [apply lookup_insert_eq|]. split; [|by intros []].
      simpl. by rewrite <- app_assoc.
Qed.

(** X21.  A typed quantity that is no positive number: the user is asked again,
    the session stays as it was, and nothing else happens.  The listener
    of either listing does so. *)
Theorem custom_quantity_asks_again (pq : Z → Z → option string → Z → M unit)
    (so : Z → Z → string → string → M unit) (n1 n2 : Z) (now : string)
    (msg : Message) (s : Session) (w : World) :
  userStates w !! from_id msg = Some s →
  state s = Some waiting_for_custom_qty_input →
  match parseInt_cell (text msg) with Int q => q ≤ 0 | NaN => True end →
  Part000.on_message_custom_qty msg w = (Ok tt, say (ToChat (chat_id msg)) MInvalidQuantity w) ∧
  IndexJs.on_message ADMIN_ID pq so n1 n2 now msg w
    = (Ok tt, say (ToChat (chat_id msg)) MInvalidQuantity w).
Proof.
  intros Hs Hst Hbad.
  assert (Hkeep : with_state (Some waiting_for_custom_qty_input) s = s).
  { destruct s. simpl in Hst. by subst. }
  assert (Hagain :
    (send (ToChat (chat_id msg)) MInvalidQuantity ;;
     update_session (from_id msg) (with_state (Some waiting_for_custom_qty_input))) w
    = (Ok tt, say (ToChat (chat_id msg)) MInvalidQuantity w)).
  { unfold update_session.
    rewrite bind_run, send_run. cbv iota beta.
    rewrite bind_run, get_session_run, say_keeps_sessions, Hs. cbv iota beta.
    rewrite put_session_run, Hkeep, say_keeps_sessions.
    rewrite <- (say_keeps_sessions (ToChat (chat_id msg)) MInvalidQuantity w) at 1.
    by rewrite put_same_session. }
  split.
  - unfold Part000.on_message_custom_qty.
    rewrite bind_run, get_session_run, Hs. cbv iota beta.
    rewrite decide_True by done.
    destruct (parseInt_cell (text msg)) as [|q]; [exact Hagain|].
    replace (0 <? q) with false by (symmetry; apply Z.ltb_ge; lia). exact Hagain.
  - unfold IndexJs.on_message, IndexJs.state_is.
    rewrite bind_run, get_session_run, Hs. cbv iota beta.
    change (Some s ≫= state) with (state s). rewrite Hst.
    rewrite bool_decide_false by done. rewrite bool_decide_true by done.
    destruct (parseInt_cell (text msg)) as [|q]; [exact Hagain|].
    replace (0 <? q) with false by (symmetry; apply Z.ltb_ge; lia). exact Hagain.
Qed.

(** X22.  A wrong captcha answer (a text that is no number, or another number):
    the user is told so and gets a fresh captcha, whose sum replaces the
    expected answer; the Users sheet is not read.  There is no count of the
    attempts. *)
Theorem wrong_captcha_answer_gets_a_new_one (n1 n2 : Z) (now : string) (msg : Message)
    (s : Session) (w : World) :
  userStates w !! from_id msg = Some s →
  state s = Some waiting_for_captcha →
  parseInt_cell (text msg) = NaN ∨ Some (parseInt_cell (text msg)) ≠ Int <$> answer s →
  Part000.on_message_captcha n1 n2 now msg w =
  (Ok tt,
   say (ToChat (chat_id msg)) (MCaptcha n1 n2)
     (set_userStates
        (<[from_id msg := mkSession (Some waiting_for_captcha) (Some (n1 + n2)) None None None
                            None None None None]> (userStates w))
        (say (ToChat (chat_id msg)) MWrongAnswer w))).
Proof.
  intros Hs Hst Hwrong. unfold Part000.on_message_captcha.
  rewrite bind_run, get_session_run, Hs. cbv iota beta.
  rewrite decide_True by done.
  assert (Hno : negb (isNaN (parseInt_cell (text msg))) &&
                bool_decide (Some (parseInt_cell (text msg)) = Int <$> answer s) = false).
  { destruct Hwrong as [->|Hne]; [done|].
    rewrite bool_decide_false by done. apply andb_false_r. }
  rewrite Hno. reflexivity.
Qed.

End OrderSteps.

Section OrderStepsInstance.

Lemma proof_steps_keep_the_order_data_witness :
  let w := set_userStates
             {[ 9 := mkSession (Some waiting_for_proof) None (Some "cat500") (Some 2)
                       (Some (Num (Int 100))) None None None None ]} Sample.stocked in
  ∃ w1 w2,
    Part000.on_callback_submit_proof (Sample.button 9 "submit_proof") w = (Ok tt, w1) ∧
    Part000.on_message_proof 1 "A" "B" "now"
      (mkMessage 9 9 "Bob" None ["small"; "large"] None) w1 = (Ok tt, w2) ∧
    userStates w2 !! 9 =
      Some (mkSession (Some waiting_for_utr) None (Some "cat500") (Some 2) (Some (Num (Int 100)))
              (Some "large") None None None).
Proof.
  intros w.
  destruct (proj2 (proof_steps_keep_the_order_data 1 "A" "B" "now"
                     (Sample.button 9 "submit_proof")
                     (mkMessage 9 9 "Bob" None ["small"; "large"] None) w eq_refl eq_refl)
              (mkSession (Some waiting_for_proof) None (Some "cat500") (Some 2)
                 (Some (Num (Int 100))) None None None None) "large" eq_refl eq_refl)
    as (w1 & w2 & H1 & H2 & H3 & _).
  exists w1, w2. split; [exact H1|]. split; [exact H2|exact H3].
Defined.

Lemma custom_quantity_asks_again_witness :
  let w := set_userStates {[ 9 := IndexJs.session_for waiting_for_custom_qty_input
                                    (Some "cat500") ]} Sample.stocked in
  Part000.on_message_custom_qty (Sample.text_message 9 "-3") w
  = (Ok tt, say (ToChat 9) MInvalidQuantity w).
Proof.
  intros w.
  refine (proj1 (custom_quantity_asks_again 1 Sample.no_quantity_flow Sample.no_order_flow
                   0 0 "now" (Sample.text_message 9 "-3")
                   (IndexJs.session_for waiting_for_custom_qty_input (Some "cat500")) w
                   eq_refl eq_refl _)).
  vm_compute. discriminate.
Defined.

Lemma wrong_captcha_answer_gets_a_new_one_witness :
  let w := set_userStates
             {[ 9 := mkSession (Some waiting_for_captcha) (Some 7) None None None None None
                       None None ]} Sample.stocked in
  outbox (snd (Part000.on_message_captcha 2 3 "now" (Sample.text_message 9 "8") w))
  = [(ToChat 9, MWrongAnswer); (ToChat 9, MCaptcha 2 3)].
Proof.
  intros w.
  rewrite (wrong_captcha_answer_gets_a_new_one 2 3 "now" (Sample.text_message 9 "8")
             (mkSession (Some waiting_for_captcha) (Some 7) None None None None None None None)
             w eq_refl eq_refl).
  - reflexivity.
  - right. vm_compute. discriminate.
Defined.

End OrderStepsInstance.

(** ** Blocking, then [/start] *)

Section BlockThenStart.

Variable ADMIN_ID : Z.

Lemma sheet_forget n userId w : sheet n (forget userId w) = sheet n w.
Proof. by destruct n. Qed.


End BlockThenStart.

Section BlockThenStartInstance.


End BlockThenStartInstance.

(** ** Instances of the guards *)

Section GuardInstances.

Lemma admin_callback_guard_witness :
  Part000.on_callback_admin 1 (Sample.button 2 "adm_approve_SVH-1") Sample.stocked =
  (Ok tt, say (ToChat 2) MAccessDenied Sample.stocked).
Proof.
  apply (admin_callback_guard 1 (Sample.button 2 "adm_approve_SVH-1") Sample.stocked).
  discriminate.
Defined.

Lemma utr_twelve_digits_accepted_witness :
  Part000.utr_accepted "123456789012" = true.
Proof.
  apply (utr_twelve_digits_accepted "123456789012"); reflexivity.
Defined.

Lemma utr_rejected_reprompts_witness :
  Part000.on_message_proof 1 "A" "B" "now" (Sample.text_message 9 "12345") Sample.paying =
  (Ok tt, say (ToChat 9) MInvalidUtr Sample.paying).
Proof.
  refine (eq_trans (utr_rejected_reprompts "A" "B" "now" (Sample.text_message 9 "12345")
                      "12345" _ Sample.paying eq_refl eq_refl eq_refl eq_refl) _).
  vm_compute. reflexivity.
Defined.

End GuardInstances.

(** ** The two listings side by side *)

Section Listings.

Variable ADMIN_ID : Z.
Variable processQuantityAndShowPayment : Z → Z → option string → Z → M unit.
Variable submitOrder : Z → Z → string → string → M unit.

(** X28.  A text from a user in support mode (other than [/cancel]) is
    handled by two of the [message] listeners of [src/unnamed/part_000]:
    the listener of lines 493-516 and the last listener (lines 694-740)
    each forward it to the admin and tell the user so, and run one after
    the other they leave four messages.  The one [message] listener of
    [src/index.js] forwards it once, whatever the functions are that the
    listing calls and does not define. *)
Theorem support_text_is_forwarded_twice (n1 n2 : Z) (now : string) (msg : Message)
    (s : Session) (t : string) (w : World) :
  userStates w !! from_id msg = Some s →
  state s = Some in_support_mode →
  text msg = Some t → t ≠ "/cancel" →
  (from_id msg = ADMIN_ID → startsWith t "/msg" = false) →
  let report :=
    match last (photo msg) with
    | Some file_id => MSupportPhoto (from_id msg) file_id (caption msg)
    | None => MSupportText (from_id msg) (Some t)
    end in
  let forwarded w :=
    say (ToChat (chat_id msg)) MSupportForwarded (say (ToChat ADMIN_ID) report w) in
  Part000.on_message_support ADMIN_ID msg w = (Ok tt, forwarded w) ∧
  Part000.on_message_catch_all ADMIN_ID msg w = (Ok tt, forwarded w) ∧
  (Part000.on_message_support ADMIN_ID msg ;; Part000.on_message_catch_all ADMIN_ID msg) w
    = (Ok tt, forwarded (forwarded w)) ∧
  IndexJs.on_message ADMIN_ID processQuantityAndShowPayment submitOrder n1 n2 now msg w
    = (Ok tt, forwarded w).
Proof.
  intros Hs Hst Ht Hne Hmsg report forwarded.
  assert (Hcancel : text msg ≠ Some "/cancel") by (rewrite Ht; congruence).
  assert (Hsupport : ∀ w', userStates w' !! from_id msg = Some s →
            Part000.on_message_support ADMIN_ID msg w' = (Ok tt, forwarded w')).
  { intros w' Hs'. unfold Part000.on_message_support.
    rewrite bind_run, get_session_run, Hs'. cbv iota beta.
    rewrite decide_True by done. rewrite decide_False by done.
    unfold forwarded, report. rewrite Ht.
    destruct (last (photo msg)); rewrite bind_run, !send_run; reflexivity. }
  assert (Hlast : ∀ w', userStates w' !! from_id msg = Some s →
            Part000.on_message_catch_all ADMIN_ID msg w' = (Ok tt, forwarded w')).
  { intros w' Hs'. unfold Part000.on_message_catch_all.
    rewrite Ht. change (default "" (Some t))%string with t.
    assert (Hfirst : bool_decide (from_id msg = ADMIN_ID) && truthy (Some t) &&
                     startsWith t "/msg" = false).
    { destruct (decide (from_id msg = ADMIN_ID)) as [E|E].
      - by rewrite (Hmsg E), andb_false_r.
      - by rewrite (bool_decide_false _ E). }
    rewrite Hfirst. rewrite bind_run, get_session_run, Hs'. cbv iota beta.
    change (Some s ≫= state) with (state s).
    rewrite decide_True by done. rewrite decide_False by congruence.
    unfold forwarded, report.
    destruct (last (photo msg)); rewrite bind_run, !send_run; reflexivity. }
  split; [by apply Hsupport|]. split; [by apply Hlast|]. split.
  - rewrite bind_run, (Hsupport w Hs). cbv iota beta. by apply Hlast.
  - unfold IndexJs.on_message, IndexJs.state_is.
    rewrite bind_run, get_session_run, Hs. cbv iota beta.
    change (Some s ≫= state) with (state s).
    rewrite Hst. do 5 (rewrite bool_decide_false by done).
    rewrite bool_decide_true by done. rewrite decide_False by done.
    unfold forwarded, report. rewrite Ht.
    destruct (last (photo msg)); rewrite bind_run, !send_run; reflexivity.
Qed.

End Listings.

Section ListingsInstance.

(** User 7 in support mode writes to the admin, user 1. *)
Lemma support_text_is_forwarded_twice_witness :
  let w := set_userStates {[ 7 := session_in in_support_mode ]} Sample.stocked in
  let msg := Sample.text_message 7 "Where is my code?" in
  outbox (snd ((Part000.on_message_support 1 msg ;; Part000.on_message_catch_all 1 msg) w)) =
    [(ToChat 1, MSupportText 7 (Some "Where is my code?")); (ToChat 7, MSupportForwarded);
     (ToChat 1, MSupportText 7 (Some "Where is my code?")); (ToChat 7, MSupportForwarded)] ∧
  outbox (snd (IndexJs.on_message 1 Sample.no_quantity_flow Sample.no_order_flow 3 4 "now"
                 msg w)) =
    [(ToChat 1, MSupportText 7 (Some "Where is my code?")); (ToChat 7, MSupportForwarded)].
Proof.
  intros w msg.
  destruct (support_text_is_forwarded_twice 1 Sample.no_quantity_flow Sample.no_order_flow
              3 4 "now" msg (session_in in_support_mode) "Where is my code?" w)
    as (_ & _ & H3 & H4); try reflexivity; try discriminate.
  rewrite H3, H4. split; reflexivity.
Defined.

End ListingsInstance.

(** ** Looking a user up *)

Section UserLookup.

(** X29.  The row that decides at the entrances is the first whose UserID cell
    denotes the number of the user (the comparison converts the cell, so
    42.0 denotes 42); ids and cells are numbers a double holds exactly.
    When that row is Blocked, the listeners of [/start] (lines 71-100) and
    of [Buy Vouchers] (lines 184-210) answer with the refusal alone; the
    categories are not read.  The last listener (lines 694-740) hears the
    same message: a text that is no command, from a user without a
    session, it answers with the main menu all the same. *)
Theorem blocked_user_stops_at_the_entrances (ADMIN_ID : Z) (msg : Message) (u : Obj)
    (w : World) :
  faults w = [] →
  Z.abs (from_id msg) ≤ 2 ^ 53 →
  Forall (λ u, safe_number (cell_to_number (obj_get u "UserID")) = true) (users_of w) →
  find (λ u, loose_eq_num (obj_get u "UserID") (Int (from_id msg)) = true) (users_of w)
    = Some u →
  obj_get u "Status" = Some "Blocked" →
  Part000.on_start msg w = (Ok tt, say (ToChat (chat_id msg)) MBlocked w) ∧
  Part000.on_buy_vouchers msg w = (Ok tt, say (ToChat (chat_id msg)) MBlocked w) ∧
  (∀ t, text msg = Some t → startsWith t "/" = false →
        userStates w !! from_id msg = None →
        Part000.on_message_catch_all ADMIN_ID msg w =
        (Ok tt, say (ToChat (chat_id msg)) MMainMenu
                  (say (ToChat (chat_id msg)) MNotUnderstood w))).
Proof.
  intros Hf _ _ Hfind Hblocked. unfold users_of in Hfind. split; [|split].
  3: { intros t Ht Hsl Hnone. apply (catch_all_answers ADMIN_ID msg t); try done;
         by rewrite Hnone. }
  - unfold Part000.on_start. rewrite bind_run, getRows_quiet by done. cbv iota beta zeta.
    rewrite Hfind. rewrite decide_True by done. apply send_run.
  - unfold Part000.on_buy_vouchers. rewrite bind_run, getRows_quiet by done.
    cbv iota beta zeta. rewrite Hfind.
    change (Some u ≫= (λ u0, obj_get u0 "Status")) with (obj_get u "Status").
    rewrite bool_decide_true by done. apply send_run.
Qed.

(** X30.  The captcha listener finds the user's row by the number its UserID
    cell denotes, and then writes to the row whose cell spells the id
    exactly.  When a row denotes the id and none spells it so, a right
    answer is confirmed to the user and the menu is shown, but the write
    finds no row: the Users sheet stays as it was and the row stays
    unverified. *)
Theorem captcha_write_misses_respelled_id (n1 n2 : Z) (now : string) (msg : Message)
    (s : Session) (a : Z) (u : Obj) (w : World) :
  faults w = [] →
  userStates w !! from_id msg = Some s →
  state s = Some waiting_for_captcha →
  answer s = Some a →
  parseInt_cell (text msg) = Int a →
  find (λ u, loose_eq_num (obj_get u "UserID") (Int (from_id msg)) = true) (users_of w)
    = Some u →
  list_find (λ u, obj_get u "UserID" = Some (user_id_string (from_id msg))) (users_of w)
    = None →
  Part000.on_message_captcha n1 n2 now msg w =
  (Ok tt,
   say (ToChat (chat_id msg)) MMainMenu
     (say (ToChat (chat_id msg)) MVerified (forget (from_id msg) w))).
Proof.
  intros Hf Hs Hst Ha Hparse Hloose Hstrict. unfold users_of in *.
  unfold Part000.on_message_captcha.
  rewrite bind_run, get_session_run, Hs. cbv iota beta.
  rewrite decide_True by done. rewrite Hparse, Ha.
  rewrite bool_decide_true by done. cbn [isNaN negb andb].
  rewrite bind_run, delete_session_run. cbv iota beta.
  rewrite bind_run, send_run. cbv iota beta.
  rewrite bind_run, getRows_quiet by done. cbv iota beta zeta.
  rewrite sheet_say, sheet_forget, Hloose.
  rewrite bind_run, updateRow_quiet by done.
  rewrite sheet_say, sheet_forget, Hstrict. reflexivity.
Qed.

End UserLookup.

Section UserLookupInstance.

(** The sheet lists user 42 as 42.0 and Blocked, above a row that spells
    the id 42 and is Active: the first row decides. *)
Lemma blocked_user_stops_at_the_entrances_witness :
  let w := Sample.world
             [Sample.user_headers; ["42.0"; "Ann"; "1/1/2025"; "Blocked"; "Yes"];
              ["42"; "Ann"; "2/1/2025"; "Active"; "Yes"]] [] [] in
  let msg := Sample.text_message 42 "Buy Vouchers" in
  Part000.on_buy_vouchers msg w = (Ok tt, say (ToChat 42) MBlocked w) ∧
  Part000.on_message_catch_all 1 msg w =
    (Ok tt, say (ToChat 42) MMainMenu (say (ToChat 42) MNotUnderstood w)).
Proof.
  intros w msg.
  destruct (blocked_user_stops_at_the_entrances 1 msg
              (row_object Sample.user_headers ["42.0"; "Ann"; "1/1/2025"; "Blocked"; "Yes"])
              w) as (_ & H2 & H3).
  - reflexivity.
  - by vm_compute.
  - repeat constructor.
  - vm_compute. reflexivity.
  - reflexivity.
  - split; [exact H2|]. by apply (H3 "Buy Vouchers").
Defined.

Lemma captcha_write_misses_respelled_id_witness :
  let w := set_userStates
             {[ 42 := mkSession (Some waiting_for_captcha) (Some 7) None None None None None
                        None None ]}
             (Sample.world [Sample.user_headers; ["042"; "Ann"; "1/1/2025"; "Pending"; "No"]]
                [] []) in
  sheet Users (snd (Part000.on_message_captcha 2 3 "now" (Sample.text_message 42 "7") w))
  = sheet Users w.
Proof.
  intros w.
  rewrite (captcha_write_misses_respelled_id 2 3 "now" (Sample.text_message 42 "7")
             (mkSession (Some waiting_for_captcha) (Some 7) None None None None None None None)
             7 (row_object Sample.user_headers ["042"; "Ann"; "1/1/2025"; "Pending"; "No"]) w);
    reflexivity.
Defined.

End UserLookupInstance.
